(** * Tethys: the SQL safety gateway and the query pipeline

    A shallow embedding of the validators, the candidate extraction and the
    pipeline glue of the Tethys repository:

    - [engine/main_app.py]        ([MainApp]):      [sanitize_sql], [run_sql_fetch]
    - [engine/rag_engine.py]      ([RagEngine]):    [generate_sql], [_sanitize_sql],
                                                    [execute_sql], [summarize_results]
    - [Frontend/streamlit_app.py] ([StreamlitApp]): [generate_sql], [sanitize_sql],
                                                    [run_sql_fetch]
    - [Frontend/stream_app.py]    ([StreamApp]):    the query processing block
    - [Scripts/retrieval.py]      ([Retrieval]):    [retrieve_docs]
    - [engine/LLM.py]             ([LLM]):          [generate_sql]
    - [engine/main_app.py]        ([MainAppRun]):   [generate_sql], the main workflow
    - [Frontend/stream_app.py]    ([StreamAppPage]): [safe_column], [visualize],
                                                    the display of the result
    - [Frontend/streamlit_app.py] ([StreamlitAppRun]): [get_data_summary], the
                                                    cached [generate_sql] and
                                                    [run_sql_fetch], [visualize],
                                                    the chat

    Text is a [string] of 8-bit characters; the Python string methods and the
    two regular expressions of the validators are modelled on the ASCII range
    (code points above 127 are neither blank, nor word characters, nor
    letters with a case).  The packages the code imports ([sqlparse], the
    database driver, the completion client, the vector index) are not part of
    the repository: they enter the development as parameters of the
    validators and of the pipeline, and the general statements hold for
    every behaviour of them.  The statements at a concrete input use
    [Observed]: the answers of sqlparse on the statements of the examples. *)

From Stdlib Require Import String Ascii List Bool Arith Lia QArith DecimalString.
Import ListNotations.
Close Scope Q_scope.
Open Scope nat_scope.
Open Scope list_scope.
Open Scope string_scope.

(* ------------------------------------------------------------------ *)
(** * Python string primitives *)

Module Py.

(** ** Characters *)

Definition ord (c : ascii) : nat := nat_of_ascii c.

Definition between (lo hi n : nat) : bool := Nat.leb lo n && Nat.leb n hi.

(** [str.isspace] on one character (ASCII range): TAB, LF, VT, FF, CR, the
    four separators FS, GS, RS, US and the space.  The class [\s] of [re]
    on [str] patterns is the same set. *)
Definition isspace (c : ascii) : bool :=
  between 9 13 (ord c) || between 28 32 (ord c).

(** The class [\w] of [re]: letters, digits and the underscore. *)
Definition isword (c : ascii) : bool :=
  between 48 57 (ord c) || between 65 90 (ord c)
  || between 97 122 (ord c) || Nat.eqb (ord c) 95.

Definition upper_char (c : ascii) : ascii :=
  if between 97 122 (ord c) then ascii_of_nat (ord c - 32) else c.

Definition lower_char (c : ascii) : ascii :=
  if between 65 90 (ord c) then ascii_of_nat (ord c + 32) else c.

(** ** Strings *)

Fixpoint map (f : ascii -> ascii) (s : string) : string :=
  match s with
  | EmptyString => EmptyString
  | String c s' => String (f c) (map f s')
  end.

(** [s.upper()] and [s.lower()] *)
Definition upper : string -> string := map upper_char.
Definition lower : string -> string := map lower_char.

(** [s.lstrip()], [s.rstrip()] and [s.strip()] *)
Fixpoint lstrip (s : string) : string :=
  match s with
  | EmptyString => EmptyString
  | String c s' => if isspace c then lstrip s' else s
  end.

Fixpoint rstrip (s : string) : string :=
  match s with
  | EmptyString => EmptyString
  | String c s' =>
      match rstrip s' with
      | EmptyString => if isspace c then EmptyString else String c EmptyString
      | r => String c r
      end
  end.

Definition strip (s : string) : string := lstrip (rstrip s).

(** [s.startswith(p)] *)
Definition startswith (s p : string) : bool := prefix p s.

(** [sub in s] *)
Fixpoint contains (sub s : string) : bool :=
  prefix sub s ||
  match s with
  | EmptyString => false
  | String _ s' => contains sub s'
  end.

(** [s.split(sep)] for a non-empty separator: the pieces between the
    occurrences of [sep], found from left to right without overlap.  After
    an occurrence at the head of [s], [skip] counts the characters of the
    separator that are still to be passed over. *)
Fixpoint split_from (sep s : string) (skip : nat) : list string :=
  match s with
  | EmptyString => [EmptyString]
  | String c s' =>
      match skip with
      | S k => split_from sep s' k
      | O =>
          if prefix sep s
          then EmptyString :: split_from sep s' (String.length sep - 1)
          else match split_from sep s' 0 with
               | piece :: pieces => String c piece :: pieces
               | [] => [String c EmptyString]
               end
      end
  end.

Definition split (s sep : string) : list string := split_from sep s 0.

(** [l[i]] on a list of pieces.  Every use below is behind an [in] test
    that puts the index in range (see [split_second_in_range]). *)
Definition item (l : list string) (i : nat) : string := nth i l EmptyString.

(** [sep.join(l)] *)
Definition join (sep : string) (l : list string) : string := String.concat sep l.

(** The line feed and the double quote. *)
Definition LF : ascii := "010"%char.
Definition DQUOTE : ascii := "034"%char.
Definition nl : string := String LF EmptyString.
Definition dq : string := String DQUOTE EmptyString.

End Py.

(* ------------------------------------------------------------------ *)
(** * The two regular expressions of the validators *)

Module Re.

Definition isword_opt (c : option ascii) : bool :=
  match c with
  | Some c => Py.isword c
  | None => false
  end.

(** [\b] holds between two neighbouring places (the edge of the text
    counting as a non-word place) when exactly one of them is a word
    character. *)
Definition boundary (before after : option ascii) : bool :=
  xorb (isword_opt before) (isword_opt after).

Definition head (s : string) : option ascii :=
  match s with
  | String c _ => Some c
  | EmptyString => None
  end.

(** The literal text [pat] matched at the head of [s] under
    [re.IGNORECASE]: the last character matched ([last] when [pat] is empty)
    and what is left of [s]. *)
Fixpoint literal (pat s : string) (last : option ascii)
  : option (option ascii * string) :=
  match pat with
  | EmptyString => Some (last, s)
  | String p pat' =>
      match s with
      | String c s' =>
          if Ascii.eqb (Py.lower_char p) (Py.lower_char c)
          then literal pat' s' (Some c)
          else None
      | EmptyString => None
      end
  end.

(** [\b pat \b] matched at the head of [s], [prev] being the character
    before it. *)
Definition word_here (pat : string) (prev : option ascii) (s : string) : bool :=
  boundary prev (head s) &&
  match literal pat s prev with
  | Some (last, rest) => boundary last (head rest)
  | None => false
  end.

Fixpoint search_word_from (pat : string) (prev : option ascii) (s : string)
  : bool :=
  word_here pat prev s ||
  match s with
  | EmptyString => false
  | String c s' => search_word_from pat (Some c) s'
  end.

(** [re.search(r"\b" + pat + r"\b", s, flags=re.IGNORECASE)] as a truth
    value, for a pattern text without regular-expression operators. *)
Definition search_word (pat s : string) : bool := search_word_from pat None s.

(** [re.search(r"^\s*(a1|a2|...)\b", s, flags=re.IGNORECASE)] as a truth
    value: [^] only matches at the start of the text (no [re.MULTILINE]),
    and no alternative starts with a blank, so [\s*] passes every leading
    blank. *)
Definition match_first (alts : list string) (s : string) : bool :=
  let s' := Py.lstrip s in
  existsb (fun kw =>
             match literal kw s' None with
             | Some (last, rest) => boundary last (head rest)
             | None => false
             end) alts.

(** Every character of the text is a word character. *)
Fixpoint all_word (s : string) : bool :=
  match s with
  | EmptyString => true
  | String c s' => Py.isword c && all_word s'
  end.

End Re.

(* ------------------------------------------------------------------ *)
(** * What the code sees of sqlparse *)

Module Sqlparse.

(** Token types of [sqlparse.tokens] (the ones a SELECT statement meets). *)
Inductive TokenType : Type :=
| Keyword | Keyword_DML | Keyword_DDL | Keyword_CTE | Keyword_Order
| Name | Name_Builtin | Wildcard | Punctuation
| Operator | Operator_Comparison
| Whitespace | Newline
| Number_Integer | Number_Float | String_Single | String_Symbol
| Comment_Single | Comment_Multiline | Error.

(** [ttype in T.Keyword] *)
Definition in_Keyword (t : TokenType) : bool :=
  match t with
  | Keyword | Keyword_DML | Keyword_DDL | Keyword_CTE | Keyword_Order => true
  | _ => false
  end.

(** A token of a parsed statement.  Grouped tokens (Identifier,
    IdentifierList, Parenthesis, Function, Comparison, Where, ...) have
    [ttype = None] and the whole text of the group as [value]. *)
Record Token : Type := { ttype : option TokenType; value : string }.

(** [token.is_keyword] *)
Definition is_keyword (t : Token) : bool :=
  match ttype t with
  | Some ty => in_Keyword ty
  | None => false
  end.

(** [token.ttype is None] *)
Definition ttype_is_None (t : Token) : bool :=
  match ttype t with
  | Some _ => false
  | None => true
  end.

(** [statement.tokens]: the top-level tokens of one statement. *)
Definition Statement : Type := list Token.

End Sqlparse.

(* ------------------------------------------------------------------ *)
(** * Exceptions, results, effects *)

Inductive exn : Type :=
| ValueError (msg : string)
| IndexError
| Failure (msg : string).   (* any other exception, with [str(e)] *)

Definition str (e : exn) : string :=
  match e with
  | ValueError msg => msg
  | IndexError => "tuple index out of range"
  | Failure msg => msg
  end.

Inductive result (A : Type) : Type :=
| Return (a : A)
| Raise (e : exn).
Arguments Return {A} a.
Arguments Raise {A} e.

(** [pandas.DataFrame], as far as the pipeline looks at it. *)
Record DataFrame : Type := { columns : list string; rows : list (list string) }.

(** [df.empty]: one of the two axes has length 0. *)
Definition empty (df : DataFrame) : bool :=
  match columns df, rows df with
  | [], _ => true
  | _, [] => true
  | _, _ => false
  end.

(** [df.head()] *)
Definition head (df : DataFrame) : DataFrame :=
  {| columns := columns df; rows := firstn 5 (rows df) |}.

(** What a run does to the outside, in order. *)
Inductive event : Type :=
| Print (msg : string)
| VectorQuery (query : string) (k : nat)
| ChatCompletion (prompt : string) (max_tokens : nat) (temperature : Q)
| ReadSql (sql : string)
| StError (msg : string).

(** The outside of the program: the completion endpoint, the vector index,
    the database and the rendering of a data frame. *)
Record World : Type := {
  chat_completion : string -> nat -> Q -> result string;
  collection_query : string -> nat -> result (list string);
  read_sql : string -> result DataFrame;
  to_string : DataFrame -> string
}.

(** Computations that append to the trace of events and may raise. *)
Definition Eff (A : Type) : Type := list event -> result A * list event.

Definition ret {A : Type} (a : A) : Eff A := fun tr => (Return a, tr).

Definition lift {A : Type} (r : result A) : Eff A := fun tr => (r, tr).

Definition bind {A B : Type} (m : Eff A) (k : A -> Eff B) : Eff B :=
  fun tr =>
    match m tr with
    | (Return a, tr') => k a tr'
    | (Raise e, tr') => (Raise e, tr')
    end.

(** An outside call: the event is recorded, then the call answers. *)
Definition call {A : Type} (ev : event) (r : result A) : Eff A :=
  fun tr => (r, (tr ++ [ev])%list).

Definition print (msg : string) : Eff unit := call (Print msg) (Return tt).

(** [try: m  except Exception as e: h e] *)
Definition try_except {A : Type} (m : Eff A) (h : exn -> Eff A) : Eff A :=
  fun tr =>
    match m tr with
    | (Raise e, tr') => h e tr'
    | r => r
    end.

Declare Scope eff_scope.
Delimit Scope eff_scope with eff.
Notation "x <- m ;; k" := (bind m (fun x => k))
  (at level 61, m at next level, right associativity) : eff_scope.
Notation "m ;;; k" := (bind m (fun _ => k))
  (at level 61, right associativity) : eff_scope.

Definition run {A : Type} (m : Eff A) : result A * list event := m [].

(** The calls to the database and to the completion endpoint in a trace. *)
Definition db_calls (tr : list event) : list event :=
  filter (fun ev => match ev with ReadSql _ => true | _ => false end) tr.

Definition completion_calls (tr : list event) : list event :=
  filter (fun ev => match ev with ChatCompletion _ _ _ => true | _ => false end) tr.

(* ------------------------------------------------------------------ *)
(** * engine/main_app.py *)

Module MainApp.
Import Sqlparse.

Definition ALLOWED_TABLES : list string := ["profiles"].

Definition forbidden : list string :=
  ["INSERT"; "UPDATE"; "DELETE"; "DROP"; "ALTER"; "CREATE"; "TRUNCATE";
   "GRANT"; "REVOKE"; ";"].

(** The loop over [sqlparse.parse(parsed)[0].tokens]; [Some v] is the
    [ValueError] raised for the token text [v]. *)
Fixpoint check_tables (tokens : list Token) (from_clause : bool)
  : option string :=
  match tokens with
  | [] => None
  | token :: rest =>
      if is_keyword token && (Py.upper (value token) =? "FROM")
      then check_tables rest true
      else if from_clause && ttype_is_None token
      then if negb (existsb (String.eqb (Py.lower (value token))) ALLOWED_TABLES)
           then Some (value token)
           else check_tables rest false
      else check_tables rest from_clause
  end.

Section Validator.

(** [sqlparse.format(sql, keyword_case='upper', strip_comments=True)] *)
Variable sqlparse_format : string -> string.
(** [sqlparse.parse(sql)], each statement by its top-level tokens *)
Variable sqlparse_parse : string -> list Statement.

Definition sanitize_sql (sql : string) : result string :=
  let parsed := Py.strip (sqlparse_format sql) in
  match find (fun f => Re.search_word f parsed) forbidden with
  | Some f => Raise (ValueError ("Forbidden SQL keyword found: " ++ f))
  | None =>
      if negb (Re.match_first ["SELECT"] parsed)
      then Raise (ValueError "Only SELECT queries are allowed.")
      else
        match sqlparse_parse parsed with
        | [] => Raise IndexError
        | statement :: _ =>
            match check_tables statement false with
            | Some v => Raise (ValueError ("Table '" ++ v ++ "' is not allowed."))
            | None =>
                Return (if negb (Py.contains "LIMIT" (Py.upper parsed))
                        then parsed ++ " LIMIT 1000"
                        else parsed)
            end
        end
  end.

Variable world : World.

Definition run_sql_fetch (sql : string) : Eff DataFrame :=
  (print (Py.nl ++ "--- Sanitizing and Executing SQL ---") ;;;
   safe_sql <- lift (sanitize_sql sql) ;;
   print ("Safe SQL to be executed:" ++ Py.nl ++ safe_sql) ;;;
   call (ReadSql safe_sql) (read_sql world safe_sql))%eff.

End Validator.

(** The cleaning of the completion's text in [generate_sql]. *)
Definition generate_sql_clean (content : string) : string :=
  let sql_query := content in
  let sql_query :=
    if Py.contains "```sql" sql_query
    then Py.strip (Py.item (Py.split sql_query "```sql") 1)
    else sql_query in
  let sql_query :=
    if Py.contains "```" sql_query
    then Py.strip (Py.item (Py.split sql_query "```") 0)
    else sql_query in
  sql_query.

End MainApp.

(* ------------------------------------------------------------------ *)
(** * engine/rag_engine.py *)

Module RagEngine.

(** [SQL_PROMPT_TEMPLATE.format(user_query=..., context=...)] *)
Definition SQL_PROMPT_TEMPLATE (user_query context : string) : string :=
  "
[INST] You are an expert assistant that translates natural language into a simple and efficient PostgreSQL query.

Follow these examples to construct your query.
---
Good Query Examples:
User Query: " ++ Py.dq ++ "Show me the temperature profile of the deepest measurements in the South Atlantic in 2004" ++ Py.dq ++ "
SQL: SELECT pressure, temperature FROM profiles WHERE latitude BETWEEN -40 AND -10 AND juld BETWEEN '2004-01-01' AND '2004-12-31' AND temp_qc = '1' AND psal_qc = '1' ORDER BY pressure DESC LIMIT 50;

User Query: " ++ Py.dq ++ "Find the location of float 1900121 in late 2002" ++ Py.dq ++ "
SQL: SELECT latitude, longitude, juld FROM profiles WHERE platform_number = 1900121 AND juld BETWEEN '2002-10-01' AND '2002-12-31' AND temp_qc = '1' AND psal_qc = '1' LIMIT 50;
---

Database schema:
Table: profiles (platform_number int, juld timestamptz, latitude double, longitude double, pressure double, temperature double, salinity double, temp_qc varchar, psal_qc varchar, pres_qc varchar)

User request: " ++ user_query ++ "
Relevant context documents (for guidance only): " ++ context ++ "

Instructions:
- CRITICAL: Generate ONLY the SQL query. No explanations, no markdown, no comments.
- Use simple `WHERE ... BETWEEN ...` conditions for ranges.
- Always filter for good QC: `temp_qc='1'` AND `psal_qc='1'`.
- Limit results to 50 rows for performance.
- For " ++ Py.dq ++ "deepest" ++ Py.dq ++ ", use `ORDER BY pressure DESC`.
[/INST]
".

(** [SUMMARY_PROMPT_TEMPLATE.format(user_query=..., data_head=...)] *)
Definition SUMMARY_PROMPT_TEMPLATE (user_query data_head : string) : string :=
  "
[INST] You are a data science assistant. Based on the user's original query and the data returned, provide a concise, one-sentence summary of the findings.

Original User Query: " ++ Py.dq ++ user_query ++ Py.dq ++ "

Data Returned (first 5 rows):
" ++ data_head ++ "

Instructions:
- Summarize the key information from the data in a single, easy-to-understand sentence.
- Do not describe the columns. Describe the data's meaning.
- Example: " ++ Py.dq ++ "The data shows 5 deep-sea temperature measurements in the South Atlantic, with temperatures around 2.5°C at pressures over 5000 dbar." ++ Py.dq ++ "
[/INST]
".

Definition forbidden : list string :=
  ["INSERT"; "UPDATE"; "DELETE"; "DROP"; "ALTER"; "CREATE"; "TRUNCATE";
   "GRANT"; "REVOKE"].

(** The cleaning of the completion's text in [generate_sql] (lines 108 to
    118), [content] being [response.choices[0].message.content]. *)
Definition generate_sql_clean (content : string) : string :=
  let sql_query := Py.strip content in
  let sql_query :=
    if Py.contains "```sql" sql_query
    then Py.strip (Py.item (Py.split sql_query "```sql") 1)
    else sql_query in
  let sql_query :=
    if Py.contains "```" sql_query
    then Py.strip (Py.item (Py.split sql_query "```") 0)
    else sql_query in
  let sql_query :=
    if Py.contains ";" sql_query
    then Py.strip (Py.item (Py.split sql_query ";") 0) ++ ";"
    else sql_query in
  sql_query.

Section Engine.

(** [sqlparse.format(sql, keyword_case='upper', strip_comments=True)] *)
Variable sqlparse_format : string -> string.
Variable world : World.

Definition retrieve_context (query : string) (k : nat) : Eff string :=
  (print ("Retrieving context for query: '" ++ query ++ "'") ;;;
   documents <- call (VectorQuery query k) (collection_query world query k) ;;
   ret (Py.join Py.nl documents))%eff.

Definition generate_sql (query context : string) : Eff string :=
  (print "Generating SQL query..." ;;;
   let prompt := SQL_PROMPT_TEMPLATE query context in
   content <- call (ChatCompletion prompt 500 0) (chat_completion world prompt 500 0) ;;
   ret (generate_sql_clean content))%eff.

Definition _sanitize_sql (sql : string) : result string :=
  let parsed := Py.strip (sqlparse_format sql) in
  match find (fun f => Re.search_word f parsed) forbidden with
  | Some f => Raise (ValueError ("Forbidden SQL keyword found: " ++ f))
  | None =>
      if negb (Re.match_first ["SELECT"] parsed)
      then Raise (ValueError "Only SELECT queries are allowed.")
      else Return parsed
  end.

(** [None] is Python's [None]: the [except] branch swallows the error. *)
Definition execute_sql (sql : string) : Eff (option DataFrame) :=
  (print ("Executing SQL:" ++ Py.nl ++ sql) ;;;
   try_except
     (safe_sql <- lift (_sanitize_sql sql) ;;
      df <- call (ReadSql safe_sql) (read_sql world safe_sql) ;;
      ret (Some df))
     (fun e =>
        print ("❌ SQL Execution Error: " ++ str e) ;;;
        ret None))%eff.

Definition summarize_results (query : string) (df : DataFrame) : Eff string :=
  if empty df
  then ret "The query returned no results."
  else
    (print "Summarizing results..." ;;;
     let prompt := SUMMARY_PROMPT_TEMPLATE query (to_string world (head df)) in
     content <- call (ChatCompletion prompt 150 (1 # 10))
                     (chat_completion world prompt 150 (1 # 10)) ;;
     ret (Py.strip content))%eff.

End Engine.
End RagEngine.

(* ------------------------------------------------------------------ *)
(** * Frontend/streamlit_app.py *)

Module StreamlitApp.

Definition forbidden : list string :=
  ["INSERT"; "UPDATE"; "DELETE"; "DROP"; "ALTER"; "CREATE"; "TRUNCATE";
   "GRANT"; "REVOKE"].

(** The loop of [generate_sql] over the lines: the lines before the first
    one that, stripped, starts with an opening square bracket. *)
Fixpoint clean_lines (lines : list string) : list string :=
  match lines with
  | [] => []
  | line :: rest =>
      if Py.startswith (Py.strip line) "["
      then []
      else line :: clean_lines rest
  end.

(** The cleaning of the completion's text in [generate_sql] (lines 74 to
    97), [content] being [response.choices[0].message.content]. *)
Definition generate_sql_clean (content : string) : string :=
  let sql_query := Py.strip content in
  let sql_query :=
    if Py.contains "```sql" sql_query
    then Py.strip (Py.item (Py.split sql_query "```sql") 1)
    else sql_query in
  let sql_query :=
    if Py.contains "```" sql_query
    then Py.strip (Py.item (Py.split sql_query "```") 0)
    else sql_query in
  let lines := Py.split sql_query Py.nl in
  let sql_query := Py.strip (Py.join Py.nl (clean_lines lines)) in
  let sql_query :=
    if Py.contains ";" sql_query
    then Py.item (Py.split sql_query ";") 0 ++ ";"
    else sql_query in
  sql_query.

Section Validator.

(** [sqlparse.format(sql, keyword_case='upper', strip_comments=True)] *)
Variable sqlparse_format : string -> string.
Variable world : World.

Definition sanitize_sql (sql : string) : result string :=
  let parsed := Py.strip (sqlparse_format sql) in
  match find (fun f => Re.search_word f parsed) forbidden with
  | Some f => Raise (ValueError ("Forbidden SQL keyword found: " ++ f))
  | None =>
      if negb (Re.match_first ["SELECT"; "WITH"] parsed)
      then Raise (ValueError "Only SELECT or WITH queries are allowed.")
      else Return (if negb (Py.contains "LIMIT" (Py.upper parsed))
                   then parsed ++ " LIMIT 1000"
                   else parsed)
  end.

(** One uncached call of [run_sql_fetch]. *)
Definition run_sql_fetch (sql : string) : Eff DataFrame :=
  (safe_sql <- lift (sanitize_sql sql) ;;
   call (ReadSql safe_sql) (read_sql world safe_sql))%eff.

End Validator.
End StreamlitApp.

(* ------------------------------------------------------------------ *)
(** * Frontend/stream_app.py: the query processing block *)

Module StreamApp.

(** [st.session_state.last_result] *)
Record LastResult : Type := {
  summary : string;
  sql : string;
  df : option DataFrame
}.

Section Block.

Variable sqlparse_format : string -> string.
Variable world : World.

(** Lines 167 to 191: the value left in [st.session_state.last_result]. *)
Definition process_query (query : string) (k : nat) : Eff (option LastResult) :=
  try_except
    (context <- RagEngine.retrieve_context world query k ;;
     sql_query <- RagEngine.generate_sql world query context ;;
     results_df <- RagEngine.execute_sql sqlparse_format world sql_query ;;
     summary <-
       match results_df with
       | Some d =>
           if negb (empty d)
           then RagEngine.summarize_results world query d
           else ret "Query executed successfully."
       | None => ret "Query executed successfully."
       end ;;
     ret (Some {| summary := summary; sql := sql_query; df := results_df |}))%eff
    (fun e =>
       (call (StError ("An error occurred in the RAG pipeline: " ++ str e))
             (Return tt) ;;;
        ret None)%eff).

End Block.
End StreamApp.

(* ------------------------------------------------------------------ *)
(** * sqlparse and the outside on the statements of the examples *)

Module Observed.
Import Sqlparse.

Definition tok (ty : TokenType) (v : string) : Token :=
  {| ttype := Some ty; value := v |}.
Definition group (v : string) : Token := {| ttype := None; value := v |}.
Definition sp : Token := tok Whitespace " ".

Fixpoint lookup {A : Type} (k : string) (table : list (string * A)) : option A :=
  match table with
  | [] => None
  | (k', a) :: rest => if String.eqb k k' then Some a else lookup k rest
  end.

(** What [sqlparse.format(sql, keyword_case='upper', strip_comments=True)]
    returns where it changes the text.  sqlparse cuts the text into
    statements after each top-level terminator (the blanks that follow the
    terminator go with the statement before it), writes keywords in upper
    case, removes the comments, strips the blanks at the end of each line
    of a statement and writes the statements one directly after the
    other. *)
Definition format_table : list (string * string) :=
  [ ("SELECT 1 /* DROP */", "SELECT 1");
    ("select 1 -- delete", "SELECT 1");
    ("SELECT 1; LIMIT 1000", "SELECT 1;LIMIT 1000");
    ("SELECT (1); SELECT (2)", "SELECT (1);SELECT (2)") ].

(** A text of one statement without comment, lower-case keyword or blank
    at the end of a line comes back unchanged. *)
Definition format (sql : string) : string :=
  match lookup sql format_table with
  | Some out => out
  | None => sql
  end.

(** [sqlparse.parse]: the top-level tokens of each statement. *)
Definition parse_table : list (string * list Statement) :=
  [ ("SELECT pressure, temperature FROM profiles WHERE latitude BETWEEN -40 AND -10;",
     [[tok Keyword_DML "SELECT"; sp; group "pressure, temperature"; sp;
       tok Keyword "FROM"; sp; group "profiles"; sp;
       group "WHERE latitude BETWEEN -40 AND -10;"]]);
    ("SELECT pressure, temperature FROM profiles WHERE latitude BETWEEN -40 AND -10",
     [[tok Keyword_DML "SELECT"; sp; group "pressure, temperature"; sp;
       tok Keyword "FROM"; sp; group "profiles"; sp;
       group "WHERE latitude BETWEEN -40 AND -10"]]);
    ("SELECT pressure, temperature FROM profiles WHERE latitude BETWEEN -40 AND -10 LIMIT 1000",
     [[tok Keyword_DML "SELECT"; sp; group "pressure, temperature"; sp;
       tok Keyword "FROM"; sp; group "profiles"; sp;
       group "WHERE latitude BETWEEN -40 AND -10 "; tok Keyword "LIMIT"; sp;
       tok Number_Integer "1000"]]);
    ("SELECT * FROM users;",
     [[tok Keyword_DML "SELECT"; sp; tok Wildcard "*"; sp;
       tok Keyword "FROM"; sp; group "users"; tok Punctuation ";"]]);
    ("SELECT * FROM profiles JOIN users ON profiles.juld = users.juld",
     [[tok Keyword_DML "SELECT"; sp; tok Wildcard "*"; sp;
       tok Keyword "FROM"; sp; group "profiles"; sp;
       tok Keyword "JOIN"; sp; group "users"; sp;
       tok Keyword "ON"; sp; group "profiles.juld = users.juld"]]);
    ("SELECT (1);SELECT (2)",
     [[tok Keyword_DML "SELECT"; sp; group "(1)"; tok Punctuation ";"];
      [tok Keyword_DML "SELECT"; sp; group "(2)"]]);
    ("SELECT (1)",
     [[tok Keyword_DML "SELECT"; sp; group "(1)"]]);
    ("SELECT (2)",
     [[tok Keyword_DML "SELECT"; sp; group "(2)"]]);
    ("SELECT 1;",
     [[tok Keyword_DML "SELECT"; sp; tok Number_Integer "1";
       tok Punctuation ";"]]);
    ("SELECT 1",
     [[tok Keyword_DML "SELECT"; sp; tok Number_Integer "1"]]) ].

Definition parse (sql : string) : list Statement :=
  match lookup sql parse_table with
  | Some statements => statements
  | None => []
  end.

(** An outside for the examples: the completion endpoint answers with the
    given text, the index holds one document, the database one row. *)
Definition world (answer : string) : World :=
  {| chat_completion := fun _ _ _ => Return answer;
     collection_query := fun _ _ => Return ["Float 1900121, South Atlantic"];
     read_sql := fun _ => Return {| columns := ["pressure"]; rows := [["10.0"]] |};
     to_string := fun d => Py.join Py.nl (List.map (Py.join " ") (rows d)) |}.

End Observed.

(* ------------------------------------------------------------------ *)
(** * The rules in the words of the specification *)

Module Spec.

(** The last character of a text. *)
Fixpoint last (s : string) : option ascii :=
  match s with
  | EmptyString => None
  | String c EmptyString => Some c
  | String _ s' => last s'
  end.

(** The character before the place that follows [s], [prev] being the
    character before [s]. *)
Definition last_or (prev : option ascii) (s : string) : option ascii :=
  match last s with
  | Some c => Some c
  | None => prev
  end.



(** The first token of a text: the word that follows its leading blanks. *)
Fixpoint word_prefix (s : string) : string :=
  match s with
  | EmptyString => EmptyString
  | String c s' => if Py.isword c then String c (word_prefix s') else EmptyString
  end.

Definition first_token (s : string) : string := word_prefix (Py.lstrip s).

(** The tables a statement names after FROM at its top level: for each FROM
    keyword, the text of the next grouped token. *)
Fixpoint next_group (tokens : list Sqlparse.Token) : option string :=
  match tokens with
  | [] => None
  | t :: rest =>
      if Sqlparse.ttype_is_None t then Some (Sqlparse.value t)
      else next_group rest
  end.

Definition is_FROM (t : Sqlparse.Token) : bool :=
  Sqlparse.is_keyword t && (Py.upper (Sqlparse.value t) =? "FROM").

Fixpoint from_tables (tokens : list Sqlparse.Token) : list string :=
  match tokens with
  | [] => []
  | t :: rest =>
      if is_FROM t
      then match next_group rest with
           | Some v => v :: from_tables rest
           | None => from_tables rest
           end
      else from_tables rest
  end.

(** The table that an open FROM ([from_clause] set) still waits for. *)
Definition pending (from_clause : bool) (tokens : list Sqlparse.Token)
  : list string :=
  if from_clause
  then match next_group tokens with Some v => [v] | None => [] end
  else [].

Definition allowed (v : string) : bool :=
  existsb (String.eqb (Py.lower v)) MainApp.ALLOWED_TABLES.

(** No blank at the start, no blank at the end of a text. *)
Definition no_lead (s : string) : Prop :=
  match s with
  | String c _ => Py.isspace c = false
  | EmptyString => True
  end.

Definition no_trail (s : string) : Prop :=
  match last s with
  | Some c => Py.isspace c = false
  | None => True
  end.

(** A line of commentary: its first non-blank character is an opening
    square bracket. *)
Definition bracket_line (line : string) : bool :=
  Py.startswith (Py.strip line) "[".

(** Reading a text from left to right: some line starts, after blanks
    only, with an opening square bracket; [blank] tells that only blanks
    were read on the current line so far. *)
Fixpoint commentary_from (blank : bool) (s : string) : bool :=
  match s with
  | EmptyString => false
  | String c s' =>
      if Ascii.eqb c Py.LF then commentary_from true s'
      else if Py.isspace c then commentary_from blank s'
      else (blank && Ascii.eqb "[" c) || commentary_from false s'
  end.



(** The extraction of the candidate statement as the specification words
    it: the text between the first opening fence and the next closing
    fence without the language tag when there is a fenced block, otherwise
    the lines before the first one that begins with an opening square
    bracket; then the text up to and with the first terminator; trimmed. *)
Definition before (sep s : string) : string := Py.item (Py.split s sep) 0.

Definition after (sep s : string) : string :=
  substring (String.length (before sep s) + String.length sep)
            (String.length s) s.






End Spec.

(* ------------------------------------------------------------------ *)
(** * Scripts/retrieval.py *)

Module Retrieval.

Section Retrieval.

Variable world : World.

(** [retrieve_docs(query, k)["documents"][0]]: the callers only read the
    documents of the answer. *)
Definition retrieve_docs (query : string) (k : nat) : Eff (list string) :=
  (print (Py.nl ++ "Searching for '" ++ query ++ "'...") ;;;
   call (VectorQuery query k) (collection_query world query k))%eff.

End Retrieval.
End Retrieval.

(* ------------------------------------------------------------------ *)
(** * engine/LLM.py *)

Module LLM.

(** [PROMPT_TEMPLATE.format(user_query=..., retrieved_docs=...)] *)
Definition PROMPT_TEMPLATE (user_query retrieved_docs : string) : string :=
  "
[INST] You are an assistant that translates natural language into SQL queries for an oceanographic Postgres database.

Database schema:
Table: profiles
Columns:
- platform_number (int)
- profile_idx (int)
- juld (timestamptz)
- latitude (double precision)
- longitude (double precision)
- pressure (double precision)
- temperature (double precision)
- salinity (double precision)
- temp_qc (varchar)
- psal_qc (varchar)
- pres_qc (varchar)

User request:
" ++ user_query ++ "

Relevant context documents to help you:
" ++ retrieved_docs ++ "

Instructions:
- Only use the columns listed in the schema.
- Always filter for good QC: `temp_qc='1'` AND `psal_qc='1'`.
- Limit results to 20 rows.
- Respond ONLY with a single, complete SQL query. Do not add explanations or surrounding text.
[/INST]
".

(** Lines 62 to 70, [content] being [response.choices[0].message.content]. *)
Definition generate_sql_clean (content : string) : string :=
  let sql_query := content in
  let sql_query :=
    if Py.contains "```sql" sql_query
    then Py.strip (Py.item (Py.split sql_query "```sql") 1)
    else sql_query in
  let sql_query :=
    if Py.contains "```" sql_query
    then Py.strip (Py.item (Py.split sql_query "```") 0)
    else sql_query in
  sql_query.

Section Generate.

Variable world : World.

Definition generate_sql (user_query : string) : Eff string :=
  (docs <- Retrieval.retrieve_docs world user_query 3 ;;
   let retrieved_docs := Py.join Py.nl docs in
   let prompt := PROMPT_TEMPLATE user_query retrieved_docs in
   content <- call (ChatCompletion prompt 500 (1 # 10))
                   (chat_completion world prompt 500 (1 # 10)) ;;
   ret (generate_sql_clean content))%eff.

End Generate.
End LLM.

(* ------------------------------------------------------------------ *)
(** * engine/main_app.py: [generate_sql] and the main workflow *)

Module MainAppRun.

(** [PROMPT_TEMPLATE.format(user_query=..., retrieved_docs=...)] *)
Definition PROMPT_TEMPLATE (user_query retrieved_docs : string) : string :=
  "
[INST] You are an expert assistant that translates natural language into SQL queries for an oceanographic Postgres database.

Database schema:
Table: profiles
Columns:
- platform_number (int)
- profile_idx (int)
- juld (timestamptz)
- latitude (double precision)
- longitude (double precision)
- pressure (double precision)
- temperature (double precision)
- salinity (double precision)
- temp_qc (varchar)
- psal_qc (varchar)
- pres_qc (varchar)

User request:
" ++ user_query ++ "

Relevant context documents to help you:
" ++ retrieved_docs ++ "

Instructions:
- Use the context documents for guidance on locations, dates, or typical values, but DO NOT filter by `platform_number` unless the user explicitly asks for a specific float.
- Select only the columns most relevant to the user's request, not always `SELECT *`.
- Always filter for good QC: `temp_qc='1'` AND `psal_qc='1'`.
- Limit results to 20 rows.
- Respond ONLY with a single, complete SQL query. Do not add explanations or surrounding text.
[/INST]
".

Section Run.

Variable sqlparse_format : string -> string.
Variable sqlparse_parse : string -> list Sqlparse.Statement.
Variable world : World.

Definition generate_sql (user_query : string) : Eff string :=
  (docs <- Retrieval.retrieve_docs world user_query 3 ;;
   let retrieved_docs := Py.join Py.nl docs in
   let prompt := PROMPT_TEMPLATE user_query retrieved_docs in
   content <- call (ChatCompletion prompt 500 (1 # 10))
                   (chat_completion world prompt 500 (1 # 10)) ;;
   ret (MainApp.generate_sql_clean content))%eff.

(** The [try] statement of the loop (lines 112 to 131) for one query;
    [print(results_df)] writes the rendering of the frame. *)
Definition answer (query : string) : Eff unit :=
  try_except
    (print (Py.nl ++ "--- Generating SQL for query: '" ++ query ++ "' ---") ;;;
     raw_sql <- generate_sql query ;;
     print ("Raw SQL from LLM:" ++ Py.nl ++ raw_sql) ;;;
     results_df <- MainApp.run_sql_fetch sqlparse_format sqlparse_parse world raw_sql ;;
     print (Py.nl ++ "--- Results from Database ---") ;;;
     if empty results_df
     then print "The query returned no results."
     else print (to_string world results_df))%eff
    (fun e =>
       match e with
       | ValueError ve => print (Py.nl ++ "--- SECURITY ERROR ---: " ++ ve)
       | _ => print (Py.nl ++ "--- An unexpected error occurred ---: " ++ str e)
       end).

(** [query.lower() in ['exit', 'quit']] *)
Definition leaves (query : string) : bool :=
  existsb (String.eqb (Py.lower query)) ["exit"; "quit"].

(** The [while True] loop over the lines that [input] returns; the prompt
    that [input] writes is recorded as a [Print]; at the end of the input
    [input] raises EOFError, outside of the [try]. *)
Fixpoint workflow (inputs : list string) : Eff unit :=
  match inputs with
  | [] =>
      (print (Py.nl ++ "Please enter your query: ") ;;;
       lift (Raise (Failure "EOF when reading a line")))%eff
  | query :: rest =>
      (print (Py.nl ++ "Please enter your query: ") ;;;
       if leaves query
       then print "Exiting..."
       else (answer query ;;; workflow rest))%eff
  end.

(** The block under [if __name__ == "__main__"]. *)
Definition main (inputs : list string) : Eff unit :=
  (print "Welcome to the Argo Natural Language Query Interface." ;;;
   print "Type 'exit' or 'quit' to end the session." ;;;
   workflow inputs)%eff.

End Run.
End MainAppRun.

(* ------------------------------------------------------------------ *)
(** * The page: what Streamlit is asked to show *)

Module Streamlit.

(** [str(n)] for a count. *)
Definition str_nat (n : nat) : string :=
  NilEmpty.string_of_uint (Nat.to_uint n).

(** The figure of [px.line(df.sort_values(sort_by), x=..., y=..., title=...)]
    after the calls of [update_yaxes] and [update_xaxes]. *)
Record Figure : Type := {
  frame : DataFrame;
  sort_by : string;
  x : string;
  y : string;
  title : string;
  y_reversed : bool;
  x_title : option string;
  y_title : option string
}.

(** The calls that write to the page, in the order of the page; a
    container holds what was written inside its [with] block. *)
#[warnings="-register-all"] Inductive Widget : Type :=
| st_write (text : string)
| st_markdown (text : string)
| st_info (text : string)
| st_warning (text : string)
| st_error (text : string)
| st_code (text language : string)
| st_metric (label : string) (value : nat)
| st_dataframe (df : DataFrame)
| st_map (df : DataFrame) (latitude longitude : string)
| st_plotly_chart (fig : Figure) (use_container_width : bool)
| st_expander (label : string) (body : list Widget)
| st_chat_message (role : string) (body : list Widget).

(** [c in df.columns] *)
Definition has_column (df : DataFrame) (c : string) : bool :=
  existsb (String.eqb c) (columns df).

End Streamlit.

(* ------------------------------------------------------------------ *)
(** * Frontend/stream_app.py: the helpers and the display of the result *)

Module StreamAppPage.
Import Streamlit.

(** The first candidate that names a column; [None] is Python's [None]. *)
Definition safe_column (df : DataFrame) (candidates : list string)
  : option string :=
  find (has_column df) candidates.

(** [visualize(df)].  The candidates are non-empty texts, so that a column
    found is true and [None] is false in the tests of the two
    priorities. *)
Definition visualize (df : DataFrame) : list Widget :=
  st_write "### 📊 Visualization" ::
  if empty df
  then [st_info "No data to visualize."]
  else
    let lat_col := safe_column df ["latitude"; "LATITUDE"] in
    let lon_col := safe_column df ["longitude"; "LONGITUDE"] in
    let temp_col := safe_column df ["temperature"; "TEMP"] in
    let pressure_col := safe_column df ["pressure"; "PRES"] in
    match lat_col, lon_col with
    | Some lat, Some lon => [st_map df lat lon]
    | _, _ =>
        match pressure_col, temp_col with
        | Some pressure, Some temp =>
            [st_plotly_chart
               {| frame := df; sort_by := pressure; x := temp; y := pressure;
                  title := "Temperature vs. Pressure Profile";
                  y_reversed := true;
                  x_title := Some "Temperature (°C)";
                  y_title := Some "Pressure (dbar)" |}
               true]
        | _, _ =>
            [st_info "Could not generate a specific plot. Displaying raw data."]
        end
    end.

(** Lines 198 to 215: the display of [st.session_state.last_result]. *)
Definition display (last_result : option StreamApp.LastResult) : list Widget :=
  match last_result with
  | Some result =>
      ([st_markdown "##### 💬 Summary";
        st_info (StreamApp.summary result);
        st_expander "🔍 View Generated SQL Query"
                    [st_code (StreamApp.sql result) "sql"]]
       ++ match StreamApp.df result with
          | Some df =>
              if negb (empty df)
              then ([st_markdown ("##### 📈 Data ("
                                  ++ str_nat (List.length (rows df)) ++ " rows)");
                     st_dataframe df]
                    ++ visualize df)%list
              else [st_warning "The query returned no results. Try rephrasing your question or adjusting the data ranges."]
          | None =>
              [st_warning "The query returned no results. Try rephrasing your question or adjusting the data ranges."]
          end)%list
  | None => [st_info "Ask a question in the sidebar to get started!"]
  end.

End StreamAppPage.

(* ------------------------------------------------------------------ *)
(** * Frontend/streamlit_app.py: the cached functions and the chat *)

Module StreamlitAppRun.
Import Streamlit.

(** [PROMPT_TEMPLATE.format(data_summary=..., user_query=...,
    retrieved_docs=...)] *)
Definition PROMPT_TEMPLATE (data_summary user_query retrieved_docs : string)
  : string :=
  "
[INST] You are an expert assistant that translates natural language into PostgreSQL queries.

Database schema:
Table: profiles
Columns:
- platform_number (int), juld (timestamptz), latitude (double precision), longitude (double precision),
  pressure (double precision), temperature (double precision), salinity (double precision),
  temp_qc (varchar), psal_qc (varchar), pres_qc (varchar)

Good Query Examples:
1. " ++ Py.dq ++ "Show me temperature profiles in South Atlantic" ++ Py.dq ++ "
   SQL: SELECT pressure, temperature FROM profiles WHERE latitude BETWEEN -40 AND -10 AND temp_qc = '1' ORDER BY pressure DESC LIMIT 50;

2. " ++ Py.dq ++ "Find float 1900121 locations in 2002" ++ Py.dq ++ "
   SQL: SELECT latitude, longitude, juld FROM profiles WHERE platform_number = 1900121 AND juld BETWEEN '2002-01-01' AND '2002-12-31' LIMIT 50;

Data Summary:
" ++ data_summary ++ "

User request: " ++ user_query ++ "

Relevant context: " ++ retrieved_docs ++ "

Instructions:
- Generate ONLY a SQL query, nothing else
- Use simple WHERE clauses with BETWEEN for ranges
- Always include temp_qc='1' AND psal_qc='1' for quality filtering
- Limit to 50 rows
- For deepest measurements, use ORDER BY pressure DESC
- NO explanations, NO comments, NO markdown, ONLY the SQL query
[/INST]
".

(** The statement of [get_data_summary]. *)
Definition SUMMARY_QUERY : string :=
  "SELECT MIN(juld) as min_date, MAX(juld) as max_date, MIN(latitude) as min_lat, MAX(latitude) as max_lat FROM profiles;".

(** An entry of [st.session_state.messages]. *)
Record Message : Type := { role : string; content : string }.

(** The stores of [st.cache_data], one for each decorated function, by the
    arguments that make the key (an argument whose name starts with an
    underscore is not part of it). *)
Record Cache : Type := {
  data_summary : option DataFrame;
  generated : list (string * string);
  fetched : list (string * DataFrame)
}.

(** What lives through a run of the script, and the page of the run. *)
Record Session : Type := {
  cache : Cache;
  messages : list Message;
  page : list Widget
}.

Fixpoint lookup {A : Type} (k : string) (table : list (string * A)) : option A :=
  match table with
  | [] => None
  | (k', a) :: rest => if String.eqb k k' then Some a else lookup k rest
  end.

(** Computations on the session and on the trace of events, that may
    raise; what was written and stored before an error stays. *)
Definition UI (A : Type) : Type :=
  Session -> list event -> result A * Session * list event.

Definition ui_ret {A : Type} (a : A) : UI A := fun s tr => (Return a, s, tr).

Definition ui_bind {A B : Type} (m : UI A) (k : A -> UI B) : UI B :=
  fun s tr =>
    match m s tr with
    | (Return a, s', tr') => k a s' tr'
    | (Raise e, s', tr') => (Raise e, s', tr')
    end.

Definition ui_lift {A : Type} (m : Eff A) : UI A :=
  fun s tr => let (r, tr') := m tr in (r, s, tr').

Definition ui_try {A : Type} (m : UI A) (h : exn -> UI A) : UI A :=
  fun s tr =>
    match m s tr with
    | (Raise e, s', tr') => h e s' tr'
    | r => r
    end.

Declare Scope ui_scope.
Delimit Scope ui_scope with ui.
Notation "x <- m ;; k" := (ui_bind m (fun x => k))
  (at level 61, m at next level, right associativity) : ui_scope.
Notation "m ;;; k" := (ui_bind m (fun _ => k))
  (at level 61, right associativity) : ui_scope.

Definition set_cache (c : Cache) (s : Session) : Session :=
  {| cache := c; messages := messages s; page := page s |}.

Definition set_page (p : list Widget) (s : Session) : Session :=
  {| cache := cache s; messages := messages s; page := p |}.

(** A call that writes to the page. *)
Definition show (w : Widget) : UI unit :=
  fun s tr => (Return tt, set_page (page s ++ [w])%list s, tr).

Definition show_all (ws : list Widget) : UI unit :=
  fun s tr => (Return tt, set_page (page s ++ ws)%list s, tr).

(** [st.session_state.messages.append(m)] *)
Definition append_message (m : Message) : UI unit :=
  fun s tr =>
    (Return tt,
     {| cache := cache s; messages := (messages s ++ [m])%list; page := page s |},
     tr).

(** [with container: body]: what the body writes goes into the
    container. *)
Definition within {A : Type} (container : list Widget -> Widget) (body : UI A)
  : UI A :=
  fun s tr =>
    match body (set_page [] s) tr with
    | (r, s', tr') => (r, set_page (page s ++ [container (page s')])%list s', tr')
    end.

(** [@st.cache_data]: a stored result is returned without running the
    body; a result that the body returns is stored; an error is not. *)
Definition cached {A : Type} (stored : Cache -> option A)
           (store : A -> Cache -> Cache) (body : UI A) : UI A :=
  fun s tr =>
    match stored (cache s) with
    | Some a => (Return a, s, tr)
    | None =>
        match body s tr with
        | (Return a, s', tr') => (Return a, set_cache (store a (cache s')) s', tr')
        | r => r
        end
    end.

(** [visualize(df)] of streamlit_app. *)
Definition visualize (df : DataFrame) : list Widget :=
  st_write "### Visualization" ::
  if empty df then []
  else if has_column df "latitude" && has_column df "longitude"
  then [st_map df "latitude" "longitude"]
  else if has_column df "pressure" && has_column df "temperature"
  then [st_plotly_chart
          {| frame := df; sort_by := "pressure"; x := "temperature";
             y := "pressure"; title := "Temperature Profile";
             y_reversed := true; x_title := None; y_title := None |}
          true]
  else [st_dataframe df].

Section Run.

Variable sqlparse_format : string -> string.
Variable world : World.
(** [df.to_string(index=False)] *)
Variable to_string_no_index : DataFrame -> string.

Definition get_data_summary : UI DataFrame :=
  cached data_summary
         (fun d c => {| data_summary := Some d; generated := generated c;
                        fetched := fetched c |})
         (ui_lift (call (ReadSql SUMMARY_QUERY) (read_sql world SUMMARY_QUERY))).

Definition generate_sql (user_query : string) : UI string :=
  cached (fun c => lookup user_query (generated c))
         (fun sql c => {| data_summary := data_summary c;
                          generated := (user_query, sql) :: generated c;
                          fetched := fetched c |})
         (summary_df <- get_data_summary ;;
          let summary_text := to_string_no_index summary_df in
          docs <- ui_lift (Retrieval.retrieve_docs world user_query 3) ;;
          let retrieved_docs := Py.join Py.nl docs in
          let prompt := PROMPT_TEMPLATE summary_text user_query retrieved_docs in
          content <- ui_lift (call (ChatCompletion prompt 500 0)
                                   (chat_completion world prompt 500 0)) ;;
          ui_ret (StreamlitApp.generate_sql_clean content))%ui.

Definition run_sql_fetch (sql : string) : UI DataFrame :=
  cached (fun c => lookup sql (fetched c))
         (fun d c => {| data_summary := data_summary c;
                        generated := generated c;
                        fetched := (sql, d) :: fetched c |})
         (ui_lift (StreamlitApp.run_sql_fetch sqlparse_format world sql)).

(** Lines 144 to 166: [prompt] is what [st.chat_input] returned, [None]
    when nothing was sent; an empty text is false as well.  The spinner is
    not part of the page that stays. *)
Definition on_prompt (prompt : option string) : UI unit :=
  match prompt with
  | None | Some EmptyString => ui_ret tt
  | Some prompt =>
      (append_message {| role := "user"; content := prompt |} ;;;
       within (st_chat_message "user") (show (st_markdown prompt)) ;;;
       within (st_chat_message "assistant")
         (ui_try
            (raw_sql <- generate_sql prompt ;;
             show (st_write "🔍 **Generated SQL Query:**") ;;;
             show (st_code raw_sql "sql") ;;;
             results_df <- run_sql_fetch raw_sql ;;
             let row_count := List.length (rows results_df) in
             show (st_metric "Rows Returned" row_count) ;;;
             (if empty results_df
              then show (st_warning "**The query returned no results.** Try asking a question that fits within the available data ranges shown above.")
              else (show (st_dataframe results_df) ;;;
                    show_all (visualize results_df))) ;;;
             append_message
               {| role := "assistant";
                  content := "Found " ++ str_nat row_count
                             ++ " results for your query." |})
            (fun e =>
               match e with
               | ValueError ve => show (st_error ("Security Error: " ++ ve))
               | _ => show (st_error ("An error occurred: " ++ str e))
               end)))%ui
  end.

End Run.
End StreamlitAppRun.

(* ------------------------------------------------------------------ *)
(** * Reading a trace *)

(** The errors shown to the user with [st.error], and the prompts for a
    line of input. *)
Definition shown_errors (tr : list event) : list event :=
  filter (fun ev => match ev with StError _ => true | _ => false end) tr.

Definition vector_queries (tr : list event) : list event :=
  filter (fun ev => match ev with VectorQuery _ _ => true | _ => false end) tr.





(* ------------------------------------------------------------------ *)
(** * Outsides that fail, for the examples *)

Module Outside.

(** The database answers every statement with an error. *)
Definition database_down (answer msg : string) : World :=
  {| chat_completion := fun _ _ _ => Return answer;
     collection_query := fun _ _ => Return ["Float 1900121, South Atlantic"];
     read_sql := fun _ => Raise (Failure msg);
     to_string := fun d => Py.join Py.nl (List.map (Py.join " ") (rows d)) |}.

(** The database answers every statement with a frame without rows. *)
Definition no_rows (answer : string) : World :=
  {| chat_completion := fun _ _ _ => Return answer;
     collection_query := fun _ _ => Return ["Float 1900121, South Atlantic"];
     read_sql := fun _ => Return {| columns := ["pressure"]; rows := [] |};
     to_string := fun d => Py.join Py.nl (List.map (Py.join " ") (rows d)) |}.

(** The vector index answers every query with an error. *)
Definition index_down (msg : string) : World :=
  {| chat_completion := fun _ _ _ => Return "SELECT 1";
     collection_query := fun _ _ => Raise (Failure msg);
     read_sql := fun _ => Return {| columns := ["pressure"]; rows := [["10.0"]] |};
     to_string := fun d => Py.join Py.nl (List.map (Py.join " ") (rows d)) |}.

(** The completion endpoint answers every prompt with an error. *)
Definition endpoint_down (msg : string) : World :=
  {| chat_completion := fun _ _ _ => Raise (Failure msg);
     collection_query := fun _ _ => Return ["Float 1900121, South Atlantic"];
     read_sql := fun _ => Return {| columns := ["pressure"]; rows := [["10.0"]] |};
     to_string := fun d => Py.join Py.nl (List.map (Py.join " ") (rows d)) |}.

End Outside.

(* ================================================================== *)
(** * Facts about the string primitives *)

Module PyFacts.
Import Py.

Lemma app_nil_r (s : string) : s ++ "" = s.
Proof. induction s as [|c s IH]; simpl; [reflexivity | now rewrite IH]. Qed.

Lemma app_assoc (a b c : string) : (a ++ b) ++ c = a ++ b ++ c.
Proof. induction a as [|x a IH]; simpl; [reflexivity | now rewrite IH]. Qed.

(** ** Characters, by cases on the eight bits *)

Ltac by_bits c :=
  destruct c as [[] [] [] [] [] [] [] []]; vm_compute; reflexivity.

Lemma isword_lower_char (c : ascii) : isword (lower_char c) = isword c.
Proof. by_bits c. Qed.

Lemma upper_lower_char (c : ascii) : upper_char (lower_char c) = upper_char c.
Proof. by_bits c. Qed.

Lemma lower_upper_char (c : ascii) : lower_char (upper_char c) = lower_char c.
Proof. by_bits c. Qed.

Lemma lower_char_eq_upper (a b : ascii) :
  lower_char a = lower_char b <-> upper_char a = upper_char b.
Proof.
  split; intros H.
  - rewrite <- (upper_lower_char a), <- (upper_lower_char b). now rewrite H.
  - rewrite <- (lower_upper_char a), <- (lower_upper_char b). now rewrite H.
Qed.

Lemma lower_char_eq_isword (a b : ascii) :
  lower_char a = lower_char b -> isword a = isword b.
Proof.
  intros H. rewrite <- (isword_lower_char a), <- (isword_lower_char b).
  now rewrite H.
Qed.

(** ** [map], [upper], [lower] *)

Lemma map_app (f : ascii -> ascii) (a b : string) :
  map f (a ++ b) = map f a ++ map f b.
Proof. induction a as [|x a IH]; simpl; [reflexivity | now rewrite IH]. Qed.


Lemma upper_app (a b : string) : upper (a ++ b) = upper a ++ upper b.
Proof. apply map_app. Qed.

Lemma lower_eq_upper (a b : string) : lower a = lower b <-> upper a = upper b.
Proof.
  unfold lower, upper. revert b.
  induction a as [|x a IH]; intros [|y b]; simpl;
    try (split; intros H; (reflexivity || discriminate)).
  split; intros H; injection H as H1 H2.
  - apply lower_char_eq_upper in H1. apply IH in H2. now rewrite H1, H2.
  - apply lower_char_eq_upper in H1. apply IH in H2. now rewrite H1, H2.
Qed.

(** ** [prefix], [contains] *)

Lemma prefix_iff (p s : string) :
  prefix p s = true <-> exists t, s = p ++ t.
Proof.
  revert s. induction p as [|x p IH]; intros s; simpl.
  - destruct s; split; intros; eauto.
  - destruct s as [|c s]; simpl.
    + split; [discriminate | intros [t H]; discriminate].
    + destruct (ascii_dec x c) as [->|Hne].
      * rewrite IH. split; intros [t H]; exists t.
        -- now rewrite H.
        -- now injection H.
      * split; [discriminate | intros [t H]]. injection H as H _. now elim Hne.
Qed.

Lemma prefix_app (p t : string) : prefix p (p ++ t) = true.
Proof. apply prefix_iff. now exists t. Qed.

Lemma contains_iff (sub s : string) :
  contains sub s = true <-> exists pre post, s = pre ++ sub ++ post.
Proof.
  induction s as [|c s IH].
  - cbn [contains]. rewrite orb_false_r, prefix_iff. split.
    + intros [t H]. now exists "", t.
    + intros (pre & post & H). destruct pre; simpl in H.
      * now exists post.
      * discriminate.
  - cbn [contains]. rewrite orb_true_iff, IH, prefix_iff. split.
    + intros [[t H] | (pre & post & H)].
      * now exists "", t.
      * exists (String c pre), post. simpl. now rewrite H.
    + intros (pre & post & H). destruct pre as [|x pre]; simpl in H.
      * left. now exists post.
      * right. injection H as _ H. now exists pre, post.
Qed.

Lemma contains_app_l (sub a b : string) :
  contains sub a = true -> contains sub (a ++ b) = true.
Proof.
  rewrite !contains_iff. intros (pre & post & ->).
  exists pre, (post ++ b). now rewrite !app_assoc.
Qed.

Lemma contains_app_r (sub a b : string) :
  contains sub b = true -> contains sub (a ++ b) = true.
Proof.
  rewrite !contains_iff. intros (pre & post & ->).
  exists (a ++ pre), post. now rewrite !app_assoc.
Qed.

Lemma contains_false_app_l (sub a b : string) :
  contains sub (a ++ b) = false -> contains sub a = false.
Proof.
  intros H. destruct (contains sub a) eqn:E; [|reflexivity].
  now rewrite (contains_app_l _ _ b E) in H.
Qed.

Lemma contains_false_app_r (sub a b : string) :
  contains sub (a ++ b) = false -> contains sub b = false.
Proof.
  intros H. destruct (contains sub b) eqn:E; [|reflexivity].
  now rewrite (contains_app_r _ a _ E) in H.
Qed.


End PyFacts.

(* ================================================================== *)
(** * Facts about the two regular expressions *)

Module ReFacts.
Import Py Re PyFacts.
Import Spec(last_or).

Lemma last_or_cons (prev : option ascii) (c : ascii) (s : string) :
  last_or prev (String c s) = last_or (Some c) s.
Proof.
  unfold last_or. simpl. destruct s as [|d s]; [reflexivity|].
  destruct (Spec.last (String d s)) eqn:E; [reflexivity|].
  exfalso. clear -E. revert d E. induction s as [|x s IH]; intros d E.
  - discriminate.
  - simpl in E. apply (IH x). exact E.
Qed.










(** ** The terminator in the list of main_app *)




(** ** The entry-point expression *)

Lemma word_prefix_empty_iff (s : string) :
  Spec.word_prefix s = "" <-> isword_opt (head s) = false.
Proof.
  destruct s as [|c s]; simpl; [tauto|].
  destruct (isword c); split; intros H; (reflexivity || discriminate).
Qed.

Lemma literal_first_token (kw : string) :
  all_word kw = true ->
  forall s l,
    isword_opt l = true ->
    match literal kw s l with
    | Some (last, rest) => boundary last (head rest)
    | None => false
    end = (lower (Spec.word_prefix s) =? lower kw).
Proof.
  induction kw as [|p kw IH]; intros Hw s l Hl.
  - simpl. unfold boundary. rewrite Hl. simpl.
    destruct (Spec.word_prefix s) eqn:E.
    + apply word_prefix_empty_iff in E. now rewrite E.
    + destruct (isword_opt (head s)) eqn:E'; [reflexivity|].
      apply word_prefix_empty_iff in E'. congruence.
  - simpl in Hw. apply andb_true_iff in Hw as [Hp Hw].
    destruct s as [|c s]; [reflexivity|]. cbn [literal].
    destruct (Ascii.eqb (lower_char p) (lower_char c)) eqn:E.
    + apply Ascii.eqb_eq in E.
      assert (Hc : isword c = true)
        by (rewrite <- (lower_char_eq_isword _ _ E); exact Hp).
      rewrite (IH Hw s (Some c) Hc). cbn [Spec.word_prefix]. rewrite Hc.
      unfold lower. cbn [map String.eqb]. rewrite <- E, Ascii.eqb_refl.
      reflexivity.
    + cbn [Spec.word_prefix]. destruct (isword c); unfold lower; cbn [map String.eqb].
      * rewrite Ascii.eqb_sym, E. reflexivity.
      * reflexivity.
Qed.

(** The entry-point expression accepts a text exactly when its first
    token reads one of the alternatives, in any letter case. *)
Lemma match_first_iff (alts : list string) (s : string) :
  Forall (fun kw => all_word kw = true /\ kw <> "") alts ->
  match_first alts s = true <->
  exists kw, In kw alts /\ upper (Spec.first_token s) = upper kw.
Proof.
  intros Halts. unfold match_first. rewrite existsb_exists.
  split; intros (kw & Hin & H); exists kw; (split; [exact Hin|]);
    rewrite Forall_forall in Halts; destruct (Halts kw Hin) as [Hw Hne];
    destruct kw as [|p kw]; try (now elim Hne).
  - apply lower_eq_upper. apply String.eqb_eq.
    unfold Spec.first_token. destruct (lstrip s) as [|c t]; [discriminate|].
    cbn [literal] in H.
    destruct (Ascii.eqb (lower_char p) (lower_char c)) eqn:E; [|discriminate].
    simpl in Hw. apply andb_true_iff in Hw as [Hp Hw].
    apply Ascii.eqb_eq in E.
    assert (Hc : isword c = true)
      by (rewrite <- (lower_char_eq_isword _ _ E); exact Hp).
    rewrite (literal_first_token kw Hw t (Some c) Hc) in H.
    cbn [Spec.word_prefix]. rewrite Hc. unfold lower. cbn [map String.eqb].
    now rewrite <- E, Ascii.eqb_refl.
  - apply lower_eq_upper in H. unfold Spec.first_token in H.
    destruct (lstrip s) as [|c t]; [discriminate|].
    cbn [Spec.word_prefix] in H. destruct (isword c) eqn:Hc; [|discriminate].
    unfold lower in H. cbn [map] in H. injection H as E H.
    cbn [literal]. rewrite <- E, Ascii.eqb_refl.
    simpl in Hw. apply andb_true_iff in Hw as [Hp Hw].
    rewrite (literal_first_token kw Hw t (Some c) Hc).
    apply String.eqb_eq. exact H.
Qed.

End ReFacts.

(* ================================================================== *)
(** * The validators *)

Module ValidatorFacts.
Import Py Re PyFacts ReFacts.

Lemma find_none_iff {A : Type} (p : A -> bool) (l : list A) :
  find p l = None <-> forall x, In x l -> p x = false.
Proof.
  split; [apply find_none|]. induction l as [|a l IH]; intros H; simpl.
  - reflexivity.
  - rewrite (H a (or_introl eq_refl)). apply IH. intros x Hx. apply H. now right.
Qed.




Lemma forbidden_main_app :
  MainApp.forbidden = (RagEngine.forbidden ++ [";"])%list.
Proof. reflexivity. Qed.

Lemma forbidden_streamlit_app : StreamlitApp.forbidden = RagEngine.forbidden.
Proof. reflexivity. Qed.



(** The entry-point test, by the first token of the text. *)
Lemma entry_select (parsed : string) :
  match_first ["SELECT"] parsed = true <->
  upper (Spec.first_token parsed) = "SELECT".
Proof.
  rewrite match_first_iff by (repeat constructor; discriminate).
  split.
  - intros (kw & [<-|[]] & H). exact H.
  - intros H. exists "SELECT". split; [now left | exact H].
Qed.

Lemma entry_select_with (parsed : string) :
  match_first ["SELECT"; "WITH"] parsed = true <->
  upper (Spec.first_token parsed) = "SELECT" \/
  upper (Spec.first_token parsed) = "WITH".
Proof.
  rewrite match_first_iff by (repeat constructor; discriminate).
  split.
  - intros (kw & [<-|[<-|[]]] & H); [now left | now right].
  - intros [H|H]; [exists "SELECT" | exists "WITH"]; (split; [simpl; tauto | exact H]).
Qed.


(** ** What an accepted statement went through *)

Lemma rag_engine_accepts (fmt : string -> string) (sql out : string) :
  RagEngine._sanitize_sql fmt sql = Return out ->
  find (fun f => search_word f (strip (fmt sql))) RagEngine.forbidden = None /\
  match_first ["SELECT"] (strip (fmt sql)) = true /\
  out = strip (fmt sql).
Proof.
  unfold RagEngine._sanitize_sql.
  destruct (find _ RagEngine.forbidden); [discriminate|].
  destruct (match_first ["SELECT"] _); simpl; [|discriminate].
  intros H. injection H as <-. auto.
Qed.

Lemma streamlit_app_accepts (fmt : string -> string) (sql out : string) :
  StreamlitApp.sanitize_sql fmt sql = Return out ->
  find (fun f => search_word f (strip (fmt sql))) StreamlitApp.forbidden = None /\
  match_first ["SELECT"; "WITH"] (strip (fmt sql)) = true /\
  out = (if negb (contains "LIMIT" (upper (strip (fmt sql))))
         then strip (fmt sql) ++ " LIMIT 1000" else strip (fmt sql)).
Proof.
  unfold StreamlitApp.sanitize_sql.
  destruct (find _ StreamlitApp.forbidden); [discriminate|].
  destruct (match_first _ _); simpl; [|discriminate].
  intros H. injection H as <-. auto.
Qed.

Lemma main_app_accepts (fmt : string -> string)
      (prs : string -> list Sqlparse.Statement) (sql out : string) :
  MainApp.sanitize_sql fmt prs sql = Return out ->
  find (fun f => search_word f (strip (fmt sql))) MainApp.forbidden = None /\
  match_first ["SELECT"] (strip (fmt sql)) = true /\
  (exists statement rest,
      prs (strip (fmt sql)) = statement :: rest /\
      MainApp.check_tables statement false = None) /\
  out = (if negb (contains "LIMIT" (upper (strip (fmt sql))))
         then strip (fmt sql) ++ " LIMIT 1000" else strip (fmt sql)).
Proof.
  unfold MainApp.sanitize_sql.
  destruct (find _ MainApp.forbidden); [discriminate|].
  destruct (match_first _ _); simpl; [|discriminate].
  destruct (prs _) as [|statement rest]; [discriminate|].
  destruct (MainApp.check_tables statement false) eqn:E; [discriminate|].
  intros H. injection H as <-. repeat split; eauto.
Qed.

(** ** The table loop of main_app *)

Lemma check_tables_spec (tokens : list Sqlparse.Token) (b : bool) :
  MainApp.check_tables tokens b =
  find (fun v => negb (Spec.allowed v))
       (Spec.pending b tokens ++ Spec.from_tables tokens)%list.
Proof.
  revert b. induction tokens as [|t rest IH]; intros b.
  - destruct b; reflexivity.
  - cbn [MainApp.check_tables Spec.from_tables]. unfold Spec.is_FROM.
    destruct (Sqlparse.is_keyword t && (upper (Sqlparse.value t) =? "FROM")) eqn:EF.
    + rewrite IH. apply andb_true_iff in EF as [Hk _].
      assert (Hn : Sqlparse.ttype_is_None t = false).
      { unfold Sqlparse.is_keyword, Sqlparse.ttype_is_None in *.
        destruct (Sqlparse.ttype t); [reflexivity | discriminate]. }
      unfold Spec.pending. cbn [Spec.next_group]. rewrite Hn.
      destruct b, (Spec.next_group rest) as [v|]; simpl; try reflexivity.
      destruct (negb (Spec.allowed v)); reflexivity.
    + destruct b; cbn [andb].
      * unfold Spec.pending at 1. cbn [Spec.next_group].
        destruct (Sqlparse.ttype_is_None t) eqn:Hn.
        -- cbn [app find]. fold (Spec.allowed (Sqlparse.value t)).
           destruct (negb (Spec.allowed (Sqlparse.value t))); [reflexivity|].
           rewrite IH. reflexivity.
        -- rewrite IH. reflexivity.
      * rewrite IH. reflexivity.
Qed.

Lemma check_tables_from_tables (tokens : list Sqlparse.Token) :
  MainApp.check_tables tokens false =
  find (fun v => negb (Spec.allowed v)) (Spec.from_tables tokens).
Proof. apply check_tables_spec. Qed.

End ValidatorFacts.

(* ================================================================== *)
(** * Validating a text that ends with the appended limit *)

Module RevalidationFacts.
Import Py Re PyFacts ReFacts ValidatorFacts.
Import Spec(last_or).

Lemma lower_char_space (p : ascii) :
  Ascii.eqb (lower_char p) (lower_char " ") = Ascii.eqb p " ".
Proof. destruct p as [[] [] [] [] [] [] [] []]; vm_compute; reflexivity. Qed.

Lemma no_space_cons (p : ascii) (kw : string) :
  contains " " (String p kw) = false ->
  Ascii.eqb (lower_char p) (lower_char " ") = false /\ contains " " kw = false.
Proof.
  cbn [contains]. intros H. apply orb_false_iff in H as [H1 H2].
  split; [|exact H2]. rewrite lower_char_space.
  simpl in H1. destruct (ascii_dec " " p) as [<-|Hne]; [now destruct kw|].
  apply Ascii.eqb_neq. congruence.
Qed.

(** A match of a text without space does not reach into what follows a
    space. *)
Lemma literal_extend (kw : string) (suf : string) :
  contains " " kw = false ->
  forall s l,
    match literal kw (s ++ String " " suf) l with
    | Some (last, rest) => boundary last (head rest)
    | None => false
    end
    = match literal kw s l with
      | Some (last, rest) => boundary last (head rest)
      | None => false
      end.
Proof.
  induction kw as [|p kw IH]; intros Hkw s l.
  - cbn [literal]. destruct s; reflexivity.
  - apply no_space_cons in Hkw as [Hp Hkw]. destruct s as [|c s].
    + cbn [literal append]. now rewrite Hp.
    + change (String c s ++ String " " suf) with (String c (s ++ String " " suf)).
      cbn [literal].
      destruct (Ascii.eqb (lower_char p) (lower_char c)); [|reflexivity].
      now apply IH.
Qed.

Lemma word_here_extend (kw suf : string) (prev : option ascii) (s : string) :
  kw <> "" -> contains " " kw = false ->
  word_here kw prev (s ++ String " " suf)
  = if String.eqb s "" then false else word_here kw prev s.
Proof.
  intros Hne Hkw. unfold word_here. rewrite (literal_extend kw suf Hkw).
  destruct s as [|c s]; [|reflexivity].
  destruct kw; [now elim Hne|]. cbn [literal]. apply andb_false_r.
Qed.

Lemma word_here_empty (kw : string) (prev : option ascii) :
  kw <> "" -> word_here kw prev "" = false.
Proof.
  intros Hne. unfold word_here. destruct kw; [now elim Hne|].
  cbn [literal]. apply andb_false_r.
Qed.

Lemma search_word_extend (kw suf : string) :
  kw <> "" -> contains " " kw = false ->
  forall s prev,
    search_word_from kw prev (s ++ String " " suf)
    = search_word_from kw prev s
      || search_word_from kw (last_or prev s) (String " " suf).
Proof.
  intros Hne Hkw. induction s as [|c s IH]; intros prev.
  - cbn [append search_word_from]. rewrite (word_here_empty kw prev Hne).
    reflexivity.
  - change (String c s ++ String " " suf) with (String c (s ++ String " " suf)).
    cbn [search_word_from].
    change (String c (s ++ String " " suf)) with (String c s ++ String " " suf).
    rewrite (word_here_extend kw suf prev (String c s) Hne Hkw).
    cbn [String.eqb]. rewrite IH, last_or_cons. now rewrite orb_assoc.
Qed.

(** None of the tokens of the three lists stands in the appended text. *)
Lemma limit_suffix_clean (kw : string) (prev : option ascii) :
  In kw MainApp.forbidden ->
  search_word_from kw prev " LIMIT 1000" = false.
Proof.
  intros Hin. cbn [search_word_from].
  assert (H1 : word_here kw prev " LIMIT 1000" = false).
  { unfold word_here. simpl in Hin.
    repeat (destruct Hin as [<-|Hin]; [apply andb_false_r|]). now elim Hin. }
  rewrite H1. simpl in Hin.
  repeat (destruct Hin as [<-|Hin]; [vm_compute; reflexivity|]). now elim Hin.
Qed.

Lemma forbidden_no_space (kw : string) :
  In kw MainApp.forbidden -> kw <> "" /\ contains " " kw = false.
Proof.
  intros Hin. simpl in Hin.
  repeat (destruct Hin as [<-|Hin]; [split; [discriminate | reflexivity]|]).
  now elim Hin.
Qed.

Lemma scan_with_limit (parsed kw : string) :
  In kw MainApp.forbidden ->
  search_word kw (parsed ++ " LIMIT 1000") = search_word kw parsed.
Proof.
  intros Hin. destruct (forbidden_no_space kw Hin) as [Hne Hkw].
  unfold search_word. rewrite (search_word_extend kw "LIMIT 1000" Hne Hkw).
  rewrite (limit_suffix_clean kw _ Hin). apply orb_false_r.
Qed.

Lemma find_scan_with_limit (parsed : string) (l : list string) :
  (forall kw, In kw l -> In kw MainApp.forbidden) ->
  find (fun f => search_word f (parsed ++ " LIMIT 1000")) l
  = find (fun f => search_word f parsed) l.
Proof.
  induction l as [|kw l IH]; intros H; [reflexivity|]. cbn [find].
  rewrite (scan_with_limit parsed kw) by (apply H; now left).
  rewrite IH by (intros k Hk; apply H; now right). reflexivity.
Qed.

Lemma lstrip_nonempty_app (a b : string) :
  lstrip a <> "" -> lstrip (a ++ b) = lstrip a ++ b.
Proof.
  induction a as [|c a IH]; cbn [lstrip append]; [now intros H; elim H|].
  destruct (isspace c); [exact IH | reflexivity].
Qed.

Lemma match_first_with_limit (alts : list string) (parsed : string) :
  Forall (fun kw => contains " " kw = false) alts ->
  match_first alts parsed = true ->
  match_first alts (parsed ++ " LIMIT 1000") = true.
Proof.
  intros Halts H. unfold match_first in *.
  assert (Hne : lstrip parsed <> "").
  { intros E. rewrite E in H. rewrite Forall_forall in Halts.
    apply existsb_exists in H as (kw & Hin & Hk).
    destruct kw as [|p kw]; [discriminate Hk | discriminate Hk]. }
  rewrite (lstrip_nonempty_app _ _ Hne).
  apply existsb_exists in H as (kw & Hin & Hk).
  apply existsb_exists. exists kw. split; [exact Hin|].
  rewrite Forall_forall in Halts.
  change " LIMIT 1000" with (String " " "LIMIT 1000").
  now rewrite (literal_extend kw "LIMIT 1000" (Halts kw Hin)).
Qed.

Lemma limit_is_there (parsed : string) :
  contains "LIMIT" (upper (parsed ++ " LIMIT 1000")) = true.
Proof.
  rewrite upper_app. apply contains_app_r. reflexivity.
Qed.

(** streamlit_app returns again a text that it returned, when sqlparse
    gives this text back as it is. *)
Lemma streamlit_app_stable (fmt : string -> string) (sql out : string) :
  StreamlitApp.sanitize_sql fmt sql = Return out ->
  strip (fmt out) = out ->
  StreamlitApp.sanitize_sql fmt out = Return out.
Proof.
  intros H Hfix. apply streamlit_app_accepts in H as (Hscan & Hentry & Hout).
  unfold StreamlitApp.sanitize_sql. rewrite Hfix.
  destruct (contains "LIMIT" (upper (strip (fmt sql)))) eqn:E;
    cbn [negb] in Hout; subst out.
  - now rewrite Hscan, Hentry, E.
  - rewrite find_scan_with_limit, Hscan.
    + rewrite match_first_with_limit; [|repeat constructor|exact Hentry].
      cbn [negb]. now rewrite limit_is_there.
    + intros kw Hk. rewrite forbidden_main_app. apply in_or_app. now left.
Qed.

(** So does rag_engine. *)
Lemma rag_engine_stable (fmt : string -> string) (sql out : string) :
  RagEngine._sanitize_sql fmt sql = Return out ->
  strip (fmt out) = out ->
  RagEngine._sanitize_sql fmt out = Return out.
Proof.
  intros H Hfix. apply rag_engine_accepts in H as (Hscan & Hentry & ->).
  unfold RagEngine._sanitize_sql. rewrite Hfix. now rewrite Hscan, Hentry.
Qed.

(** And main_app, when the FROM tables of the returned text pass. *)
Lemma main_app_stable (fmt : string -> string)
      (prs : string -> list Sqlparse.Statement) (sql out : string)
      (statement : Sqlparse.Statement) (rest : list Sqlparse.Statement) :
  MainApp.sanitize_sql fmt prs sql = Return out ->
  strip (fmt out) = out ->
  prs out = statement :: rest ->
  MainApp.check_tables statement false = None ->
  MainApp.sanitize_sql fmt prs out = Return out.
Proof.
  intros H Hfix Hp Hc.
  apply main_app_accepts in H as (Hscan & Hentry & _ & Hout).
  unfold MainApp.sanitize_sql. rewrite Hfix.
  destruct (contains "LIMIT" (upper (strip (fmt sql)))) eqn:E;
    cbn [negb] in Hout; subst out.
  - now rewrite Hscan, Hentry, Hp, Hc, E.
  - rewrite find_scan_with_limit, Hscan by trivial.
    rewrite match_first_with_limit; [|repeat constructor|exact Hentry].
    cbn [negb]. now rewrite Hp, Hc, limit_is_there.
Qed.

End RevalidationFacts.

(* ================================================================== *)
(** * The claims about the validators *)

Module ValidatorClaims.
Import Py Re PyFacts ReFacts ValidatorFacts.

(** ** C1: the table allow-list *)




(** ** C2: the forbidden keywords *)




(** ** C3: the limit clause *)




(** ** C4: one statement only *)

(** C4 at a failing input: two SELECT statements that each pass, joined
    by a terminator, pass main_app ([\b;\b] asks for a word character on
    both sides of the terminator, see [semicolon_rule_iff]; here a
    parenthesis stands before it), and pass rag_engine and streamlit_app,
    which have no such rule. *)
Theorem C4_stacked_statements_accepted :
  MainApp.sanitize_sql Observed.format Observed.parse "SELECT (1)"
  = Return "SELECT (1) LIMIT 1000" /\
  MainApp.sanitize_sql Observed.format Observed.parse "SELECT (2)"
  = Return "SELECT (2) LIMIT 1000" /\
  MainApp.sanitize_sql Observed.format Observed.parse "SELECT (1); SELECT (2)"
  = Return "SELECT (1);SELECT (2) LIMIT 1000" /\
  RagEngine._sanitize_sql Observed.format "SELECT (1); SELECT (2)"
  = Return "SELECT (1);SELECT (2)" /\
  StreamlitApp.sanitize_sql Observed.format "SELECT (1); SELECT (2)"
  = Return "SELECT (1);SELECT (2) LIMIT 1000".
Proof. repeat split; reflexivity. Qed.

(** ** C5: the entry point *)




(** ** C9: validating twice *)

(** C9 at a failing input: main_app and streamlit_app append the limit
    after the terminator of [SELECT 1;]; validated again, the returned text
    is two statements for sqlparse, which writes them one directly after
    the other; main_app then rejects its own output (the terminator now
    stands between two word characters) and streamlit_app returns a text
    that differs from the one it was given.  (A returned text that sqlparse
    gives back as it is validates to itself: [streamlit_app_stable],
    [rag_engine_stable], [main_app_stable].) *)
Theorem C9_second_validation_differs :
  MainApp.sanitize_sql Observed.format Observed.parse "SELECT 1;"
  = Return "SELECT 1; LIMIT 1000" /\
  MainApp.sanitize_sql Observed.format Observed.parse "SELECT 1; LIMIT 1000"
  = Raise (ValueError "Forbidden SQL keyword found: ;") /\
  StreamlitApp.sanitize_sql Observed.format "SELECT 1;"
  = Return "SELECT 1; LIMIT 1000" /\
  StreamlitApp.sanitize_sql Observed.format "SELECT 1; LIMIT 1000"
  = Return "SELECT 1;LIMIT 1000".
Proof. repeat split; reflexivity. Qed.

(** ** C10: the limit test is a test on the letters *)



End ValidatorClaims.

(* ================================================================== *)
(** * The runs of the pipeline *)

Module PipelineFacts.
Import Py.

Lemma db_calls_app (tr tr' : list event) :
  db_calls (tr ++ tr')%list = (db_calls tr ++ db_calls tr')%list.
Proof. apply filter_app. Qed.

Lemma retrieve_context_run (world : World) (query : string) (k : nat)
      (documents : list string) (tr : list event) :
  collection_query world query k = Return documents ->
  RagEngine.retrieve_context world query k tr
  = (Return (join nl documents),
     (tr ++ [Print ("Retrieving context for query: '" ++ query ++ "'");
             VectorQuery query k])%list).
Proof.
  intros H. unfold RagEngine.retrieve_context, bind, print, call, ret.
  rewrite H, <- List.app_assoc. reflexivity.
Qed.

Lemma generate_sql_run (world : World) (query context content : string)
      (tr : list event) :
  chat_completion world (RagEngine.SQL_PROMPT_TEMPLATE query context) 500 0
  = Return content ->
  RagEngine.generate_sql world query context tr
  = (Return (RagEngine.generate_sql_clean content),
     (tr ++ [Print "Generating SQL query...";
             ChatCompletion (RagEngine.SQL_PROMPT_TEMPLATE query context) 500 0])%list).
Proof.
  intros H. unfold RagEngine.generate_sql, bind, print, call, ret.
  rewrite H, <- List.app_assoc. reflexivity.
Qed.

(** A rejected statement: the error is printed, [None] is returned, and
    the database is not called. *)
Lemma execute_sql_rejected (fmt : string -> string) (world : World)
      (sql : string) (e : exn) (tr : list event) :
  RagEngine._sanitize_sql fmt sql = Raise e ->
  RagEngine.execute_sql fmt world sql tr
  = (Return None,
     (tr ++ [Print ("Executing SQL:" ++ nl ++ sql);
             Print ("❌ SQL Execution Error: " ++ str e)])%list).
Proof.
  intros H.
  unfold RagEngine.execute_sql, bind, try_except, print, call, ret, lift.
  rewrite H, <- List.app_assoc. reflexivity.
Qed.

Lemma main_app_fetch_rejected (fmt : string -> string)
      (prs : string -> list Sqlparse.Statement) (world : World)
      (sql : string) (e : exn) (tr : list event) :
  MainApp.sanitize_sql fmt prs sql = Raise e ->
  MainApp.run_sql_fetch fmt prs world sql tr
  = (Raise e, (tr ++ [Print (nl ++ "--- Sanitizing and Executing SQL ---")])%list).
Proof.
  intros H. unfold MainApp.run_sql_fetch, bind, print, call, lift.
  rewrite H. reflexivity.
Qed.

Lemma streamlit_app_fetch_rejected (fmt : string -> string) (world : World)
      (sql : string) (e : exn) (tr : list event) :
  StreamlitApp.sanitize_sql fmt sql = Raise e ->
  StreamlitApp.run_sql_fetch fmt world sql tr = (Raise e, tr).
Proof.
  intros H. unfold StreamlitApp.run_sql_fetch, bind, lift.
  rewrite H. reflexivity.
Qed.

(** The errors that the validators raise. *)
Lemma rag_engine_errors (fmt : string -> string) (sql : string) (e : exn) :
  RagEngine._sanitize_sql fmt sql = Raise e ->
  (exists f, In f RagEngine.forbidden /\
             e = ValueError ("Forbidden SQL keyword found: " ++ f)) \/
  e = ValueError "Only SELECT queries are allowed.".
Proof.
  unfold RagEngine._sanitize_sql.
  destruct (find _ RagEngine.forbidden) as [f|] eqn:E.
  - intros H. injection H as <-. left. exists f. split; [|reflexivity].
    now apply find_some in E.
  - destruct (Re.match_first _ _); simpl; [discriminate|].
    intros H. injection H as <-. now right.
Qed.

Lemma streamlit_app_errors (fmt : string -> string) (sql : string) (e : exn) :
  StreamlitApp.sanitize_sql fmt sql = Raise e ->
  (exists f, In f StreamlitApp.forbidden /\
             e = ValueError ("Forbidden SQL keyword found: " ++ f)) \/
  e = ValueError "Only SELECT or WITH queries are allowed.".
Proof.
  unfold StreamlitApp.sanitize_sql.
  destruct (find _ StreamlitApp.forbidden) as [f|] eqn:E.
  - intros H. injection H as <-. left. exists f. split; [|reflexivity].
    now apply find_some in E.
  - destruct (Re.match_first _ _); simpl; [discriminate|].
    intros H. injection H as <-. now right.
Qed.

Lemma main_app_errors (fmt : string -> string)
      (prs : string -> list Sqlparse.Statement) (sql : string) (e : exn) :
  MainApp.sanitize_sql fmt prs sql = Raise e ->
  (exists f, In f MainApp.forbidden /\
             e = ValueError ("Forbidden SQL keyword found: " ++ f)) \/
  e = ValueError "Only SELECT queries are allowed." \/
  (exists v, Spec.allowed v = false /\
             e = ValueError ("Table '" ++ v ++ "' is not allowed.")) \/
  (prs (strip (fmt sql)) = [] /\ e = IndexError).
Proof.
  unfold MainApp.sanitize_sql.
  destruct (find _ MainApp.forbidden) as [f|] eqn:E.
  - intros H. injection H as <-. left. exists f. split; [|reflexivity].
    now apply find_some in E.
  - destruct (Re.match_first _ _); simpl.
    + destruct (prs _) as [|statement rest] eqn:Ep.
      * intros H. injection H as <-. right. right. right. now split.
      * destruct (MainApp.check_tables statement false) as [v|] eqn:Ec;
          [|discriminate].
        intros H. injection H as <-. right. right. left. exists v.
        split; [|reflexivity].
        rewrite ValidatorFacts.check_tables_from_tables in Ec.
        apply find_some in Ec as [_ Ec]. now apply negb_true_iff in Ec.
    + intros H. injection H as <-. right. now left.
Qed.

End PipelineFacts.

(* ================================================================== *)
(** * The claims about the pipeline *)

Module PipelineClaims.
Import Py PipelineFacts.

(** ** C6: a rejection and the caller *)

(** C6, as stated, fails: in rag_engine the caller of [execute_sql] gets
    [None] for a rejected statement, not an error, and the block of
    stream_app stores the summary of a successful run; and the error of the
    entry-point rule carries no token of the statement. *)
Lemma C6_rejection_returns_none :
  run (RagEngine.execute_sql Observed.format (Observed.world "DROP TABLE profiles;")
                             "DROP TABLE profiles;")
  = (Return None,
     [Print ("Executing SQL:" ++ nl ++ "DROP TABLE profiles;");
      Print "❌ SQL Execution Error: Forbidden SQL keyword found: DROP"]) /\
  fst (run (StreamApp.process_query Observed.format
              (Observed.world "DROP TABLE profiles;") "drop the table" 3))
  = Return (Some {| StreamApp.summary := "Query executed successfully.";
                    StreamApp.sql := "DROP TABLE profiles;";
                    StreamApp.df := None |}) /\
  StreamlitApp.sanitize_sql Observed.format "SHOW TABLES"
  = Raise (ValueError "Only SELECT or WITH queries are allowed.").
Proof. repeat split; vm_compute; reflexivity. Qed.

(** C6, amended: whenever a validator rejects a statement, the database is
    not called for it.  In main_app and streamlit_app the error reaches the
    caller of [run_sql_fetch]; it is a ValueError whose message names the
    rule, with the keyword for the keyword rule and the token text for the
    table rule (main_app raises an IndexError when sqlparse finds no
    statement).  In rag_engine [execute_sql] prints the message and returns
    [None]; the block of stream_app then stores the summary
    [Query executed successfully.] and no data frame, and does not call the
    completion endpoint a second time. *)
Theorem C6_rejection_never_reaches_database
        (fmt : string -> string) (prs : string -> list Sqlparse.Statement)
        (world : World) (sql : string) (e : exn) (tr : list event) :
  (MainApp.sanitize_sql fmt prs sql = Raise e ->
   fst (MainApp.run_sql_fetch fmt prs world sql tr) = Raise e /\
   db_calls (snd (MainApp.run_sql_fetch fmt prs world sql tr)) = db_calls tr /\
   ((exists f, In f MainApp.forbidden /\
               e = ValueError ("Forbidden SQL keyword found: " ++ f)) \/
    e = ValueError "Only SELECT queries are allowed." \/
    (exists v, Spec.allowed v = false /\
               e = ValueError ("Table '" ++ v ++ "' is not allowed.")) \/
    (prs (strip (fmt sql)) = [] /\ e = IndexError))) /\
  (StreamlitApp.sanitize_sql fmt sql = Raise e ->
   StreamlitApp.run_sql_fetch fmt world sql tr = (Raise e, tr) /\
   ((exists f, In f StreamlitApp.forbidden /\
               e = ValueError ("Forbidden SQL keyword found: " ++ f)) \/
    e = ValueError "Only SELECT or WITH queries are allowed.")) /\
  (RagEngine._sanitize_sql fmt sql = Raise e ->
   fst (RagEngine.execute_sql fmt world sql tr) = Return None /\
   db_calls (snd (RagEngine.execute_sql fmt world sql tr)) = db_calls tr /\
   In (Print ("❌ SQL Execution Error: " ++ str e))
      (snd (RagEngine.execute_sql fmt world sql tr))) /\
  (forall query k documents content,
      collection_query world query k = Return documents ->
      chat_completion world
        (RagEngine.SQL_PROMPT_TEMPLATE query (join nl documents)) 500 0
      = Return content ->
      sql = RagEngine.generate_sql_clean content ->
      RagEngine._sanitize_sql fmt sql = Raise e ->
      fst (run (StreamApp.process_query fmt world query k))
      = Return (Some {| StreamApp.summary := "Query executed successfully.";
                        StreamApp.sql := sql;
                        StreamApp.df := None |}) /\
      db_calls (snd (run (StreamApp.process_query fmt world query k))) = [] /\
      List.length (completion_calls
                     (snd (run (StreamApp.process_query fmt world query k)))) = 1).
Proof.
  repeat apply conj.
  - intros H. rewrite (main_app_fetch_rejected _ _ world _ _ tr H). simpl.
    repeat apply conj; [reflexivity | | now apply main_app_errors in H].
    rewrite db_calls_app. simpl. apply List.app_nil_r.
  - intros H. split.
    + now apply streamlit_app_fetch_rejected.
    + now apply streamlit_app_errors in H.
  - intros H. rewrite (execute_sql_rejected _ world _ _ tr H). simpl.
    repeat apply conj; [reflexivity | |].
    + rewrite db_calls_app. simpl. apply List.app_nil_r.
    + apply in_or_app. right. simpl. tauto.
  - intros query k documents content Hq Hc -> H.
    assert (E : run (StreamApp.process_query fmt world query k)
                = (Return (Some {| StreamApp.summary := "Query executed successfully.";
                                   StreamApp.sql := RagEngine.generate_sql_clean content;
                                   StreamApp.df := None |}),
                   [Print ("Retrieving context for query: '" ++ query ++ "'");
                    VectorQuery query k;
                    Print "Generating SQL query...";
                    ChatCompletion
                      (RagEngine.SQL_PROMPT_TEMPLATE query (join nl documents)) 500 0;
                    Print ("Executing SQL:" ++ nl ++ RagEngine.generate_sql_clean content);
                    Print ("❌ SQL Execution Error: " ++ str e)])).
    { unfold run, StreamApp.process_query, try_except, bind.
      rewrite (retrieve_context_run _ _ _ _ _ Hq).
      rewrite (generate_sql_run _ _ _ _ _ Hc).
      rewrite (execute_sql_rejected _ _ _ _ _ H).
      reflexivity. }
    rewrite E. repeat apply conj; reflexivity.
Qed.

Lemma C6_rejection_never_reaches_database_witness :
  (fst (MainApp.run_sql_fetch Observed.format Observed.parse
          (Observed.world "") "SELECT * FROM users;" [])
   = Raise (ValueError "Table 'users' is not allowed.") /\
   db_calls (snd (MainApp.run_sql_fetch Observed.format Observed.parse
                    (Observed.world "") "SELECT * FROM users;" []))
   = db_calls []) /\
  fst (RagEngine.execute_sql Observed.format (Observed.world "")
         "DROP TABLE profiles;" [])
  = Return None /\
  db_calls (snd (run (StreamApp.process_query Observed.format
                        (Observed.world "DROP TABLE profiles;")
                        "drop the table" 3))) = [].
Proof.
  pose proof (C6_rejection_never_reaches_database
                Observed.format Observed.parse (Observed.world "")
                "SELECT * FROM users;"
                (ValueError "Table 'users' is not allowed.") []) as H1.
  pose proof (C6_rejection_never_reaches_database
                Observed.format Observed.parse (Observed.world "")
                "DROP TABLE profiles;"
                (ValueError "Forbidden SQL keyword found: DROP") []) as H2.
  pose proof (C6_rejection_never_reaches_database
                Observed.format Observed.parse
                (Observed.world "DROP TABLE profiles;")
                "DROP TABLE profiles;"
                (ValueError "Forbidden SQL keyword found: DROP") []) as H3.
  destruct H1 as [H1 _]. destruct H2 as (_ & _ & H2 & _).
  destruct H3 as (_ & _ & _ & H3).
  assert (E1 : MainApp.sanitize_sql Observed.format Observed.parse
                 "SELECT * FROM users;"
               = Raise (ValueError "Table 'users' is not allowed."))
    by (vm_compute; reflexivity).
  assert (E2 : RagEngine._sanitize_sql Observed.format "DROP TABLE profiles;"
               = Raise (ValueError "Forbidden SQL keyword found: DROP"))
    by (vm_compute; reflexivity).
  destruct (H1 E1) as (A & B & _). destruct (H2 E2) as (C & _).
  destruct (H3 "drop the table" 3 ["Float 1900121, South Atlantic"]
               "DROP TABLE profiles;" eq_refl eq_refl eq_refl E2) as (_ & D & _).
  exact (conj (conj A B) (conj C D)).
Defined.

(** ** C8: the summary of an empty result *)

(** C8: for every question and every empty data frame,
    [summarize_results] returns [The query returned no results.] and leaves
    the trace as it was: the completion endpoint is not called. *)
Theorem C8_empty_result_summary
        (world : World) (query : string) (df : DataFrame) (tr : list event) :
  empty df = true ->
  RagEngine.summarize_results world query df tr
  = (Return "The query returned no results.", tr) /\
  completion_calls (snd (run (RagEngine.summarize_results world query df))) = [].
Proof.
  intros H. unfold run, RagEngine.summarize_results. rewrite H.
  split; reflexivity.
Qed.

Lemma C8_empty_result_summary_witness :
  RagEngine.summarize_results (Observed.world "unused") "deepest profiles in 2004"
    {| columns := ["pressure"; "temperature"]; rows := [] |} []
  = (Return "The query returned no results.", []) /\
  completion_calls
    (snd (run (RagEngine.summarize_results (Observed.world "unused")
                 "deepest profiles in 2004"
                 {| columns := ["pressure"; "temperature"]; rows := [] |}))) = [].
Proof.
  apply (C8_empty_result_summary (Observed.world "unused")
           "deepest profiles in 2004"
           {| columns := ["pressure"; "temperature"]; rows := [] |} []).
  reflexivity.
Defined.

End PipelineClaims.

(* ================================================================== *)
(** * Facts about [strip] and [split] *)

Module StripFacts.
Import Py PyFacts.
Import Spec(no_lead, no_trail).

Lemma last_cons (c : ascii) (s : string) :
  s <> "" -> Spec.last (String c s) = Spec.last s.
Proof. destruct s; [now intros H; elim H | reflexivity]. Qed.

Lemma last_app_char (s : string) (c : ascii) :
  Spec.last (s ++ String c "") = Some c.
Proof.
  induction s as [|x s IH]; [reflexivity|].
  change (String x s ++ String c "") with (String x (s ++ String c "")).
  rewrite last_cons; [exact IH|]. destruct s; discriminate.
Qed.

Lemma lstrip_suffix (s : string) : exists a, s = a ++ lstrip s.
Proof.
  induction s as [|c s [a IH]]; [now exists ""|]. simpl.
  destruct (isspace c).
  - exists (String c a). simpl. now rewrite <- IH.
  - now exists "".
Qed.

Lemma rstrip_prefix (s : string) : exists b, s = rstrip s ++ b.
Proof.
  induction s as [|c s [b IH]]; [now exists ""|]. simpl.
  destruct (rstrip s) as [|r rs] eqn:E.
  - destruct (isspace c).
    + now exists (String c s).
    + exists s. reflexivity.
  - exists b. simpl. simpl in IH. now rewrite <- IH.
Qed.

Lemma lstrip_no_lead (s : string) : no_lead (lstrip s).
Proof.
  induction s as [|c s IH]; simpl; [exact I|].
  destruct (isspace c) eqn:E; [exact IH | exact E].
Qed.

Lemma no_lead_lstrip (s : string) : no_lead s -> lstrip s = s.
Proof. destruct s as [|c s]; simpl; [reflexivity|]. now intros ->. Qed.

Lemma rstrip_no_trail (s : string) : no_trail (rstrip s).
Proof.
  unfold no_trail. induction s as [|c s IH]; simpl; [exact I|].
  destruct (rstrip s) as [|r rs] eqn:E.
  - destruct (isspace c) eqn:Ec; simpl; [exact I | exact Ec].
  - rewrite last_cons by discriminate. exact IH.
Qed.

Lemma no_trail_rstrip (s : string) : no_trail s -> rstrip s = s.
Proof.
  unfold no_trail. induction s as [|c s IH]; [reflexivity|].
  destruct s as [|d s].
  - simpl. now intros ->.
  - rewrite last_cons by discriminate. intros H.
    change (rstrip (String c (String d s)))
      with (match rstrip (String d s) with
            | "" => if isspace c then "" else String c ""
            | r => String c r
            end).
    now rewrite (IH H).
Qed.

Lemma no_trail_lstrip (s : string) : no_trail s -> no_trail (lstrip s).
Proof.
  unfold no_trail. induction s as [|c s IH]; simpl; [trivial|].
  destruct (isspace c) eqn:E.
  - destruct s as [|d s]; [simpl; trivial|]. exact IH.
  - trivial.
Qed.

Lemma strip_no_lead (s : string) : no_lead (strip s).
Proof. apply lstrip_no_lead. Qed.

Lemma strip_no_trail (s : string) : no_trail (strip s).
Proof. apply no_trail_lstrip, rstrip_no_trail. Qed.

Lemma strip_fixed (s : string) : no_lead s -> no_trail s -> strip s = s.
Proof.
  intros H1 H2. unfold strip. rewrite (no_trail_rstrip s H2).
  now apply no_lead_lstrip.
Qed.

Lemma strip_strip (s : string) : strip (strip s) = strip s.
Proof. apply strip_fixed; [apply strip_no_lead | apply strip_no_trail]. Qed.

Lemma strip_substring (s : string) : exists a b, s = a ++ strip s ++ b.
Proof.
  unfold strip. destruct (rstrip_prefix s) as [b Hb].
  destruct (lstrip_suffix (rstrip s)) as [a Ha].
  exists a, b. rewrite <- app_assoc, <- Ha. exact Hb.
Qed.

Lemma contains_strip_false (sub s : string) :
  contains sub s = false -> contains sub (strip s) = false.
Proof.
  intros H. destruct (strip_substring s) as (a & b & E).
  rewrite E in H. apply contains_false_app_r in H.
  now apply contains_false_app_l in H.
Qed.



Lemma rstrip_lstrip (s : string) : rstrip (lstrip s) = lstrip (rstrip s).
Proof.
  induction s as [|c s IH]; [reflexivity|].
  cbn [lstrip]. destruct (isspace c) eqn:E.
  - rewrite IH. cbn [rstrip]. destruct (rstrip s) eqn:Er.
    + rewrite E. reflexivity.
    + cbn [lstrip]. rewrite E. reflexivity.
  - symmetry. apply no_lead_lstrip. cbn [rstrip].
    destruct (rstrip s); [rewrite E|]; exact E.
Qed.

Lemma strip_lstrip (s : string) : strip (lstrip s) = strip s.
Proof.
  unfold strip. rewrite rstrip_lstrip.
  apply no_lead_lstrip, lstrip_no_lead.
Qed.

(** A text that ends with a terminator after a text without leading
    blank is trimmed. *)
Lemma strip_terminated (p : string) :
  no_lead p -> strip (p ++ ";") = p ++ ";".
Proof.
  intros H. apply strip_fixed.
  - destruct p; [reflexivity | exact H].
  - unfold no_trail. rewrite last_app_char. reflexivity.
Qed.

Lemma no_lead_prefix (p t : string) : no_lead (p ++ t) -> no_lead p.
Proof. destruct p; simpl; trivial. Qed.

End StripFacts.

Module SplitFacts.
Import Py PyFacts.

Lemma split_from_nonempty (sep s : string) (k : nat) : split_from sep s k <> [].
Proof.
  revert k. induction s as [|c s IH]; intros k; cbn [split_from];
    [discriminate|].
  destruct k; [|apply IH].
  destruct (prefix sep (String c s)); [discriminate|].
  destruct (split_from sep s 0); discriminate.
Qed.

Lemma split_cons (sep : string) (c : ascii) (s : string) :
  prefix sep (String c s) = false ->
  exists piece pieces,
    split_from sep s 0 = piece :: pieces /\
    split_from sep (String c s) 0 = String c piece :: pieces.
Proof.
  intros H. cbn [split_from]. rewrite H.
  destruct (split_from sep s 0) as [|piece pieces] eqn:E.
  - now elim (split_from_nonempty sep s 0).
  - now exists piece, pieces.
Qed.

(** The first piece is a prefix of the text. *)
Lemma split_head_prefix (sep s : string) :
  exists t, s = item (split s sep) 0 ++ t.
Proof.
  unfold split, item. induction s as [|c s [t IH]]; [now exists ""|].
  destruct (prefix sep (String c s)) eqn:E.
  - cbn [split_from]. rewrite E. now exists (String c s).
  - destruct (split_cons sep c s E) as (piece & pieces & E1 & E2).
    rewrite E2. rewrite E1 in IH. simpl in *. exists t. now rewrite <- IH.
Qed.

(** The first piece does not hold the separator. *)
Lemma split_head_no_sep (sep s : string) :
  sep <> "" -> contains sep (item (split s sep) 0) = false.
Proof.
  intros Hsep. unfold split, item.
  assert (Hempty : contains sep "" = false).
  { destruct sep; [now elim Hsep | reflexivity]. }
  induction s as [|c s IH]; [exact Hempty|].
  destruct (prefix sep (String c s)) eqn:E.
  - cbn [split_from]. rewrite E. exact Hempty.
  - destruct (split_cons sep c s E) as (piece & pieces & E1 & E2).
    rewrite E2. rewrite E1 in IH. simpl in IH. cbn [nth contains].
    rewrite IH, orb_false_r.
    destruct (prefix sep (String c piece)) eqn:E'; [|reflexivity].
    apply prefix_iff in E' as [u Hu].
    destruct (split_head_prefix sep s) as [t Ht].
    unfold split, item in Ht. rewrite E1 in Ht. simpl in Ht.
    assert (Hp : prefix sep (String c s) = true).
    { apply prefix_iff. exists (u ++ t). rewrite <- app_assoc, <- Hu.
      simpl. now rewrite <- Ht. }
    congruence.
Qed.


(** With the separator there are at least two pieces: the index 1 of the
    cleaning steps is in range. *)
Lemma split_second_in_range (sep s : string) :
  sep <> "" -> contains sep s = true -> 2 <= List.length (split s sep).
Proof.
  intros Hsep. unfold split. induction s as [|c s IH]; intros H.
  - destruct sep; [now elim Hsep | discriminate].
  - cbn [split_from]. destruct (prefix sep (String c s)) eqn:E.
    + simpl. pose proof (split_from_nonempty sep s (String.length sep - 1)).
      destruct (split_from sep s (String.length sep - 1)); [congruence|].
      simpl. lia.
    + cbn [contains] in H. rewrite E in H. simpl in H. specialize (IH H).
      destruct (split_from sep s 0); simpl in *; lia.
Qed.

(** The characters of a separator that was found are passed over. *)
Lemma split_from_skip (sep a t : string) :
  split_from sep (a ++ t) (String.length a) = split_from sep t 0.
Proof. induction a as [|x a IH]; [reflexivity | exact IH]. Qed.

(** A text before the first separator that does not hold the first
    character of the separator is the first piece. *)
Lemma split_app_sep (c0 : ascii) (sep' pre t : string) :
  contains (String c0 "") pre = false ->
  split (pre ++ String c0 sep' ++ t) (String c0 sep')
  = pre :: split t (String c0 sep').
Proof.
  unfold split. induction pre as [|x pre IH]; intros H.
  - change ("" ++ String c0 sep' ++ t) with (String c0 (sep' ++ t)).
    cbn [split_from].
    assert (E : prefix (String c0 sep') (String c0 (sep' ++ t)) = true)
      by (apply (prefix_app (String c0 sep') t)).
    rewrite E. cbn [String.length]. rewrite Nat.sub_succ, Nat.sub_0_r.
    now rewrite split_from_skip.
  - cbn [contains] in H. apply orb_false_iff in H as [H1 H2].
    assert (Hx : c0 <> x).
    { intros ->. pose proof (prefix_app (String x "") pre) as Hp.
      change (String x "" ++ pre) with (String x pre) in Hp. congruence. }
    change (String x pre ++ String c0 sep' ++ t)
      with (String x (pre ++ String c0 sep' ++ t)).
    cbn [split_from].
    assert (E : prefix (String c0 sep') (String x (pre ++ String c0 sep' ++ t)) = false).
    { simpl. destruct (ascii_dec c0 x); [congruence | reflexivity]. }
    rewrite E, (IH H2). reflexivity.
Qed.

Lemma contains_trans (x sep s : string) :
  contains x sep = true -> contains sep s = true -> contains x s = true.
Proof.
  rewrite !contains_iff. intros (a & b & ->) (pre & post & ->).
  exists (pre ++ a), (b ++ post). now rewrite !app_assoc.
Qed.

Lemma contains_none (x sep s : string) :
  contains x sep = true -> contains x s = false -> contains sep s = false.
Proof.
  intros Hx Hs. destruct (contains sep s) eqn:E; [|reflexivity].
  now rewrite (contains_trans _ _ _ Hx E) in Hs.
Qed.

End SplitFacts.

(* ================================================================== *)
(** * The extraction of the candidate statement *)

Module ExtractionFacts.
Import Py PyFacts StripFacts SplitFacts.
Import Spec(no_lead, no_trail).



Lemma rag_engine_cut_trimmed (s : string) :
  strip s = s ->
  strip (if contains ";" s then strip (item (split s ";") 0) ++ ";" else s)
  = (if contains ";" s then strip (item (split s ";") 0) ++ ";" else s).
Proof.
  intros H. destruct (contains ";" s); [|exact H].
  apply strip_terminated, strip_no_lead.
Qed.

Lemma streamlit_app_cut_trimmed (s : string) :
  strip s = s ->
  strip (if contains ";" s then item (split s ";") 0 ++ ";" else s)
  = (if contains ";" s then item (split s ";") 0 ++ ";" else s).
Proof.
  intros H. destruct (contains ";" s); [|exact H].
  apply strip_terminated. destruct (split_head_prefix ";" s) as [t Ht].
  apply (no_lead_prefix _ t). rewrite <- Ht, <- H. apply strip_no_lead.
Qed.

Lemma keep_trimmed (b : bool) (x s : string) :
  strip s = s ->
  strip (if b then strip x else s) = (if b then strip x else s).
Proof. intros H. destruct b; [apply strip_strip | exact H]. Qed.

(** ** A block between a tagged fence and the next fence *)







End ExtractionFacts.

(* ================================================================== *)
(** * The lines of the extracted text *)

Module LineFacts.
Import Py PyFacts StripFacts SplitFacts.
Import Spec(commentary_from, bracket_line).

Lemma prefix_char (a c : ascii) (s : string) :
  prefix (String a "") (String c s) = Ascii.eqb a c.
Proof.
  simpl. destruct (ascii_dec a c) as [->|H].
  - rewrite Ascii.eqb_refl. now destruct s.
  - apply Ascii.eqb_neq in H. now rewrite H.
Qed.

Lemma lines_feed (s : string) : split (String LF s) nl = "" :: split s nl.
Proof.
  unfold split, nl. cbn [split_from]. rewrite prefix_char, Ascii.eqb_refl.
  reflexivity.
Qed.

Lemma lines_char (c : ascii) (s : string) :
  Ascii.eqb c LF = false ->
  exists line lines,
    split s nl = line :: lines /\
    split (String c s) nl = String c line :: lines.
Proof.
  intros H. apply split_cons. unfold nl.
  now rewrite prefix_char, Ascii.eqb_sym.
Qed.

Lemma strip_blank_cons (c : ascii) (s : string) :
  isspace c = true -> strip (String c s) = strip s.
Proof.
  intros H. rewrite <- (strip_lstrip (String c s)). cbn [lstrip]. rewrite H.
  apply strip_lstrip.
Qed.

Lemma bracket_line_blank (c : ascii) (s : string) :
  isspace c = true -> bracket_line (String c s) = bracket_line s.
Proof. intros H. unfold bracket_line. now rewrite strip_blank_cons. Qed.

Lemma bracket_line_char (c : ascii) (s : string) :
  isspace c = false -> bracket_line (String c s) = Ascii.eqb "[" c.
Proof.
  intros H. unfold bracket_line, strip, startswith.
  assert (E : exists r, rstrip (String c s) = String c r).
  { cbn [rstrip]. destruct (rstrip s); [rewrite H|]; eauto. }
  destruct E as [r ->]. cbn [lstrip]. rewrite H. apply prefix_char.
Qed.

(** Read line by line. *)
Lemma commentary_from_lines (s : string) (blank : bool) :
  exists line lines,
    split s nl = line :: lines /\
    commentary_from blank s
    = (blank && bracket_line line) || existsb bracket_line lines.
Proof.
  revert blank. induction s as [|c s IH]; intros blank.
  - exists "", []. split; [reflexivity|]. now destruct blank.
  - cbn [commentary_from]. destruct (Ascii.eqb c LF) eqn:Ec.
    + apply Ascii.eqb_eq in Ec. subst c.
      destruct (IH true) as (line & lines & E & ->).
      exists "", (line :: lines). rewrite lines_feed, E.
      split; [reflexivity|]. cbn [existsb andb].
      change (bracket_line "") with false. now rewrite andb_false_r.
    + destruct (lines_char c s Ec) as (line & lines & E1 & E2).
      exists (String c line), lines. split; [exact E2|].
      destruct (isspace c) eqn:E.
      * destruct (IH blank) as (line' & lines' & E' & ->).
        rewrite E1 in E'. injection E' as <- <-.
        now rewrite bracket_line_blank.
      * destruct (IH false) as (line' & lines' & E' & ->).
        rewrite E1 in E'. injection E' as <- <-.
        now rewrite bracket_line_char.
Qed.

Lemma no_commentary_lines (s : string) :
  commentary_from true s = false ->
  Forall (fun line => bracket_line line = false) (split s nl).
Proof.
  intros H. destruct (commentary_from_lines s true) as (line & lines & -> & E).
  rewrite E in H. apply orb_false_iff in H as [H1 H2]. simpl in H1.
  constructor; [exact H1|]. rewrite Forall_forall. intros l Hl.
  destruct (bracket_line l) eqn:El; [|reflexivity].
  assert (existsb bracket_line lines = true)
    by (apply existsb_exists; eauto).
  congruence.
Qed.

(** Trimming does not change the reading. *)
Lemma commentary_lstrip (s : string) :
  commentary_from true (lstrip s) = commentary_from true s.
Proof.
  induction s as [|c s IH]; [reflexivity|]. cbn [lstrip].
  destruct (isspace c) eqn:E; [|reflexivity].
  rewrite IH. cbn [commentary_from]. rewrite E.
  now destruct (Ascii.eqb c LF).
Qed.

Lemma commentary_cons (blank : bool) (c : ascii) (s : string) :
  commentary_from blank (String c s)
  = (if Ascii.eqb c LF then commentary_from true s
     else if isspace c then commentary_from blank s
          else (blank && Ascii.eqb "[" c) || commentary_from false s).
Proof. reflexivity. Qed.

Lemma commentary_rstrip (s : string) (blank : bool) :
  commentary_from blank (rstrip s) = commentary_from blank s.
Proof.
  revert blank. induction s as [|c s IH]; intros blank; [reflexivity|].
  cbn [rstrip]. destruct (rstrip s) as [|r rs] eqn:Er.
  - cbn [commentary_from].
    assert (Hs : forall b, commentary_from b s = false)
      by (intros b; now rewrite <- IH).
    rewrite !Hs. destruct (isspace c) eqn:E.
    + now destruct (Ascii.eqb c LF).
    + cbn [commentary_from]. rewrite E. now destruct (Ascii.eqb c LF).
  - rewrite (commentary_cons blank c (String r rs)), (commentary_cons blank c s).
    now rewrite !IH.
Qed.

Lemma commentary_strip (s : string) :
  commentary_from true (strip s) = commentary_from true s.
Proof. unfold strip. now rewrite commentary_lstrip, commentary_rstrip. Qed.

(** Cutting after a terminator adds no commentary line. *)
Lemma commentary_cut (p t : string) (blank : bool) :
  commentary_from blank (p ++ t) = false ->
  commentary_from blank (p ++ ";") = false.
Proof.
  revert blank. induction p as [|c p IH]; intros blank H.
  - simpl. now destruct blank.
  - change (String c p ++ ";") with (String c (p ++ ";")).
    change (String c p ++ t) with (String c (p ++ t)) in H.
    cbn [commentary_from] in *.
    destruct (Ascii.eqb c LF); [now apply IH|].
    destruct (isspace c); [now apply IH|].
    apply orb_false_iff in H as [H1 H2]. rewrite H1. now apply IH.
Qed.

(** Lines joined by line feeds. *)
Lemma commentary_app_feed (a b : string) (blank : bool) :
  commentary_from blank (a ++ nl ++ b)
  = commentary_from blank a || commentary_from true b.
Proof.
  revert blank. induction a as [|c a IH]; intros blank; [reflexivity|].
  change (String c a ++ nl ++ b) with (String c (a ++ nl ++ b)).
  cbn [commentary_from]. rewrite !IH.
  destruct (Ascii.eqb c LF); [reflexivity|].
  destruct (isspace c); [reflexivity|]. now rewrite orb_assoc.
Qed.

Lemma no_feed_cons (c : ascii) (s : string) :
  contains nl (String c s) = false ->
  Ascii.eqb c LF = false /\ contains nl s = false.
Proof.
  cbn [contains]. unfold nl. rewrite prefix_char, orb_false_iff.
  now rewrite Ascii.eqb_sym.
Qed.

Lemma commentary_rest_of_line (s : string) :
  contains nl s = false -> commentary_from false s = false.
Proof.
  induction s as [|c s IH]; intros H; [reflexivity|].
  apply no_feed_cons in H as [Hc Hs]. cbn [commentary_from].
  rewrite Hc, (IH Hs). now destruct (isspace c).
Qed.

Lemma commentary_line (s : string) :
  contains nl s = false -> commentary_from true s = bracket_line s.
Proof.
  induction s as [|c s IH]; intros H; [reflexivity|].
  apply no_feed_cons in H as [Hc Hs]. cbn [commentary_from]. rewrite Hc.
  destruct (isspace c) eqn:E.
  - rewrite bracket_line_blank by exact E. now apply IH.
  - rewrite bracket_line_char by exact E.
    rewrite (commentary_rest_of_line s Hs). now rewrite orb_false_r.
Qed.

Lemma lines_no_feed (s : string) :
  Forall (fun line => contains nl line = false) (split s nl).
Proof.
  induction s as [|c s IH]; [repeat constructor|].
  destruct (Ascii.eqb c LF) eqn:Ec.
  - apply Ascii.eqb_eq in Ec. subst c. rewrite lines_feed.
    constructor; [reflexivity | exact IH].
  - destruct (lines_char c s Ec) as (line & lines & E1 & E2).
    rewrite E2. rewrite E1 in IH. inversion IH as [|? ? H1 H2]; subst.
    constructor; [|exact H2]. cbn [contains]. unfold nl at 1.
    now rewrite prefix_char, Ascii.eqb_sym, Ec, H1.
Qed.

Lemma clean_lines_joined (lines : list string) :
  Forall (fun line => contains nl line = false) lines ->
  commentary_from true (join nl (StreamlitApp.clean_lines lines)) = false.
Proof.
  induction lines as [|line lines IH]; intros H; [reflexivity|].
  inversion H as [|? ? H1 H2]; subst. specialize (IH H2).
  cbn [StreamlitApp.clean_lines]. fold (bracket_line line).
  destruct (bracket_line line) eqn:E; [reflexivity|].
  unfold join in *.
  destruct (StreamlitApp.clean_lines lines) as [|l ls] eqn:El.
  - cbn [String.concat]. now rewrite (commentary_line line H1).
  - change (String.concat nl (line :: l :: ls))
      with (line ++ nl ++ String.concat nl (l :: ls)).
    rewrite commentary_app_feed, (commentary_line line H1), E. exact IH.
Qed.

(** The line step and the cut of streamlit_app leave no commentary
    line. *)
Lemma streamlit_app_lines (s : string) :
  commentary_from true
    (let lines := split s nl in
     let sql_query := strip (join nl (StreamlitApp.clean_lines lines)) in
     if contains ";" sql_query
     then item (split sql_query ";") 0 ++ ";" else sql_query) = false.
Proof.
  cbv zeta.
  assert (H : commentary_from true
                (strip (join nl (StreamlitApp.clean_lines (split s nl)))) = false).
  { rewrite commentary_strip. apply clean_lines_joined, lines_no_feed. }
  destruct (contains ";" _); [|exact H].
  destruct (split_head_prefix ";"
              (strip (join nl (StreamlitApp.clean_lines (split s nl))))) as [t Ht].
  apply (commentary_cut _ t). now rewrite <- Ht.
Qed.

End LineFacts.

(* ================================================================== *)
(** * The claim about the extraction *)

Module ExtractionClaims.
Import Py PyFacts StripFacts SplitFacts ExtractionFacts LineFacts.




End ExtractionClaims.

(* ================================================================== *)
(** * More about the validators *)

Module ValidatorExtras.
Import Py Re PyFacts ReFacts ValidatorFacts RevalidationFacts.

Lemma nine_in_main_app (kw : string) :
  In kw RagEngine.forbidden -> In kw MainApp.forbidden.
Proof. intros H. rewrite forbidden_main_app. apply in_or_app. now left. Qed.

Lemma scan_nine_of_main_app (parsed : string) :
  find (fun f => search_word f parsed) MainApp.forbidden = None ->
  find (fun f => search_word f parsed) RagEngine.forbidden = None.
Proof.
  rewrite !find_none_iff. intros H kw Hin. apply H. now apply nine_in_main_app.
Qed.







(** X3: validating again a statement that a validator returned gives the
    same statement, whenever sqlparse gives that statement back as it is
    (and, in main_app, its FROM tables pass again). *)
Theorem X3_second_validation_of_a_stable_text
        (fmt : string -> string) (prs : string -> list Sqlparse.Statement)
        (sql out : string) :
  strip (fmt out) = out ->
  (RagEngine._sanitize_sql fmt sql = Return out ->
   RagEngine._sanitize_sql fmt out = Return out) /\
  (StreamlitApp.sanitize_sql fmt sql = Return out ->
   StreamlitApp.sanitize_sql fmt out = Return out) /\
  (MainApp.sanitize_sql fmt prs sql = Return out ->
   forall statement rest,
     prs out = statement :: rest ->
     Forall (fun v => Spec.allowed v = true) (Spec.from_tables statement) ->
     MainApp.sanitize_sql fmt prs out = Return out).
Proof.
  intros Hfix. repeat apply conj.
  - intros H. now apply (rag_engine_stable fmt sql).
  - intros H. now apply (streamlit_app_stable fmt sql).
  - intros H statement rest Hp Hall.
    apply (main_app_stable fmt prs sql out statement rest H Hfix Hp).
    rewrite check_tables_from_tables. apply find_none_iff.
    intros v Hv. rewrite Forall_forall in Hall. now rewrite (Hall v Hv).
Qed.

Lemma X3_second_validation_of_a_stable_text_witness :
  StreamlitApp.sanitize_sql Observed.format "SELECT (1) LIMIT 1000"
  = Return "SELECT (1) LIMIT 1000" /\
  MainApp.sanitize_sql Observed.format Observed.parse
    "SELECT pressure, temperature FROM profiles WHERE latitude BETWEEN -40 AND -10 LIMIT 1000"
  = Return "SELECT pressure, temperature FROM profiles WHERE latitude BETWEEN -40 AND -10 LIMIT 1000".
Proof.
  split.
  - apply (proj1 (proj2 (X3_second_validation_of_a_stable_text
                    Observed.format Observed.parse "SELECT (1)"
                    "SELECT (1) LIMIT 1000" eq_refl))).
    vm_compute; reflexivity.
  - apply (proj2 (proj2 (X3_second_validation_of_a_stable_text
             Observed.format Observed.parse
             "SELECT pressure, temperature FROM profiles WHERE latitude BETWEEN -40 AND -10"
             "SELECT pressure, temperature FROM profiles WHERE latitude BETWEEN -40 AND -10 LIMIT 1000"
             eq_refl))
             ltac:(vm_compute; reflexivity)
             [Observed.tok Sqlparse.Keyword_DML "SELECT"; Observed.sp;
              Observed.group "pressure, temperature"; Observed.sp;
              Observed.tok Sqlparse.Keyword "FROM"; Observed.sp;
              Observed.group "profiles"; Observed.sp;
              Observed.group "WHERE latitude BETWEEN -40 AND -10 ";
              Observed.tok Sqlparse.Keyword "LIMIT"; Observed.sp;
              Observed.tok Sqlparse.Number_Integer "1000"] []).
    + vm_compute; reflexivity.
    + repeat constructor.
Defined.




(** X5: whatever main_app accepts, streamlit_app accepts with the same
    result and rag_engine accepts, returning the text without the appended
    limit. *)
Theorem X5_main_app_is_the_strictest
        (fmt : string -> string) (prs : string -> list Sqlparse.Statement)
        (sql out : string) :
  MainApp.sanitize_sql fmt prs sql = Return out ->
  StreamlitApp.sanitize_sql fmt sql = Return out /\
  RagEngine._sanitize_sql fmt sql = Return (strip (fmt sql)).
Proof.
  intros H. apply main_app_accepts in H as (Hscan & Hentry & _ & ->).
  apply scan_nine_of_main_app in Hscan. split.
  - unfold StreamlitApp.sanitize_sql.
    rewrite forbidden_streamlit_app, Hscan.
    assert (E : match_first ["SELECT"; "WITH"] (strip (fmt sql)) = true).
    { apply entry_select_with. left. now apply entry_select. }
    now rewrite E.
  - unfold RagEngine._sanitize_sql. now rewrite Hscan, Hentry.
Qed.

Lemma X5_main_app_is_the_strictest_witness :
  StreamlitApp.sanitize_sql Observed.format "SELECT 1;"
  = Return "SELECT 1; LIMIT 1000" /\
  RagEngine._sanitize_sql Observed.format "SELECT 1;"
  = Return (strip (Observed.format "SELECT 1;")).
Proof.
  apply (X5_main_app_is_the_strictest Observed.format Observed.parse
           "SELECT 1;" "SELECT 1; LIMIT 1000").
  vm_compute; reflexivity.
Defined.

End ValidatorExtras.

(* ================================================================== *)
(** * More about the extraction *)

Module ExtractionExtras.
Import Py PyFacts StripFacts SplitFacts ExtractionFacts LineFacts.

Lemma prefix_snoc (sep s : string) (c : ascii) :
  sep <> "" -> Spec.last sep <> Some c ->
  prefix sep (s ++ String c "") = prefix sep s.
Proof.
  revert s. induction sep as [|p sep IH]; intros s Hne Hlast; [now elim Hne|].
  destruct s as [|x s]; cbn [append prefix].
  - destruct (ascii_dec p c) as [->|_]; [|reflexivity].
    destruct sep; [now elim Hlast | reflexivity].
  - destruct (ascii_dec p x) as [_|_]; [|reflexivity].
    destruct sep as [|q sep]; [now destruct s|].
    apply IH; [discriminate|]. now rewrite last_cons in Hlast by discriminate.
Qed.

Lemma contains_snoc (sep s : string) (c : ascii) :
  sep <> "" -> Spec.last sep <> Some c ->
  contains sep (s ++ String c "") = contains sep s.
Proof.
  intros Hne Hlast. induction s as [|x s IH].
  - cbn [append contains].
    change (String c "") with ("" ++ String c "").
    rewrite (prefix_snoc sep "" c Hne Hlast).
    destruct sep; [now elim Hne | reflexivity].
  - change (String x s ++ String c "") with (String x (s ++ String c "")).
    cbn [contains].
    change (String x (s ++ String c "")) with (String x s ++ String c "").
    now rewrite (prefix_snoc sep (String x s) c Hne Hlast), IH.
Qed.

Lemma fence_in_tagged_fence (s : string) :
  contains "```" s = false -> contains "```sql" s = false.
Proof. apply contains_none. reflexivity. Qed.

(** The step on the plain fence leaves no fence. *)
Lemma fence_step (s : string) :
  contains "```"
    (if contains "```" s then strip (item (split s "```") 0) else s) = false.
Proof.
  destruct (contains "```" s) eqn:E; [|exact E].
  apply contains_strip_false, split_head_no_sep. discriminate.
Qed.

Lemma head_piece_without (sep x s : string) :
  contains x s = false -> contains x (item (split s sep) 0) = false.
Proof.
  intros H. destruct (split_head_prefix sep s) as [t Ht].
  rewrite Ht in H. now apply contains_false_app_l in H.
Qed.

Lemma rag_engine_cut_without_fence (s : string) :
  contains "```" s = false ->
  contains "```"
    (if contains ";" s then strip (item (split s ";") 0) ++ ";" else s) = false.
Proof.
  intros H. destruct (contains ";" s); [|exact H].
  rewrite contains_snoc by discriminate.
  now apply contains_strip_false, head_piece_without.
Qed.

Lemma streamlit_app_cut_without_fence (s : string) :
  contains "```" s = false ->
  contains "```"
    (if contains ";" s then item (split s ";") 0 ++ ";" else s) = false.
Proof.
  intros H. destruct (contains ";" s); [|exact H].
  rewrite contains_snoc by discriminate. now apply head_piece_without.
Qed.

(** ** Lines split and joined *)

Lemma join_cons (line : string) (lines : list string) :
  lines <> [] -> join nl (line :: lines) = line ++ nl ++ join nl lines.
Proof. destruct lines; [now intros H; elim H | reflexivity]. Qed.

Lemma lines_nonempty (s : string) : split s nl <> [].
Proof. apply split_from_nonempty. Qed.

Lemma join_lines (s : string) : join nl (split s nl) = s.
Proof.
  induction s as [|c s IH]; [reflexivity|].
  destruct (Ascii.eqb c LF) eqn:Ec.
  - apply Ascii.eqb_eq in Ec. subst c. rewrite lines_feed.
    rewrite join_cons by apply lines_nonempty. now rewrite IH.
  - destruct (lines_char c s Ec) as (line & lines & E1 & E2).
    rewrite E2. rewrite E1 in IH. destruct lines as [|l ls].
    + simpl in *. now rewrite IH.
    + rewrite join_cons in * by discriminate. simpl. now rewrite <- IH.
Qed.

(** The lines that are kept, joined, are a prefix of the lines joined. *)
Lemma clean_lines_prefix (lines : list string) :
  exists t, join nl lines = join nl (StreamlitApp.clean_lines lines) ++ t.
Proof.
  induction lines as [|line lines [t IH]]; [now exists ""|].
  cbn [StreamlitApp.clean_lines].
  destruct (startswith (strip line) "["); [now exists (join nl (line :: lines))|].
  destruct lines as [|l ls].
  - exists "". simpl. now rewrite app_nil_r.
  - rewrite join_cons by discriminate.
    destruct (StreamlitApp.clean_lines (l :: ls)) as [|k ks] eqn:Ek.
    + exists (nl ++ join nl (l :: ls)). reflexivity.
    + rewrite (join_cons line (k :: ks)) by discriminate.
      exists t. rewrite IH. now rewrite !app_assoc.
Qed.

Lemma clean_lines_keep_all (lines : list string) :
  Forall (fun line => Spec.bracket_line line = false) lines ->
  StreamlitApp.clean_lines lines = lines.
Proof.
  induction 1 as [|line lines H _ IH]; [reflexivity|].
  cbn [StreamlitApp.clean_lines]. fold (Spec.bracket_line line).
  now rewrite H, IH.
Qed.

Lemma line_step_without_fence (s : string) :
  contains "```" s = false ->
  contains "```" (strip (join nl (StreamlitApp.clean_lines (split s nl)))) = false.
Proof.
  intros H. apply contains_strip_false.
  destruct (clean_lines_prefix (split s nl)) as [t Ht].
  rewrite join_lines in Ht. rewrite Ht in H.
  now apply contains_false_app_l in H.
Qed.

(** X6: the text that the cleaning of a completion returns never holds a
    code fence, in LLM.py, main_app, rag_engine and streamlit_app. *)
Theorem X6_cleaned_text_has_no_fence (content : string) :
  contains "```" (LLM.generate_sql_clean content) = false /\
  contains "```" (MainApp.generate_sql_clean content) = false /\
  contains "```" (RagEngine.generate_sql_clean content) = false /\
  contains "```" (StreamlitApp.generate_sql_clean content) = false.
Proof.
  repeat apply conj.
  - unfold LLM.generate_sql_clean. cbv zeta. apply fence_step.
  - unfold MainApp.generate_sql_clean. cbv zeta. apply fence_step.
  - unfold RagEngine.generate_sql_clean. cbv zeta.
    apply rag_engine_cut_without_fence, fence_step.
  - unfold StreamlitApp.generate_sql_clean. cbv zeta.
    apply streamlit_app_cut_without_fence, line_step_without_fence, fence_step.
Qed.

(** ** Extracting twice *)

Lemma terminated_head (body : string) :
  contains ";" body = false ->
  contains ";" (body ++ ";") = true /\ item (split (body ++ ";") ";") 0 = body.
Proof.
  intros H. split.
  - apply contains_app_r. reflexivity.
  - change (body ++ ";") with (body ++ ";" ++ "").
    now rewrite (split_app_sep ";" "" body "" H).
Qed.

Lemma rag_engine_cut_twice (s : string) :
  let cut := fun s => if contains ";" s
                      then strip (item (split s ";") 0) ++ ";" else s in
  cut (cut s) = cut s.
Proof.
  cbv beta zeta. destruct (contains ";" s) eqn:E; [|now rewrite E].
  assert (H : contains ";" (strip (item (split s ";") 0)) = false).
  { apply contains_strip_false, split_head_no_sep. discriminate. }
  destruct (terminated_head _ H) as [-> ->]. now rewrite strip_strip.
Qed.

Lemma streamlit_app_cut_twice (s : string) :
  let cut := fun s => if contains ";" s
                      then item (split s ";") 0 ++ ";" else s in
  cut (cut s) = cut s.
Proof.
  cbv beta zeta. destruct (contains ";" s) eqn:E; [|now rewrite E].
  assert (H : contains ";" (item (split s ";") 0) = false).
  { apply split_head_no_sep. discriminate. }
  now destruct (terminated_head _ H) as [-> ->].
Qed.

(** A trimmed text without fence goes through the fence steps unchanged. *)
Lemma fence_steps_fixed (r : string) (K : string -> string) :
  strip r = r -> contains "```" r = false ->
  (let sql_query := strip r in
   let sql_query :=
     if contains "```sql" sql_query
     then strip (item (split sql_query "```sql") 1)
     else sql_query in
   let sql_query :=
     if contains "```" sql_query
     then strip (item (split sql_query "```") 0)
     else sql_query in
   K sql_query) = K r.
Proof.
  intros Hs Hf. cbv zeta. rewrite Hs.
  now rewrite (fence_in_tagged_fence r Hf), Hf.
Qed.

(** X7: extracting from an extracted text gives that text back, in each
    of the four cleanings. *)
Theorem X7_extraction_twice (content : string) :
  LLM.generate_sql_clean (LLM.generate_sql_clean content)
  = LLM.generate_sql_clean content /\
  MainApp.generate_sql_clean (MainApp.generate_sql_clean content)
  = MainApp.generate_sql_clean content /\
  RagEngine.generate_sql_clean (RagEngine.generate_sql_clean content)
  = RagEngine.generate_sql_clean content /\
  StreamlitApp.generate_sql_clean (StreamlitApp.generate_sql_clean content)
  = StreamlitApp.generate_sql_clean content.
Proof.
  repeat apply conj.
  - assert (H : contains "```" (LLM.generate_sql_clean content) = false).
    { unfold LLM.generate_sql_clean. cbv zeta. apply fence_step. }
    set (r := LLM.generate_sql_clean content) in *.
    unfold LLM.generate_sql_clean at 1. cbv zeta.
    now rewrite (fence_in_tagged_fence r H), H.
  - assert (H : contains "```" (MainApp.generate_sql_clean content) = false).
    { unfold MainApp.generate_sql_clean. cbv zeta. apply fence_step. }
    set (r := MainApp.generate_sql_clean content) in *.
    unfold MainApp.generate_sql_clean at 1. cbv zeta.
    now rewrite (fence_in_tagged_fence r H), H.
  - pose (K := fun s => if contains ";" s
                        then strip (item (split s ";") 0) ++ ";" else s).
    assert (Hf : contains "```" (RagEngine.generate_sql_clean content) = false).
    { unfold RagEngine.generate_sql_clean. cbv zeta.
      apply rag_engine_cut_without_fence, fence_step. }
    assert (Hs : strip (RagEngine.generate_sql_clean content)
                 = RagEngine.generate_sql_clean content).
    { unfold RagEngine.generate_sql_clean. cbv zeta.
      apply rag_engine_cut_trimmed.
      apply keep_trimmed, keep_trimmed, strip_strip. }
    assert (Hk : K (RagEngine.generate_sql_clean content)
                 = RagEngine.generate_sql_clean content).
    { unfold RagEngine.generate_sql_clean. cbv zeta.
      apply (rag_engine_cut_twice _). }
    set (r := RagEngine.generate_sql_clean content) in *.
    transitivity (K r); [|exact Hk].
    exact (fence_steps_fixed r K Hs Hf).
  - pose (K := fun s => if contains ";" s
                        then item (split s ";") 0 ++ ";" else s).
    pose (L := fun s =>
                 let lines := split s nl in
                 let sql_query :=
                   strip (join nl (StreamlitApp.clean_lines lines)) in
                 K sql_query).
    assert (Hf : contains "```" (StreamlitApp.generate_sql_clean content) = false).
    { unfold StreamlitApp.generate_sql_clean. cbv zeta.
      apply streamlit_app_cut_without_fence, line_step_without_fence, fence_step. }
    assert (Hs : strip (StreamlitApp.generate_sql_clean content)
                 = StreamlitApp.generate_sql_clean content).
    { unfold StreamlitApp.generate_sql_clean. cbv zeta.
      apply streamlit_app_cut_trimmed, strip_strip. }
    assert (Hl : Forall (fun line => Spec.bracket_line line = false)
                   (split (StreamlitApp.generate_sql_clean content) nl)).
    { apply no_commentary_lines.
      unfold StreamlitApp.generate_sql_clean. cbv zeta.
      apply (streamlit_app_lines _). }
    assert (Hk : K (StreamlitApp.generate_sql_clean content)
                 = StreamlitApp.generate_sql_clean content).
    { unfold StreamlitApp.generate_sql_clean. cbv zeta.
      apply (streamlit_app_cut_twice _). }
    set (r := StreamlitApp.generate_sql_clean content) in *.
    transitivity (L r).
    + exact (fence_steps_fixed r L Hs Hf).
    + unfold L. cbv zeta.
      now rewrite (clean_lines_keep_all _ Hl), join_lines, Hs.
Qed.

(** ** A fence without tag *)






End ExtractionExtras.

(* ================================================================== *)
(** * More about the pipeline of stream_app *)

Module PipelineExtras.
Import Py PipelineFacts.

Lemma completion_calls_app (tr tr' : list event) :
  completion_calls (tr ++ tr')%list
  = (completion_calls tr ++ completion_calls tr')%list.
Proof. apply filter_app. Qed.

Lemma retrieve_context_failed (world : World) (query : string) (k : nat)
      (e : exn) (tr : list event) :
  collection_query world query k = Raise e ->
  RagEngine.retrieve_context world query k tr
  = (Raise e,
     (tr ++ [Print ("Retrieving context for query: '" ++ query ++ "'");
             VectorQuery query k])%list).
Proof.
  intros H. unfold RagEngine.retrieve_context, bind, print, call, ret.
  rewrite H, <- List.app_assoc. reflexivity.
Qed.

Lemma generate_sql_failed (world : World) (query context : string)
      (e : exn) (tr : list event) :
  chat_completion world (RagEngine.SQL_PROMPT_TEMPLATE query context) 500 0
  = Raise e ->
  RagEngine.generate_sql world query context tr
  = (Raise e,
     (tr ++ [Print "Generating SQL query...";
             ChatCompletion (RagEngine.SQL_PROMPT_TEMPLATE query context) 500 0])%list).
Proof.
  intros H. unfold RagEngine.generate_sql, bind, print, call, ret.
  rewrite H, <- List.app_assoc. reflexivity.
Qed.

Lemma execute_sql_fetched (fmt : string -> string) (world : World)
      (sql out : string) (d : DataFrame) (tr : list event) :
  RagEngine._sanitize_sql fmt sql = Return out ->
  read_sql world out = Return d ->
  RagEngine.execute_sql fmt world sql tr
  = (Return (Some d),
     (tr ++ [Print ("Executing SQL:" ++ nl ++ sql); ReadSql out])%list).
Proof.
  intros H1 H2.
  unfold RagEngine.execute_sql, bind, try_except, print, call, ret, lift.
  rewrite H1, H2, <- List.app_assoc. reflexivity.
Qed.

Lemma execute_sql_database_failed (fmt : string -> string) (world : World)
      (sql out : string) (e : exn) (tr : list event) :
  RagEngine._sanitize_sql fmt sql = Return out ->
  read_sql world out = Raise e ->
  RagEngine.execute_sql fmt world sql tr
  = (Return None,
     (tr ++ [Print ("Executing SQL:" ++ nl ++ sql); ReadSql out;
             Print ("❌ SQL Execution Error: " ++ str e)])%list).
Proof.
  intros H1 H2.
  unfold RagEngine.execute_sql, bind, try_except, print, call, ret, lift.
  rewrite H1, H2, <- !List.app_assoc. reflexivity.
Qed.

Lemma summarize_results_run (world : World) (query : string) (d : DataFrame)
      (content : string) (tr : list event) :
  empty d = false ->
  chat_completion world
    (RagEngine.SUMMARY_PROMPT_TEMPLATE query (to_string world (head d)))
    150 (1 # 10) = Return content ->
  RagEngine.summarize_results world query d tr
  = (Return (strip content),
     (tr ++ [Print "Summarizing results...";
             ChatCompletion
               (RagEngine.SUMMARY_PROMPT_TEMPLATE query (to_string world (head d)))
               150 (1 # 10)])%list).
Proof.
  intros H1 H2. unfold RagEngine.summarize_results, bind, print, call, ret.
  rewrite H1, H2, <- List.app_assoc. reflexivity.
Qed.

Lemma summarize_results_failed (world : World) (query : string) (d : DataFrame)
      (e : exn) (tr : list event) :
  empty d = false ->
  chat_completion world
    (RagEngine.SUMMARY_PROMPT_TEMPLATE query (to_string world (head d)))
    150 (1 # 10) = Raise e ->
  RagEngine.summarize_results world query d tr
  = (Raise e,
     (tr ++ [Print "Summarizing results...";
             ChatCompletion
               (RagEngine.SUMMARY_PROMPT_TEMPLATE query (to_string world (head d)))
               150 (1 # 10)])%list).
Proof.
  intros H1 H2. unfold RagEngine.summarize_results, bind, print, call, ret.
  rewrite H1, H2, <- List.app_assoc. reflexivity.
Qed.

(** X9: the database is called with the text that the validator returned
    and with nothing else: once when the validator accepts the candidate,
    not at all when it rejects it. *)
Theorem X9_database_receives_the_validated_text
        (fmt : string -> string) (prs : string -> list Sqlparse.Statement)
        (world : World) (sql : string) (tr : list event) :
  db_calls (snd (MainApp.run_sql_fetch fmt prs world sql tr))
  = (db_calls tr ++ match MainApp.sanitize_sql fmt prs sql with
                    | Return out => [ReadSql out]
                    | Raise _ => []
                    end)%list /\
  db_calls (snd (StreamlitApp.run_sql_fetch fmt world sql tr))
  = (db_calls tr ++ match StreamlitApp.sanitize_sql fmt sql with
                    | Return out => [ReadSql out]
                    | Raise _ => []
                    end)%list /\
  db_calls (snd (RagEngine.execute_sql fmt world sql tr))
  = (db_calls tr ++ match RagEngine._sanitize_sql fmt sql with
                    | Return out => [ReadSql out]
                    | Raise _ => []
                    end)%list.
Proof.
  repeat apply conj.
  - unfold MainApp.run_sql_fetch, bind, print, call, lift.
    destruct (MainApp.sanitize_sql fmt prs sql) as [out|e]; cbn [snd];
      rewrite !db_calls_app; cbn [db_calls filter];
      now rewrite ?List.app_nil_r.
  - unfold StreamlitApp.run_sql_fetch, bind, call, lift.
    destruct (StreamlitApp.sanitize_sql fmt sql) as [out|e]; cbn [snd];
      rewrite ?db_calls_app; cbn [db_calls filter];
      now rewrite ?List.app_nil_r.
  - destruct (RagEngine._sanitize_sql fmt sql) as [out|e] eqn:E.
    + destruct (read_sql world out) as [d|e] eqn:Er.
      * rewrite (execute_sql_fetched fmt world sql out d tr E Er).
        cbn [snd]. rewrite db_calls_app. reflexivity.
      * rewrite (execute_sql_database_failed fmt world sql out e tr E Er).
        cbn [snd]. rewrite db_calls_app. reflexivity.
    + rewrite (execute_sql_rejected fmt world sql e tr E).
      cbn [snd]. rewrite db_calls_app. reflexivity.
Qed.

(** ** The block of stream_app, stage by stage *)

Section Block.

Variable fmt : string -> string.
Variable world : World.
Variables (query : string) (k : nat).

Let retrieving : list event :=
  [Print ("Retrieving context for query: '" ++ query ++ "'"); VectorQuery query k].

Let generating (documents : list string) : list event :=
  [Print "Generating SQL query...";
   ChatCompletion (RagEngine.SQL_PROMPT_TEMPLATE query (join nl documents)) 500 0].

Let summarizing (d : DataFrame) : list event :=
  [Print "Summarizing results...";
   ChatCompletion
     (RagEngine.SUMMARY_PROMPT_TEMPLATE query (to_string world (head d)))
     150 (1 # 10)].

Let shown (e : exn) : event :=
  StError ("An error occurred in the RAG pipeline: " ++ str e).

Lemma block_retrieval_failed (e : exn) :
  collection_query world query k = Raise e ->
  run (StreamApp.process_query fmt world query k)
  = (Return None, (retrieving ++ [shown e])%list).
Proof.
  intros H. unfold run, StreamApp.process_query, try_except, bind.
  rewrite (retrieve_context_failed _ _ _ _ _ H). reflexivity.
Qed.

Lemma block_generation_failed (documents : list string) (e : exn) :
  collection_query world query k = Return documents ->
  chat_completion world
    (RagEngine.SQL_PROMPT_TEMPLATE query (join nl documents)) 500 0 = Raise e ->
  run (StreamApp.process_query fmt world query k)
  = (Return None, (retrieving ++ generating documents ++ [shown e])%list).
Proof.
  intros H1 H2. unfold run, StreamApp.process_query, try_except, bind.
  rewrite (retrieve_context_run _ _ _ _ _ H1).
  rewrite (generate_sql_failed _ _ _ _ _ H2). reflexivity.
Qed.

Lemma block_rejected (documents : list string) (content : string) (e : exn) :
  collection_query world query k = Return documents ->
  chat_completion world
    (RagEngine.SQL_PROMPT_TEMPLATE query (join nl documents)) 500 0
  = Return content ->
  RagEngine._sanitize_sql fmt (RagEngine.generate_sql_clean content) = Raise e ->
  run (StreamApp.process_query fmt world query k)
  = (Return (Some {| StreamApp.summary := "Query executed successfully.";
                     StreamApp.sql := RagEngine.generate_sql_clean content;
                     StreamApp.df := None |}),
     (retrieving ++ generating documents
      ++ [Print ("Executing SQL:" ++ nl ++ RagEngine.generate_sql_clean content);
          Print ("❌ SQL Execution Error: " ++ str e)])%list).
Proof.
  intros H1 H2 H3. unfold run, StreamApp.process_query, try_except, bind.
  rewrite (retrieve_context_run _ _ _ _ _ H1).
  rewrite (generate_sql_run _ _ _ _ _ H2).
  rewrite (execute_sql_rejected _ _ _ _ _ H3). reflexivity.
Qed.

Lemma block_database_failed (documents : list string) (content out : string)
      (e : exn) :
  collection_query world query k = Return documents ->
  chat_completion world
    (RagEngine.SQL_PROMPT_TEMPLATE query (join nl documents)) 500 0
  = Return content ->
  RagEngine._sanitize_sql fmt (RagEngine.generate_sql_clean content) = Return out ->
  read_sql world out = Raise e ->
  run (StreamApp.process_query fmt world query k)
  = (Return (Some {| StreamApp.summary := "Query executed successfully.";
                     StreamApp.sql := RagEngine.generate_sql_clean content;
                     StreamApp.df := None |}),
     (retrieving ++ generating documents
      ++ [Print ("Executing SQL:" ++ nl ++ RagEngine.generate_sql_clean content);
          ReadSql out;
          Print ("❌ SQL Execution Error: " ++ str e)])%list).
Proof.
  intros H1 H2 H3 H4. unfold run, StreamApp.process_query, try_except, bind.
  rewrite (retrieve_context_run _ _ _ _ _ H1).
  rewrite (generate_sql_run _ _ _ _ _ H2).
  rewrite (execute_sql_database_failed _ _ _ _ _ _ H3 H4). reflexivity.
Qed.

Lemma block_no_rows (documents : list string) (content out : string)
      (d : DataFrame) :
  collection_query world query k = Return documents ->
  chat_completion world
    (RagEngine.SQL_PROMPT_TEMPLATE query (join nl documents)) 500 0
  = Return content ->
  RagEngine._sanitize_sql fmt (RagEngine.generate_sql_clean content) = Return out ->
  read_sql world out = Return d ->
  empty d = true ->
  run (StreamApp.process_query fmt world query k)
  = (Return (Some {| StreamApp.summary := "Query executed successfully.";
                     StreamApp.sql := RagEngine.generate_sql_clean content;
                     StreamApp.df := Some d |}),
     (retrieving ++ generating documents
      ++ [Print ("Executing SQL:" ++ nl ++ RagEngine.generate_sql_clean content);
          ReadSql out])%list).
Proof.
  intros H1 H2 H3 H4 H5. unfold run, StreamApp.process_query, try_except, bind.
  rewrite (retrieve_context_run _ _ _ _ _ H1).
  rewrite (generate_sql_run _ _ _ _ _ H2).
  rewrite (execute_sql_fetched _ _ _ _ _ _ H3 H4).
  rewrite H5. reflexivity.
Qed.

Lemma block_summarized (documents : list string) (content out : string)
      (d : DataFrame) (answer : string) :
  collection_query world query k = Return documents ->
  chat_completion world
    (RagEngine.SQL_PROMPT_TEMPLATE query (join nl documents)) 500 0
  = Return content ->
  RagEngine._sanitize_sql fmt (RagEngine.generate_sql_clean content) = Return out ->
  read_sql world out = Return d ->
  empty d = false ->
  chat_completion world
    (RagEngine.SUMMARY_PROMPT_TEMPLATE query (to_string world (head d)))
    150 (1 # 10) = Return answer ->
  run (StreamApp.process_query fmt world query k)
  = (Return (Some {| StreamApp.summary := strip answer;
                     StreamApp.sql := RagEngine.generate_sql_clean content;
                     StreamApp.df := Some d |}),
     (retrieving ++ generating documents
      ++ [Print ("Executing SQL:" ++ nl ++ RagEngine.generate_sql_clean content);
          ReadSql out]
      ++ summarizing d)%list).
Proof.
  intros H1 H2 H3 H4 H5 H6. unfold run, StreamApp.process_query, try_except, bind.
  rewrite (retrieve_context_run _ _ _ _ _ H1).
  rewrite (generate_sql_run _ _ _ _ _ H2).
  rewrite (execute_sql_fetched _ _ _ _ _ _ H3 H4).
  rewrite H5. cbn [negb].
  rewrite (summarize_results_run _ _ _ _ _ H5 H6). reflexivity.
Qed.

Lemma block_summary_failed (documents : list string) (content out : string)
      (d : DataFrame) (e : exn) :
  collection_query world query k = Return documents ->
  chat_completion world
    (RagEngine.SQL_PROMPT_TEMPLATE query (join nl documents)) 500 0
  = Return content ->
  RagEngine._sanitize_sql fmt (RagEngine.generate_sql_clean content) = Return out ->
  read_sql world out = Return d ->
  empty d = false ->
  chat_completion world
    (RagEngine.SUMMARY_PROMPT_TEMPLATE query (to_string world (head d)))
    150 (1 # 10) = Raise e ->
  run (StreamApp.process_query fmt world query k)
  = (Return None,
     (retrieving ++ generating documents
      ++ [Print ("Executing SQL:" ++ nl ++ RagEngine.generate_sql_clean content);
          ReadSql out]
      ++ summarizing d ++ [shown e])%list).
Proof.
  intros H1 H2 H3 H4 H5 H6. unfold run, StreamApp.process_query, try_except, bind.
  rewrite (retrieve_context_run _ _ _ _ _ H1).
  rewrite (generate_sql_run _ _ _ _ _ H2).
  rewrite (execute_sql_fetched _ _ _ _ _ _ H3 H4).
  rewrite H5. cbn [negb].
  rewrite (summarize_results_failed _ _ _ _ _ H5 H6). reflexivity.
Qed.

End Block.

(** X10: when the database answers the validated statement with an
    error, [execute_sql] prints it and the block of stream_app stores a
    result without data under the summary [Query executed successfully.];
    no error is shown with [st.error] and the completion endpoint is not
    called a second time. *)
Theorem X10_database_failure_is_stored_as_success
        (fmt : string -> string) (world : World) (query : string) (k : nat)
        (documents : list string) (content out : string) (e : exn) :
  collection_query world query k = Return documents ->
  chat_completion world
    (RagEngine.SQL_PROMPT_TEMPLATE query (join nl documents)) 500 0
  = Return content ->
  RagEngine._sanitize_sql fmt (RagEngine.generate_sql_clean content) = Return out ->
  read_sql world out = Raise e ->
  fst (run (StreamApp.process_query fmt world query k))
  = Return (Some {| StreamApp.summary := "Query executed successfully.";
                    StreamApp.sql := RagEngine.generate_sql_clean content;
                    StreamApp.df := None |}) /\
  shown_errors (snd (run (StreamApp.process_query fmt world query k))) = [] /\
  db_calls (snd (run (StreamApp.process_query fmt world query k))) = [ReadSql out] /\
  List.length (completion_calls
                 (snd (run (StreamApp.process_query fmt world query k)))) = 1 /\
  In (Print ("❌ SQL Execution Error: " ++ str e))
     (snd (run (StreamApp.process_query fmt world query k))).
Proof.
  intros H1 H2 H3 H4.
  pose proof (block_database_failed fmt world query k documents content out e
                H1 H2 H3 H4) as E.
  cbv zeta in E. rewrite E. cbn [fst snd].
  repeat apply conj; try reflexivity.
  cbn [app In]. tauto.
Qed.

Lemma X10_database_failure_is_stored_as_success_witness :
  fst (run (StreamApp.process_query Observed.format
              (Outside.database_down "SELECT 1" "connection refused")
              "surface temperature" 3))
  = Return (Some {| StreamApp.summary := "Query executed successfully.";
                    StreamApp.sql := "SELECT 1";
                    StreamApp.df := None |}) /\
  shown_errors
    (snd (run (StreamApp.process_query Observed.format
                 (Outside.database_down "SELECT 1" "connection refused")
                 "surface temperature" 3))) = [].
Proof.
  pose proof (X10_database_failure_is_stored_as_success
                Observed.format
                (Outside.database_down "SELECT 1" "connection refused")
                "surface temperature" 3
                ["Float 1900121, South Atlantic"] "SELECT 1" "SELECT 1"
                (Failure "connection refused")
                eq_refl eq_refl) as H.
  assert (E : RagEngine._sanitize_sql Observed.format
                (RagEngine.generate_sql_clean "SELECT 1") = Return "SELECT 1")
    by (vm_compute; reflexivity).
  destruct (H E eq_refl) as (A & B & _).
  exact (conj A B).
Defined.

(** X11: what a stored result of the block of stream_app says.  Its
    statement is the candidate extracted from the first completion, not
    the validated text.  Its summary is [Query executed successfully.]
    when there is no frame or a frame without data, and the completion
    endpoint was then called once; otherwise the summary is the trimmed
    second completion, asked about the first rows of the frame.  A frame
    is there only when the validator returned a text for the candidate
    and the database answered that text with the frame. *)
Theorem X11_stored_result
        (fmt : string -> string) (world : World) (query : string) (k : nat)
        (r : StreamApp.LastResult) :
  fst (run (StreamApp.process_query fmt world query k)) = Return (Some r) ->
  (exists documents content,
      collection_query world query k = Return documents /\
      chat_completion world
        (RagEngine.SQL_PROMPT_TEMPLATE query (join nl documents)) 500 0
      = Return content /\
      StreamApp.sql r = RagEngine.generate_sql_clean content) /\
  (forall d,
      StreamApp.df r = Some d ->
      exists out,
        RagEngine._sanitize_sql fmt (StreamApp.sql r) = Return out /\
        read_sql world out = Return d) /\
  ((StreamApp.summary r = "Query executed successfully." /\
    (StreamApp.df r = None \/
     exists d, StreamApp.df r = Some d /\ empty d = true) /\
    List.length (completion_calls
                   (snd (run (StreamApp.process_query fmt world query k)))) = 1) \/
   (exists d answer,
       StreamApp.df r = Some d /\ empty d = false /\
       chat_completion world
         (RagEngine.SUMMARY_PROMPT_TEMPLATE query (to_string world (head d)))
         150 (1 # 10) = Return answer /\
       StreamApp.summary r = strip answer /\
       List.length (completion_calls
                      (snd (run (StreamApp.process_query fmt world query k)))) = 2)).
Proof.
  destruct (collection_query world query k) as [documents|e] eqn:H1.
  2: { pose proof (block_retrieval_failed fmt world query k e H1) as E.
       cbv zeta in E. rewrite E. discriminate. }
  destruct (chat_completion world
              (RagEngine.SQL_PROMPT_TEMPLATE query (join nl documents)) 500 0)
    as [content|e] eqn:H2.
  2: { pose proof (block_generation_failed fmt world query k documents e H1 H2) as E.
       cbv zeta in E. rewrite E. discriminate. }
  destruct (RagEngine._sanitize_sql fmt (RagEngine.generate_sql_clean content))
    as [out|e] eqn:H3.
  2: { pose proof (block_rejected fmt world query k documents content e H1 H2 H3) as E.
       cbv zeta in E. rewrite E. cbn [fst snd]. intros H. injection H as <-.
       cbn [StreamApp.sql StreamApp.df StreamApp.summary].
       repeat apply conj.
       - now exists documents, content.
       - discriminate.
       - left. repeat apply conj; [reflexivity | now left | reflexivity]. }
  destruct (read_sql world out) as [d|e] eqn:H4.
  2: { pose proof (block_database_failed fmt world query k documents content out e
                     H1 H2 H3 H4) as E.
       cbv zeta in E. rewrite E. cbn [fst snd]. intros H. injection H as <-.
       cbn [StreamApp.sql StreamApp.df StreamApp.summary].
       repeat apply conj.
       - now exists documents, content.
       - discriminate.
       - left. repeat apply conj; [reflexivity | now left | reflexivity]. }
  destruct (empty d) eqn:H5.
  { pose proof (block_no_rows fmt world query k documents content out d
                  H1 H2 H3 H4 H5) as E.
    cbv zeta in E. rewrite E. cbn [fst snd]. intros H. injection H as <-.
    cbn [StreamApp.sql StreamApp.df StreamApp.summary].
    repeat apply conj.
    - now exists documents, content.
    - intros d' Hd. injection Hd as <-. now exists out.
    - left. repeat apply conj; [reflexivity | | reflexivity].
      right. now exists d. }
  destruct (chat_completion world
              (RagEngine.SUMMARY_PROMPT_TEMPLATE query (to_string world (head d)))
              150 (1 # 10)) as [answer|e] eqn:H6.
  2: { pose proof (block_summary_failed fmt world query k documents content out d e
                     H1 H2 H3 H4 H5 H6) as E.
       cbv zeta in E. rewrite E. discriminate. }
  pose proof (block_summarized fmt world query k documents content out d answer
                H1 H2 H3 H4 H5 H6) as E.
  cbv zeta in E. rewrite E. cbn [fst snd]. intros H. injection H as <-.
  cbn [StreamApp.sql StreamApp.df StreamApp.summary].
  repeat apply conj.
  - now exists documents, content.
  - intros d' Hd. injection Hd as <-. now exists out.
  - right. exists d, answer. repeat apply conj; try reflexivity; assumption.
Qed.

Lemma X11_stored_result_witness :
  StreamApp.summary
    {| StreamApp.summary := "Query executed successfully.";
       StreamApp.sql := "SELECT 1";
       StreamApp.df := Some {| columns := ["pressure"]; rows := [] |} |}
  = "Query executed successfully." /\
  List.length
    (completion_calls
       (snd (run (StreamApp.process_query Observed.format
                    (Outside.no_rows "SELECT 1") "surface temperature" 3)))) = 1.
Proof.
  pose proof (X11_stored_result
                Observed.format (Outside.no_rows "SELECT 1")
                "surface temperature" 3
                {| StreamApp.summary := "Query executed successfully.";
                   StreamApp.sql := "SELECT 1";
                   StreamApp.df := Some {| columns := ["pressure"]; rows := [] |} |})
    as H.
  assert (E : fst (run (StreamApp.process_query Observed.format
                          (Outside.no_rows "SELECT 1") "surface temperature" 3))
              = Return (Some {| StreamApp.summary := "Query executed successfully.";
                                StreamApp.sql := "SELECT 1";
                                StreamApp.df :=
                                  Some {| columns := ["pressure"]; rows := [] |} |}))
    by (vm_compute; reflexivity).
  destruct (H E) as (_ & _ & [(A & _ & B) | (d & answer & Hd & He & _)]).
  - exact (conj A B).
  - cbn [StreamApp.df] in Hd. injection Hd as <-. discriminate He.
Defined.

(** X12: the block of stream_app never lets an exception out.  Either it
    stores a result and shows no error, or it stores nothing and shows one
    error, which is then the error of the vector index, of the completion
    that writes the statement, or of the completion that summarizes a
    frame with data (the frame is then dropped); a rejection by the
    validator or an error of the database never shows up this way. *)
Theorem X12_block_errors
        (fmt : string -> string) (world : World) (query : string) (k : nat) :
  (exists r,
      fst (run (StreamApp.process_query fmt world query k)) = Return (Some r) /\
      shown_errors (snd (run (StreamApp.process_query fmt world query k))) = []) \/
  (exists e,
      fst (run (StreamApp.process_query fmt world query k)) = Return None /\
      shown_errors (snd (run (StreamApp.process_query fmt world query k)))
      = [StError ("An error occurred in the RAG pipeline: " ++ str e)] /\
      (collection_query world query k = Raise e \/
       exists documents,
         collection_query world query k = Return documents /\
         (chat_completion world
            (RagEngine.SQL_PROMPT_TEMPLATE query (join nl documents)) 500 0
          = Raise e \/
          exists content out d,
            chat_completion world
              (RagEngine.SQL_PROMPT_TEMPLATE query (join nl documents)) 500 0
            = Return content /\
            RagEngine._sanitize_sql fmt (RagEngine.generate_sql_clean content)
            = Return out /\
            read_sql world out = Return d /\
            empty d = false /\
            db_calls (snd (run (StreamApp.process_query fmt world query k)))
            = [ReadSql out] /\
            chat_completion world
              (RagEngine.SUMMARY_PROMPT_TEMPLATE query (to_string world (head d)))
              150 (1 # 10) = Raise e))).
Proof.
  destruct (collection_query world query k) as [documents|e] eqn:H1.
  2: { pose proof (block_retrieval_failed fmt world query k e H1) as E.
       cbv zeta in E. rewrite E. right. exists e.
       repeat apply conj; [reflexivity | reflexivity | now left]. }
  destruct (chat_completion world
              (RagEngine.SQL_PROMPT_TEMPLATE query (join nl documents)) 500 0)
    as [content|e] eqn:H2.
  2: { pose proof (block_generation_failed fmt world query k documents e H1 H2) as E.
       cbv zeta in E. rewrite E. right. exists e.
       repeat apply conj; [reflexivity | reflexivity |].
       right. exists documents. split; [reflexivity | now left]. }
  destruct (RagEngine._sanitize_sql fmt (RagEngine.generate_sql_clean content))
    as [out|e] eqn:H3.
  2: { pose proof (block_rejected fmt world query k documents content e H1 H2 H3) as E.
       cbv zeta in E. rewrite E. left. eexists. split; reflexivity. }
  destruct (read_sql world out) as [d|e] eqn:H4.
  2: { pose proof (block_database_failed fmt world query k documents content out e
                     H1 H2 H3 H4) as E.
       cbv zeta in E. rewrite E. left. eexists. split; reflexivity. }
  destruct (empty d) eqn:H5.
  { pose proof (block_no_rows fmt world query k documents content out d
                  H1 H2 H3 H4 H5) as E.
    cbv zeta in E. rewrite E. left. eexists. split; reflexivity. }
  destruct (chat_completion world
              (RagEngine.SUMMARY_PROMPT_TEMPLATE query (to_string world (head d)))
              150 (1 # 10)) as [answer|e] eqn:H6.
  { pose proof (block_summarized fmt world query k documents content out d answer
                  H1 H2 H3 H4 H5 H6) as E.
    cbv zeta in E. rewrite E. left. eexists. split; reflexivity. }
  pose proof (block_summary_failed fmt world query k documents content out d e
                H1 H2 H3 H4 H5 H6) as E.
  cbv zeta in E. rewrite E. right. exists e.
  repeat apply conj; [reflexivity | reflexivity |].
  right. exists documents. split; [reflexivity|]. right.
  exists content, out, d. repeat apply conj; try reflexivity; assumption.
Qed.

End PipelineExtras.

(* ================================================================== *)
(** * The sessions: main_app's loop and the block of stream_app *)

Module SessionExtras.
Import Py PyFacts ValidatorFacts RevalidationFacts PipelineFacts.

(** ** What reaches the database *)

Section SendsOnly.

Variable ok : string -> Prop.











End SendsOnly.



Section Session.

Variable fmt : string -> string.
Variable prs : string -> list Sqlparse.Statement.
Variable world : World.










End Session.


(** ** One query of a session of main_app *)

Lemma main_app_generate_sql_run (world : World) (query : string)
      (documents : list string) (content : string) (tr : list event) :
  collection_query world query 3 = Return documents ->
  chat_completion world
    (MainAppRun.PROMPT_TEMPLATE query (join nl documents)) 500 (1 # 10)
  = Return content ->
  MainAppRun.generate_sql world query tr
  = (Return (MainApp.generate_sql_clean content),
     (tr ++ [Print (nl ++ "Searching for '" ++ query ++ "'...");
             VectorQuery query 3;
             ChatCompletion
               (MainAppRun.PROMPT_TEMPLATE query (join nl documents))
               500 (1 # 10)])%list).
Proof.
  intros H1 H2.
  unfold MainAppRun.generate_sql, Retrieval.retrieve_docs, bind, print, call, ret.
  rewrite H1. cbv zeta. rewrite H2, <- !List.app_assoc. reflexivity.
Qed.

Lemma answer_returns (fmt : string -> string)
      (prs : string -> list Sqlparse.Statement) (world : World)
      (query : string) (tr : list event) :
  fst (MainAppRun.answer fmt prs world query tr) = Return tt.
Proof.
  unfold MainAppRun.answer, try_except.
  destruct (bind _ _ tr) as [[[]|e] tr']; [reflexivity|].
  destruct e; reflexivity.
Qed.

(** The line that the loop prints for an error. *)
Lemma answer_rejected (fmt : string -> string)
      (prs : string -> list Sqlparse.Statement) (world : World)
      (query : string) (documents : list string) (content : string)
      (e : exn) (tr : list event) :
  collection_query world query 3 = Return documents ->
  chat_completion world
    (MainAppRun.PROMPT_TEMPLATE query (join nl documents)) 500 (1 # 10)
  = Return content ->
  MainApp.sanitize_sql fmt prs (MainApp.generate_sql_clean content) = Raise e ->
  snd (MainAppRun.answer fmt prs world query tr)
  = (tr ++ [Print (nl ++ "--- Generating SQL for query: '" ++ query ++ "' ---");
            Print (nl ++ "Searching for '" ++ query ++ "'...");
            VectorQuery query 3;
            ChatCompletion
              (MainAppRun.PROMPT_TEMPLATE query (join nl documents))
              500 (1 # 10);
            Print ("Raw SQL from LLM:" ++ nl ++ MainApp.generate_sql_clean content);
            Print (nl ++ "--- Sanitizing and Executing SQL ---");
            Print (match e with
                   | ValueError ve => nl ++ "--- SECURITY ERROR ---: " ++ ve
                   | _ => nl ++ "--- An unexpected error occurred ---: " ++ str e
                   end)])%list.
Proof.
  intros H1 H2 H3. unfold MainAppRun.answer, try_except.
  unfold bind at 1. unfold print at 1. unfold call at 1.
  unfold bind at 1.
  rewrite (main_app_generate_sql_run world query documents content _ H1 H2).
  unfold bind at 1. unfold print at 1. unfold call at 1.
  unfold bind at 1.
  rewrite (main_app_fetch_rejected fmt prs world _ e _ H3).
  destruct e; unfold print, call; cbn [snd]; now rewrite <- !List.app_assoc.
Qed.

(** X14: in a session of main_app, a candidate that the validator rejects
    does not reach the database and does not end the session: the loop
    prints the validator's message after [--- SECURITY ERROR ---: ], or,
    when sqlparse finds no statement in the text, the message of the
    IndexError after [--- An unexpected error occurred ---: ]. *)
Theorem X14_rejection_in_a_session
        (fmt : string -> string) (prs : string -> list Sqlparse.Statement)
        (world : World) (query : string) (documents : list string)
        (content : string) (e : exn) (tr : list event) :
  collection_query world query 3 = Return documents ->
  chat_completion world
    (MainAppRun.PROMPT_TEMPLATE query (join nl documents)) 500 (1 # 10)
  = Return content ->
  MainApp.sanitize_sql fmt prs (MainApp.generate_sql_clean content) = Raise e ->
  fst (MainAppRun.answer fmt prs world query tr) = Return tt /\
  db_calls (snd (MainAppRun.answer fmt prs world query tr)) = db_calls tr /\
  exists before line,
    snd (MainAppRun.answer fmt prs world query tr)
    = (before ++ [Print line])%list /\
    ((exists msg, e = ValueError msg /\
                  line = nl ++ "--- SECURITY ERROR ---: " ++ msg) \/
     (e = IndexError /\
      prs (strip (fmt (MainApp.generate_sql_clean content))) = [] /\
      line = nl ++ "--- An unexpected error occurred ---: "
                ++ "tuple index out of range")).
Proof.
  intros H1 H2 H3. split; [apply answer_returns|].
  rewrite (answer_rejected fmt prs world query documents content e tr H1 H2 H3).
  split.
  - rewrite db_calls_app. cbn [db_calls filter]. apply List.app_nil_r.
  - eexists (tr ++ [_; _; _; _; _; _])%list, _. split.
    + rewrite <- List.app_assoc. reflexivity.
    + apply main_app_errors in H3
        as [(f & _ & ->) | [-> | [(v & _ & ->) | [Hp ->]]]].
      * left. eexists. split; reflexivity.
      * left. eexists. split; reflexivity.
      * left. eexists. split; reflexivity.
      * right. repeat split. exact Hp.
Qed.

Lemma X14_rejection_in_a_session_witness :
  fst (MainAppRun.answer Observed.format Observed.parse
         (Observed.world "DROP TABLE profiles;") "drop the table" [])
  = Return tt /\
  db_calls (snd (MainAppRun.answer Observed.format Observed.parse
                   (Observed.world "DROP TABLE profiles;") "drop the table" []))
  = db_calls [].
Proof.
  pose proof (X14_rejection_in_a_session
                Observed.format Observed.parse
                (Observed.world "DROP TABLE profiles;") "drop the table"
                ["Float 1900121, South Atlantic"] "DROP TABLE profiles;"
                (ValueError "Forbidden SQL keyword found: DROP") []
                eq_refl eq_refl) as H.
  assert (E : MainApp.sanitize_sql Observed.format Observed.parse
                (MainApp.generate_sql_clean "DROP TABLE profiles;")
              = Raise (ValueError "Forbidden SQL keyword found: DROP"))
    by (vm_compute; reflexivity).
  destruct (H E) as (A & B & _).
  exact (conj A B).
Defined.

(** ** The loop of main_app *)

Lemma leaves_iff (query : string) :
  MainAppRun.leaves query = true <->
  lower query = "exit" \/ lower query = "quit".
Proof.
  unfold MainAppRun.leaves. cbn [existsb].
  rewrite !orb_true_iff, !String.eqb_eq. intuition discriminate.
Qed.

Lemma stays_iff (query : string) :
  MainAppRun.leaves query = false <->
  lower query <> "exit" /\ lower query <> "quit".
Proof.
  rewrite <- not_true_iff_false, leaves_iff. tauto.
Qed.

Section Loop.

Variable fmt : string -> string.
Variable prs : string -> list Sqlparse.Statement.
Variable world : World.

Let workflow := MainAppRun.workflow fmt prs world.
Let answer := MainAppRun.answer fmt prs world.

Lemma workflow_stays (query : string) (rest : list string) (tr : list event) :
  MainAppRun.leaves query = false ->
  exists tr',
    workflow (query :: rest) tr = workflow rest tr' /\
    answer query (tr ++ [Print (nl ++ "Please enter your query: ")])%list
    = (Return tt, tr').
Proof.
  intros H. unfold workflow, answer. cbn [MainAppRun.workflow]. rewrite H.
  unfold bind at 1. unfold print at 1. unfold call at 1.
  unfold bind at 1.
  pose proof (answer_returns fmt prs world query
                (tr ++ [Print (nl ++ "Please enter your query: ")])%list) as Ha.
  destruct (MainAppRun.answer fmt prs world query _) as [r tr'].
  cbn [fst] in Ha. subst r. now exists tr'.
Qed.

Lemma workflow_leaves (word : string) (post : list string) (tr : list event) :
  MainAppRun.leaves word = true ->
  workflow (word :: post) tr
  = (Return tt,
     (tr ++ [Print (nl ++ "Please enter your query: "); Print "Exiting..."])%list).
Proof.
  intros H. unfold workflow. cbn [MainAppRun.workflow]. rewrite H.
  unfold bind, print, call. now rewrite <- List.app_assoc.
Qed.

Lemma workflow_rest_ignored (pre : list string) (word : string)
      (post : list string) :
  Forall (fun q => MainAppRun.leaves q = false) pre ->
  MainAppRun.leaves word = true ->
  forall tr,
    workflow (pre ++ word :: post)%list tr = workflow (pre ++ [word])%list tr /\
    exists before,
      workflow (pre ++ [word])%list tr
      = (Return tt, (before ++ [Print "Exiting..."])%list).
Proof.
  intros Hpre Hword. induction Hpre as [|query pre Hq _ IH]; intros tr.
  - cbn [app]. rewrite !workflow_leaves by assumption. split; [reflexivity|].
    exists (tr ++ [Print (nl ++ "Please enter your query: ")])%list.
    now rewrite <- List.app_assoc.
  - cbn [app].
    destruct (workflow_stays query (pre ++ word :: post)%list tr Hq)
      as (tr1 & E1 & A1).
    destruct (workflow_stays query (pre ++ [word])%list tr Hq)
      as (tr2 & E2 & A2).
    rewrite A1 in A2. injection A2 as <-.
    rewrite E1, E2. apply IH.
Qed.

Lemma workflow_end_of_input (inputs : list string) :
  Forall (fun q => MainAppRun.leaves q = false) inputs ->
  forall tr,
    fst (workflow inputs tr) = Raise (Failure "EOF when reading a line").
Proof.
  induction 1 as [|query rest Hq _ IH]; intros tr.
  - reflexivity.
  - destruct (workflow_stays query rest tr Hq) as (tr1 & E1 & _).
    rewrite E1. apply IH.
Qed.

End Loop.

(** X15: a session of main_app ends, without error, at the first line
    that reads exit or quit in any letter case, after printing
    [Exiting...]; the lines after it are not read.  No answer of the
    index, of the endpoint, of the validator or of the database ends the
    session before: without such a line the session runs until the input
    ends, with the error of [input]. *)
Theorem X15_session_ends_at_the_first_exit_word
        (fmt : string -> string) (prs : string -> list Sqlparse.Statement)
        (world : World) (pre : list string) (word : string)
        (post : list string) :
  Forall (fun q => lower q <> "exit" /\ lower q <> "quit") pre ->
  lower word = "exit" \/ lower word = "quit" ->
  run (MainAppRun.main fmt prs world (pre ++ word :: post)%list)
  = run (MainAppRun.main fmt prs world (pre ++ [word])%list) /\
  (exists before,
      run (MainAppRun.main fmt prs world (pre ++ word :: post)%list)
      = (Return tt, (before ++ [Print "Exiting..."])%list)) /\
  fst (run (MainAppRun.main fmt prs world pre))
  = Raise (Failure "EOF when reading a line").
Proof.
  intros Hpre Hword. apply leaves_iff in Hword.
  assert (Hpre' : Forall (fun q => MainAppRun.leaves q = false) pre).
  { eapply Forall_impl; [|exact Hpre]. intros q. apply stays_iff. }
  unfold run, MainAppRun.main, bind, print, call. cbv beta iota.
  destruct (workflow_rest_ignored fmt prs world pre word post Hpre' Hword
              (([] ++ [Print "Welcome to the Argo Natural Language Query Interface."])
               ++ [Print "Type 'exit' or 'quit' to end the session."])%list)
    as (E & before & B).
  repeat apply conj.
  - exact E.
  - exists before. now rewrite E.
  - now apply workflow_end_of_input.
Qed.

Lemma X15_session_ends_at_the_first_exit_word_witness :
  run (MainAppRun.main Observed.format Observed.parse (Observed.world "SELECT 1")
         (["DROP it"] ++ "QUIT" :: ["exit"; "more"])%list)
  = run (MainAppRun.main Observed.format Observed.parse (Observed.world "SELECT 1")
           (["DROP it"] ++ ["QUIT"])%list) /\
  fst (run (MainAppRun.main Observed.format Observed.parse
              (Observed.world "SELECT 1") ["DROP it"]))
  = Raise (Failure "EOF when reading a line").
Proof.
  pose proof (X15_session_ends_at_the_first_exit_word
                Observed.format Observed.parse (Observed.world "SELECT 1")
                ["DROP it"] "QUIT" ["exit"; "more"]) as H.
  assert (H1 : Forall (fun q => lower q <> "exit" /\ lower q <> "quit") ["DROP it"]).
  { repeat constructor; intros E; vm_compute in E; discriminate E. }
  assert (H2 : lower "QUIT" = "exit" \/ lower "QUIT" = "quit").
  { right. vm_compute; reflexivity. }
  destruct (H H1 H2) as (A & _ & C).
  exact (conj A C).
Defined.

(** ** Writing the statement: LLM.py and main_app *)

Lemma vector_queries_app (tr tr' : list event) :
  vector_queries (tr ++ tr')%list
  = (vector_queries tr ++ vector_queries tr')%list.
Proof. apply filter_app. Qed.

Section Generate.

Variable world : World.
Variable PROMPT_TEMPLATE : string -> string -> string.
Variable clean : string -> string.

(** The body that [generate_sql] has in LLM.py and in main_app. *)
Let generate (user_query : string) : Eff string :=
  (docs <- Retrieval.retrieve_docs world user_query 3 ;;
   let retrieved_docs := join nl docs in
   let prompt := PROMPT_TEMPLATE user_query retrieved_docs in
   content <- call (ChatCompletion prompt 500 (1 # 10))
                   (chat_completion world prompt 500 (1 # 10)) ;;
   ret (clean content))%eff.

Lemma generate_index_failed (query : string) (e : exn) (tr : list event) :
  collection_query world query 3 = Raise e ->
  generate query tr
  = (Raise e,
     (tr ++ [Print (nl ++ "Searching for '" ++ query ++ "'...");
             VectorQuery query 3])%list).
Proof.
  intros H. unfold generate, Retrieval.retrieve_docs, bind, print, call.
  rewrite H, <- List.app_assoc. reflexivity.
Qed.

Lemma generate_asked (query : string) (documents : list string)
      (tr : list event) :
  collection_query world query 3 = Return documents ->
  generate query tr
  = (match chat_completion world
             (PROMPT_TEMPLATE query (join nl documents)) 500 (1 # 10) with
     | Return content => Return (clean content)
     | Raise e => Raise e
     end,
     (tr ++ [Print (nl ++ "Searching for '" ++ query ++ "'...");
             VectorQuery query 3;
             ChatCompletion (PROMPT_TEMPLATE query (join nl documents))
                            500 (1 # 10)])%list).
Proof.
  intros H. unfold generate, Retrieval.retrieve_docs, bind, print, call, ret.
  rewrite H. cbv zeta.
  destruct (chat_completion world _ 500 (1 # 10));
    now rewrite <- !List.app_assoc.
Qed.

Lemma generate_outcome (query : string) (tr : list event) :
  vector_queries (snd (generate query tr))
  = (vector_queries tr ++ [VectorQuery query 3])%list /\
  db_calls (snd (generate query tr)) = db_calls tr /\
  (forall e,
      collection_query world query 3 = Raise e ->
      fst (generate query tr) = Raise e /\
      completion_calls (snd (generate query tr)) = completion_calls tr) /\
  (forall documents,
      collection_query world query 3 = Return documents ->
      fst (generate query tr)
      = match chat_completion world
                (PROMPT_TEMPLATE query (join nl documents)) 500 (1 # 10) with
        | Return content => Return (clean content)
        | Raise e => Raise e
        end /\
      completion_calls (snd (generate query tr))
      = (completion_calls tr
         ++ [ChatCompletion (PROMPT_TEMPLATE query (join nl documents))
                            500 (1 # 10)])%list).
Proof.
  destruct (collection_query world query 3) as [documents|e] eqn:H.
  - rewrite (generate_asked query documents tr H). cbn [fst snd].
    rewrite vector_queries_app, db_calls_app.
    repeat apply conj.
    + reflexivity.
    + cbn [db_calls filter]. apply List.app_nil_r.
    + discriminate.
    + intros documents' E. injection E as <-.
      split; [reflexivity|].
      now rewrite PipelineExtras.completion_calls_app.
  - rewrite (generate_index_failed query e tr H). cbn [fst snd].
    rewrite vector_queries_app, db_calls_app.
    repeat apply conj.
    + reflexivity.
    + cbn [db_calls filter]. apply List.app_nil_r.
    + intros e' E. injection E as <-. split; [reflexivity|].
      rewrite PipelineExtras.completion_calls_app.
      cbn [completion_calls filter]. apply List.app_nil_r.
    + discriminate.
Qed.

End Generate.

(** X16: [generate_sql] of LLM.py and of main_app asks the vector index
    once, for three documents, and never calls the database.  When the
    index fails, its error goes to the caller and the completion endpoint
    is not called; otherwise the endpoint is called once, with at most 500
    tokens at temperature 0.1, on the prompt built from the question and
    the documents joined by line feeds, and its error goes to the caller
    or its text is cleaned and returned. *)
Theorem X16_generate_sql_outcome
        (world : World) (query : string) (tr : list event) :
  (vector_queries (snd (LLM.generate_sql world query tr))
   = (vector_queries tr ++ [VectorQuery query 3])%list /\
   db_calls (snd (LLM.generate_sql world query tr)) = db_calls tr /\
   (forall e,
       collection_query world query 3 = Raise e ->
       fst (LLM.generate_sql world query tr) = Raise e /\
       completion_calls (snd (LLM.generate_sql world query tr))
       = completion_calls tr) /\
   (forall documents,
       collection_query world query 3 = Return documents ->
       fst (LLM.generate_sql world query tr)
       = match chat_completion world
                 (LLM.PROMPT_TEMPLATE query (join nl documents)) 500 (1 # 10) with
         | Return content => Return (LLM.generate_sql_clean content)
         | Raise e => Raise e
         end /\
       completion_calls (snd (LLM.generate_sql world query tr))
       = (completion_calls tr
          ++ [ChatCompletion (LLM.PROMPT_TEMPLATE query (join nl documents))
                             500 (1 # 10)])%list)) /\
  (vector_queries (snd (MainAppRun.generate_sql world query tr))
   = (vector_queries tr ++ [VectorQuery query 3])%list /\
   db_calls (snd (MainAppRun.generate_sql world query tr)) = db_calls tr /\
   (forall e,
       collection_query world query 3 = Raise e ->
       fst (MainAppRun.generate_sql world query tr) = Raise e /\
       completion_calls (snd (MainAppRun.generate_sql world query tr))
       = completion_calls tr) /\
   (forall documents,
       collection_query world query 3 = Return documents ->
       fst (MainAppRun.generate_sql world query tr)
       = match chat_completion world
                 (MainAppRun.PROMPT_TEMPLATE query (join nl documents))
                 500 (1 # 10) with
         | Return content => Return (MainApp.generate_sql_clean content)
         | Raise e => Raise e
         end /\
       completion_calls (snd (MainAppRun.generate_sql world query tr))
       = (completion_calls tr
          ++ [ChatCompletion
                (MainAppRun.PROMPT_TEMPLATE query (join nl documents))
                500 (1 # 10)])%list)).
Proof.
  split.
  - exact (generate_outcome world LLM.PROMPT_TEMPLATE LLM.generate_sql_clean
             query tr).
  - exact (generate_outcome world MainAppRun.PROMPT_TEMPLATE
             MainApp.generate_sql_clean query tr).
Qed.

End SessionExtras.

(* ================================================================== *)
(** * The page of stream_app *)

Module PageExtras.
Import Py PipelineFacts Streamlit.

Lemma has_column_iff (df : DataFrame) (c : string) :
  has_column df c = true <-> In c (columns df).
Proof.
  unfold has_column. rewrite existsb_exists. split.
  - intros (x & Hin & E). apply String.eqb_eq in E. now subst x.
  - intros H. exists c. split; [exact H | apply String.eqb_refl].
Qed.

(** The column that [safe_column] finds for a pair of candidates. *)
Lemma safe_column_pair (df : DataFrame) (a b : string) :
  StreamAppPage.safe_column df [a; b]
  = (if has_column df a then Some a
     else if has_column df b then Some b else None).
Proof. reflexivity. Qed.

(** X17: [safe_column] returns the first candidate that names a column of
    the frame: the candidates before it name none; it returns [None] when
    no candidate names a column. *)
Theorem X17_safe_column_finds_the_first
        (df : DataFrame) (candidates : list string) :
  (forall c,
      StreamAppPage.safe_column df candidates = Some c <->
      exists before after,
        candidates = (before ++ c :: after)%list /\
        In c (columns df) /\
        forall b, In b before -> ~ In b (columns df)) /\
  (StreamAppPage.safe_column df candidates = None <->
   forall c, In c candidates -> ~ In c (columns df)).
Proof.
  unfold StreamAppPage.safe_column. split.
  - intros c. induction candidates as [|a rest IH]; cbn [find].
    + split; [discriminate|]. intros (before & after & E & _).
      now destruct before.
    + destruct (has_column df a) eqn:Ha.
      * split.
        -- intros H. injection H as <-. exists [], rest.
           repeat split; [now apply has_column_iff | intros b []].
        -- intros (before & after & E & Hc & Hb).
           destruct before as [|b before]; [now injection E as -> |].
           injection E as <- _. exfalso. apply (Hb a); [now left|].
           now apply has_column_iff.
      * rewrite IH. split.
        -- intros (before & after & -> & Hc & Hb). exists (a :: before), after.
           repeat split; [exact Hc|]. intros b [<-|Hin]; [|now apply Hb].
           rewrite <- has_column_iff. congruence.
        -- intros (before & after & E & Hc & Hb).
           destruct before as [|b before].
           ++ injection E as -> _. apply has_column_iff in Hc. congruence.
           ++ injection E as _ ->. exists before, after.
              repeat split; [exact Hc|]. intros x Hx. apply Hb. now right.
  - rewrite ValidatorFacts.find_none_iff. split.
    + intros H c Hin. rewrite <- has_column_iff. rewrite (H c Hin). discriminate.
    + intros H c Hin. apply not_true_is_false. rewrite has_column_iff.
      now apply H.
Qed.

(** X18: the two frontends on a frame with data.  Where streamlit_app
    draws the map, stream_app draws the same map.  Where streamlit_app
    draws the profile, stream_app draws the profile of the same columns,
    or a map that it finds through a column named in upper case.  Where
    stream_app finds nothing to draw, streamlit_app shows the frame. *)
Theorem X18_visualize_of_the_two_frontends (df : DataFrame) :
  empty df = false ->
  (In (st_map df "latitude" "longitude") (StreamlitAppRun.visualize df) ->
   StreamAppPage.visualize df
   = [st_write "### 📊 Visualization"; st_map df "latitude" "longitude"]) /\
  (forall fig wide,
      In (st_plotly_chart fig wide) (StreamlitAppRun.visualize df) ->
      (exists lat lon,
          StreamAppPage.visualize df
          = [st_write "### 📊 Visualization"; st_map df lat lon] /\
          (lat = "LATITUDE" \/ lon = "LONGITUDE")) \/
      (exists fig',
          StreamAppPage.visualize df
          = [st_write "### 📊 Visualization"; st_plotly_chart fig' wide] /\
          frame fig' = frame fig /\ sort_by fig' = sort_by fig /\
          x fig' = x fig /\ y fig' = y fig /\
          y_reversed fig' = y_reversed fig)) /\
  (In (st_info "Could not generate a specific plot. Displaying raw data.")
      (StreamAppPage.visualize df) ->
   StreamlitAppRun.visualize df
   = [st_write "### Visualization"; st_dataframe df]).
Proof.
  intros He.
  unfold StreamAppPage.visualize, StreamlitAppRun.visualize.
  rewrite He. cbv zeta. rewrite !safe_column_pair.
  destruct (has_column df "latitude") eqn:Hlat;
    destruct (has_column df "longitude") eqn:Hlon;
    destruct (has_column df "pressure") eqn:Hp;
    destruct (has_column df "temperature") eqn:Ht;
    destruct (has_column df "LATITUDE") eqn:HLAT;
    destruct (has_column df "LONGITUDE") eqn:HLON;
    destruct (has_column df "PRES") eqn:HP;
    destruct (has_column df "TEMP") eqn:HT;
    cbn [andb];
    (repeat apply conj;
     [ intros [H|[H|[]]]; try discriminate H; reflexivity
     | intros fig wide [H|[H|[]]]; try discriminate H;
       injection H as <- <-;
       first [ left; do 2 eexists; split; [reflexivity | tauto]
             | right; eexists; repeat split ]
     | intros [H|[H|[]]]; try discriminate H; reflexivity ]).
Qed.

Lemma X18_visualize_of_the_two_frontends_witness :
  StreamAppPage.visualize
    {| columns := ["latitude"; "longitude"; "juld"];
       rows := [["-31.5"; "12.25"; "2004-03-01"]] |}
  = [st_write "### 📊 Visualization";
     st_map {| columns := ["latitude"; "longitude"; "juld"];
               rows := [["-31.5"; "12.25"; "2004-03-01"]] |}
            "latitude" "longitude"].
Proof.
  apply (X18_visualize_of_the_two_frontends
           {| columns := ["latitude"; "longitude"; "juld"];
              rows := [["-31.5"; "12.25"; "2004-03-01"]] |}).
  - reflexivity.
  - vm_compute. tauto.
Defined.

(** X19: the page of stream_app after a question whose statement was
    rejected by the validator, or failed in the database, or returned a
    frame without data, is the same in the three cases: the summary
    [Query executed successfully.], the candidate statement, and the
    warning that the query returned no results. *)
Theorem X19_failures_displayed_as_no_results
        (fmt : string -> string) (world : World) (query : string) (k : nat)
        (documents : list string) (content : string) :
  collection_query world query k = Return documents ->
  chat_completion world
    (RagEngine.SQL_PROMPT_TEMPLATE query (join nl documents)) 500 0
  = Return content ->
  (exists e,
      RagEngine._sanitize_sql fmt (RagEngine.generate_sql_clean content)
      = Raise e) \/
  (exists out e,
      RagEngine._sanitize_sql fmt (RagEngine.generate_sql_clean content)
      = Return out /\
      read_sql world out = Raise e) \/
  (exists out d,
      RagEngine._sanitize_sql fmt (RagEngine.generate_sql_clean content)
      = Return out /\
      read_sql world out = Return d /\ empty d = true) ->
  exists last_result,
    fst (run (StreamApp.process_query fmt world query k)) = Return last_result /\
    StreamAppPage.display last_result
    = [st_markdown "##### 💬 Summary";
       st_info "Query executed successfully.";
       st_expander "🔍 View Generated SQL Query"
                   [st_code (RagEngine.generate_sql_clean content) "sql"];
       st_warning "The query returned no results. Try rephrasing your question or adjusting the data ranges."].
Proof.
  intros H1 H2 [(e & H3) | [(out & e & H3 & H4) | (out & d & H3 & H4 & H5)]].
  - pose proof (PipelineExtras.block_rejected
                  fmt world query k documents content e H1 H2 H3) as E.
    cbv zeta in E. rewrite E. eexists. split; reflexivity.
  - pose proof (PipelineExtras.block_database_failed
                  fmt world query k documents content out e H1 H2 H3 H4) as E.
    cbv zeta in E. rewrite E. eexists. split; reflexivity.
  - pose proof (PipelineExtras.block_no_rows
                  fmt world query k documents content out d H1 H2 H3 H4 H5) as E.
    cbv zeta in E. rewrite E. eexists. split; [reflexivity|].
    unfold StreamAppPage.display. cbn [StreamApp.df StreamApp.summary StreamApp.sql].
    rewrite H5. reflexivity.
Qed.

Lemma X19_failures_displayed_as_no_results_witness :
  exists last_result,
    fst (run (StreamApp.process_query Observed.format
                (Outside.database_down "SELECT 1" "connection refused")
                "surface temperature" 3)) = Return last_result /\
    StreamAppPage.display last_result
    = [st_markdown "##### 💬 Summary";
       st_info "Query executed successfully.";
       st_expander "🔍 View Generated SQL Query"
                   [st_code (RagEngine.generate_sql_clean "SELECT 1") "sql"];
       st_warning "The query returned no results. Try rephrasing your question or adjusting the data ranges."].
Proof.
  apply (X19_failures_displayed_as_no_results
           Observed.format
           (Outside.database_down "SELECT 1" "connection refused")
           "surface temperature" 3
           ["Float 1900121, South Atlantic"] "SELECT 1" eq_refl eq_refl).
  right. left. exists "SELECT 1", (Failure "connection refused").
  split; [vm_compute; reflexivity | reflexivity].
Defined.

End PageExtras.

(* ================================================================== *)
(** * The chat of streamlit_app *)

Module ChatExtras.
Import Py PyFacts ValidatorFacts RevalidationFacts PipelineFacts Streamlit.
Import StreamlitAppRun.

(** ** What reaches the database *)

Section SendsOnly.

Variable ok : string -> Prop.











End SendsOnly.



Section Chat.

Variable fmt : string -> string.
Variable world : World.
Variable render : DataFrame -> string.






End Chat.


(** ** The caches *)

Section Caches.

Variable fmt : string -> string.
Variable world : World.
Variable render : DataFrame -> string.

Lemma generate_sql_stored (user_query sql : string) (s : Session)
      (tr : list event) :
  lookup user_query (generated (cache s)) = Some sql ->
  generate_sql world render user_query s tr = (Return sql, s, tr).
Proof. intros H. unfold generate_sql, cached. now rewrite H. Qed.

Lemma generate_sql_fresh (user_query : string) (s : Session) (tr : list event)
      (d0 : DataFrame) (documents : list string) (content : string) :
  lookup user_query (generated (cache s)) = None ->
  data_summary (cache s) = Some d0 ->
  collection_query world user_query 3 = Return documents ->
  chat_completion world
    (PROMPT_TEMPLATE (render d0) user_query (join nl documents)) 500 0
  = Return content ->
  generate_sql world render user_query s tr
  = (Return (StreamlitApp.generate_sql_clean content),
     set_cache {| data_summary := data_summary (cache s);
                  generated := (user_query, StreamlitApp.generate_sql_clean content)
                               :: generated (cache s);
                  fetched := fetched (cache s) |} s,
     (tr ++ [Print (nl ++ "Searching for '" ++ user_query ++ "'...");
             VectorQuery user_query 3;
             ChatCompletion
               (PROMPT_TEMPLATE (render d0) user_query (join nl documents))
               500 0])%list).
Proof.
  intros H0 H1 H2 H3.
  unfold generate_sql, cached at 1. rewrite H0.
  unfold ui_bind at 1. unfold get_data_summary, cached. rewrite H1.
  cbv zeta. unfold ui_bind at 1.
  unfold ui_lift at 1, Retrieval.retrieve_docs, bind, print, call.
  rewrite H2. unfold ui_bind, ui_lift, call, ui_ret. rewrite H3.
  now rewrite ?H1, <- !List.app_assoc.
Qed.

Lemma run_sql_fetch_stored (sql : string) (d : DataFrame) (s : Session)
      (tr : list event) :
  lookup sql (fetched (cache s)) = Some d ->
  run_sql_fetch fmt world sql s tr = (Return d, s, tr).
Proof. intros H. unfold run_sql_fetch, cached. now rewrite H. Qed.


Lemma run_sql_fetch_fresh (sql out : string) (d : DataFrame) (s : Session)
      (tr : list event) :
  lookup sql (fetched (cache s)) = None ->
  StreamlitApp.sanitize_sql fmt sql = Return out ->
  read_sql world out = Return d ->
  run_sql_fetch fmt world sql s tr
  = (Return d,
     set_cache {| data_summary := data_summary (cache s);
                  generated := generated (cache s);
                  fetched := (sql, d) :: fetched (cache s) |} s,
     (tr ++ [ReadSql out])%list).
Proof.
  intros H0 H1 H2. unfold run_sql_fetch, cached. rewrite H0.
  unfold ui_lift, StreamlitApp.run_sql_fetch, bind, lift, call.
  now rewrite H1, H2.
Qed.

Lemma lookup_head {A : Type} (k : string) (a : A) (table : list (string * A)) :
  lookup k ((k, a) :: table) = Some a.
Proof. cbn [lookup]. now rewrite String.eqb_refl. Qed.

End Caches.

(** ** One question, asked once and asked again *)

Section Runs.

Variable fmt : string -> string.
Variable world : World.
Variable render : DataFrame -> string.

(** What the assistant shows for a frame. *)
Let answer (sql : string) (d : DataFrame) : list Widget :=
  ([st_write "🔍 **Generated SQL Query:**";
    st_code sql "sql";
    st_metric "Rows Returned" (List.length (rows d))]
   ++ (if empty d
       then [st_warning "**The query returned no results.** Try asking a question that fits within the available data ranges shown above."]
       else st_dataframe d :: visualize d))%list.

Let found (d : DataFrame) : Message :=
  {| role := "assistant";
     content := "Found " ++ str_nat (List.length (rows d))
                ++ " results for your query." |}.



Lemma on_prompt_answered (c : ascii) (p sql : string) (d : DataFrame)
      (s : Session) (tr : list event) :
  lookup (String c p) (generated (cache s)) = Some sql ->
  lookup sql (fetched (cache s)) = Some d ->
  on_prompt fmt world render (Some (String c p)) s tr
  = (Return tt,
     {| cache := cache s;
        messages := (messages s ++ [{| role := "user"; content := String c p |};
                                    found d])%list;
        page := (page s
                 ++ [st_chat_message "user" [st_markdown (String c p)];
                     st_chat_message "assistant" (answer sql d)])%list |},
     tr).
Proof.
  intros H1 H2.
  unfold on_prompt, ui_bind, within, ui_try, show, show_all, append_message.
  cbn [set_page cache messages page].
  erewrite generate_sql_stored by exact H1.
  cbv beta iota. cbn [set_page cache messages page].
  erewrite run_sql_fetch_stored by exact H2.
  cbv beta iota zeta. unfold answer, found.
  destruct (empty d); cbv beta iota; unfold set_page;
    cbn [cache messages page app];
    now rewrite <- !List.app_assoc.
Qed.

Lemma on_prompt_answered_fresh (c : ascii) (p out : string) (d : DataFrame)
      (s : Session) (tr : list event) (d0 : DataFrame)
      (documents : list string) (content : string) :
  lookup (String c p) (generated (cache s)) = None ->
  data_summary (cache s) = Some d0 ->
  collection_query world (String c p) 3 = Return documents ->
  chat_completion world
    (PROMPT_TEMPLATE (render d0) (String c p) (join nl documents)) 500 0
  = Return content ->
  lookup (StreamlitApp.generate_sql_clean content) (fetched (cache s)) = None ->
  StreamlitApp.sanitize_sql fmt (StreamlitApp.generate_sql_clean content)
  = Return out ->
  read_sql world out = Return d ->
  on_prompt fmt world render (Some (String c p)) s tr
  = (Return tt,
     {| cache := {| data_summary := Some d0;
                    generated := (String c p, StreamlitApp.generate_sql_clean content)
                                 :: generated (cache s);
                    fetched := (StreamlitApp.generate_sql_clean content, d)
                               :: fetched (cache s) |};
        messages := (messages s ++ [{| role := "user"; content := String c p |};
                                    found d])%list;
        page := (page s
                 ++ [st_chat_message "user" [st_markdown (String c p)];
                     st_chat_message "assistant"
                       (answer (StreamlitApp.generate_sql_clean content) d)])%list |},
     (tr ++ [Print (nl ++ "Searching for '" ++ String c p ++ "'...");
             VectorQuery (String c p) 3;
             ChatCompletion
               (PROMPT_TEMPLATE (render d0) (String c p) (join nl documents))
               500 0;
             ReadSql out])%list).
Proof.
  intros H0 H1 H2 H3 H4 H5 H6.
  unfold on_prompt, ui_bind, within, ui_try, show, show_all, append_message.
  cbn [set_page cache messages page].
  erewrite generate_sql_fresh
    by (first [exact H0 | exact H1 | exact H2 | exact H3]).
  cbv beta iota. cbn [set_page set_cache cache messages page fetched].
  erewrite run_sql_fetch_fresh by (first [exact H4 | exact H5 | exact H6]).
  cbv beta iota zeta. unfold answer, found.
  destruct (empty d); cbv beta iota; unfold set_page, set_cache;
    cbn [cache messages page app data_summary generated fetched];
    now rewrite H1, <- !List.app_assoc.
Qed.

End Runs.



(** X22: a question that is answered.  The first time the index, the
    endpoint and the database are called once each, in this order, and the
    assistant message tells the number of rows of the frame.  When the
    same question is sent again, whatever the outside would answer now,
    nothing outside is called: the candidate and the frame come from the
    caches, and the same answer is shown and stored again. *)
Theorem X22_answered_question_asked_again
        (fmt : string -> string) (world : World) (render : DataFrame -> string)
        (prompt : string) (s : Session) (tr : list event) (d0 : DataFrame)
        (documents : list string) (content out : string) (d : DataFrame) :
  prompt <> "" ->
  lookup prompt (generated (cache s)) = None ->
  data_summary (cache s) = Some d0 ->
  collection_query world prompt 3 = Return documents ->
  chat_completion world
    (PROMPT_TEMPLATE (render d0) prompt (join nl documents)) 500 0
  = Return content ->
  lookup (StreamlitApp.generate_sql_clean content) (fetched (cache s)) = None ->
  StreamlitApp.sanitize_sql fmt (StreamlitApp.generate_sql_clean content)
  = Return out ->
  read_sql world out = Return d ->
  exists s1 answer,
    on_prompt fmt world render (Some prompt) s tr
    = (Return tt, s1,
       (tr ++ [Print (nl ++ "Searching for '" ++ prompt ++ "'...");
               VectorQuery prompt 3;
               ChatCompletion
                 (PROMPT_TEMPLATE (render d0) prompt (join nl documents)) 500 0;
               ReadSql out])%list) /\
    page s1 = (page s ++ answer)%list /\
    messages s1
    = (messages s
       ++ [{| role := "user"; content := prompt |};
           {| role := "assistant";
              content := "Found " ++ str_nat (List.length (rows d))
                         ++ " results for your query." |}])%list /\
    forall (world' : World) (render' : DataFrame -> string) (tr' : list event),
      on_prompt fmt world' render' (Some prompt) (set_page [] s1) tr'
      = (Return tt,
         {| cache := cache s1;
            messages :=
              (messages s1
               ++ [{| role := "user"; content := prompt |};
                   {| role := "assistant";
                      content := "Found " ++ str_nat (List.length (rows d))
                                 ++ " results for your query." |}])%list;
            page := answer |},
         tr').
Proof.
  intros Hp H0 H1 H2 H3 H4 H5 H6.
  destruct prompt as [|c p]; [now elim Hp|].
  pose proof (on_prompt_answered_fresh fmt world render c p out d s tr d0
                documents content H0 H1 H2 H3 H4 H5 H6) as E.
  cbv zeta in E. rewrite E.
  do 2 eexists. split; [reflexivity|]. cbn [cache messages page].
  split; [reflexivity|]. split; [reflexivity|].
  intros world' render' tr'.
  pose proof (on_prompt_answered fmt world' render' c p
                (StreamlitApp.generate_sql_clean content) d) as E'.
  cbv zeta in E'. rewrite E'.
  - reflexivity.
  - cbn [set_page cache generated]. apply lookup_head.
  - cbn [set_page cache fetched]. apply lookup_head.
Qed.

Lemma X22_answered_question_asked_again_witness :
  exists s1,
    on_prompt Observed.format (Observed.world "SELECT 1")
              (fun _ => "no summary") (Some "surface temperature")
              {| cache := {| data_summary := Some {| columns := []; rows := [] |};
                             generated := []; fetched := [] |};
                 messages := []; page := [] |} []
    = (Return tt, s1,
       [Print (nl ++ "Searching for '" ++ "surface temperature" ++ "'...");
        VectorQuery "surface temperature" 3;
        ChatCompletion
          (PROMPT_TEMPLATE "no summary" "surface temperature"
             (join nl ["Float 1900121, South Atlantic"])) 500 0;
        ReadSql "SELECT 1 LIMIT 1000"]).
Proof.
  pose proof (X22_answered_question_asked_again
                Observed.format (Observed.world "SELECT 1")
                (fun _ => "no summary") "surface temperature"
                {| cache := {| data_summary := Some {| columns := []; rows := [] |};
                               generated := []; fetched := [] |};
                   messages := []; page := [] |} []
                {| columns := []; rows := [] |}
                ["Float 1900121, South Atlantic"] "SELECT 1"
                "SELECT 1 LIMIT 1000"
                {| columns := ["pressure"]; rows := [["10.0"]] |}) as H.
  assert (Hp : "surface temperature" <> "") by discriminate.
  assert (E : StreamlitApp.sanitize_sql Observed.format
                (StreamlitApp.generate_sql_clean "SELECT 1")
              = Return "SELECT 1 LIMIT 1000")
    by (vm_compute; reflexivity).
  destruct (H Hp eq_refl eq_refl eq_refl eq_refl eq_refl E eq_refl)
    as (s1 & answer & A & _).
  exists s1. exact A.
Defined.

End ChatExtras.
